(** * Quiz duel backend: the real-time match engine

    A shallow embedding of [api/models.py] (the game-related model methods)
    and of [game/consumers.py] (the matchmaking and the game consumers),
    with the properties of the match engine proved or refuted on it.

    Conventions of the embedding.
    - Django integer fields and Python integers are [Z]; Python's [//] is
      [Z.div] (both round towards minus infinity for a positive divisor).
    - A latency is a JSON number; it is only copied and compared with the
      integer thresholds of the scoring policy, so it is a rational [Q].
    - A Python [dict] used as a map is a [gmap], a [set] a [gset]; the
      waiting queue, whose insertion order is read, is an association list.
    - Columns and frame keys that the consumers never read or write are
      left out; a latency, where a frame carries one, is a number.
    - A coroutine is run up to its next [asyncio.sleep]; what follows the
      sleep is always a tail call and is recorded as an [After] effect that
      names the task to resume.  Database calls and channel-layer sends are
      taken as atomic. *)

From Stdlib Require Import ZArith QArith Qminmax Permutation.
From stdpp Require Import gmap strings list fin_maps.

Local Open Scope Z_scope.

(* ===================================================================== *)
(** ** api/models.py *)
(* ===================================================================== *)

Module Models.

(** [User]: the game-related columns of the custom user model.  A row
    is stored under its primary key, which is therefore not a field. *)
Record User := mkUser {
  username : string;
  avatar : option string;
  rating : Z;
  level : Z;
  wins : Z;
  losses : Z;
  is_online : bool;
  is_in_game : bool
}.

(** [User.update_rating], the in-memory part: the fields of [self] after
    the call ([self.save()] is [Db.save_user], applied by the callers). *)
Definition update_rating (self : User) (won : bool) : User :=
  let self1 :=
    if won then
      mkUser (username self) (avatar self)
             (rating self + 20) (level self) (wins self + 1) (losses self)
             (is_online self) (is_in_game self)
    else
      mkUser (username self) (avatar self)
             (Z.max 0 (rating self - 15)) (level self) (wins self)
             (losses self + 1) (is_online self) (is_in_game self) in
  mkUser (username self1) (avatar self1)
         (rating self1) (rating self1 / 200 + 1) (wins self1) (losses self1)
         (is_online self1) (is_in_game self1).

Record Category := mkCategory {
  category_pk : Z;
  category_name : string
}.

Record Question := mkQuestion {
  question_pk : Z;
  text : string;
  option_a : string;
  option_b : string;
  option_c : string;
  option_d : string;
  correct_option : string;
  explanation : string;
  category : Category
}.

Inductive Status := waiting | in_progress | completed | cancelled.

Record Match := mkMatch {
  player1_id : Z;
  player2_id : Z;
  score1 : Z;
  score2 : Z;
  winner : option Z;
  status : Status;
  current_round : Z;
  total_rounds : Z;
  started_at : option Q;
  ended_at : option Q
}.

Record Round := mkRound {
  round_match_id : Z;
  round_number : Z;
  question : Question;
  player1_answer : option string;
  player2_answer : option string;
  player1_time : option Q;
  player2_time : option Q;
  player1_score : Z;
  player2_score : Z
}.

(** [Round.calculate_score]. *)
Definition calculate_score (time_taken : Q) (is_correct : bool) : Z :=
  if negb is_correct then 0
  else if Qle_bool time_taken (3 # 1) then 100
  else if Qle_bool time_taken (7 # 1) then 70
  else 40.

Record MatchHistory := mkMatchHistory {
  mh_user : Z;
  mh_match : Z;
  mh_opponent : Z;
  user_score : Z;
  opponent_score : Z;
  is_winner : bool;
  rating_change : Z
}.

End Models.
Export Models.

(* ===================================================================== *)
(** ** Outbound frames and channel-layer events *)
(* ===================================================================== *)

Module Wire.

Record PlayerCard := mkPlayerCard {
  card_id : Z;
  card_username : string;
  card_avatar : option string;
  card_rating : Z
}.

(** The dictionary built by [get_match_data]. *)
Record MatchData := mkMatchData {
  md_id : Z;
  md_player1 : PlayerCard;
  md_player2 : PlayerCard;
  md_total_rounds : Z
}.

(** The dictionary built by [get_round_question]. *)
Record QuestionData := mkQuestionData {
  qd_id : Z;
  qd_text : string;
  qd_A : string;
  qd_B : string;
  qd_C : string;
  qd_D : string;
  qd_category : string
}.

(** One entry of [result['players']] in [calculate_round_result]. *)
Record PlayerResult := mkPlayerResult {
  pr_answer : option string;
  pr_time : Q;
  pr_score : Z;
  pr_correct : bool
}.

Record RoundResult := mkRoundResult {
  rr_correct_answer : string;
  rr_explanation : string;
  rr_players : gmap Z PlayerResult;
  rr_total_scores : gmap Z Z
}.

Record RoundReview := mkRoundReview {
  rv_round_number : Z;
  rv_text : string;
  rv_correct_answer : string;
  rv_explanation : string;
  rv_player1_answer : option string;
  rv_player2_answer : option string;
  rv_player1_score : Z;
  rv_player2_score : Z
}.

Record PlayerFinal := mkPlayerFinal {
  pf_id : Z;
  pf_username : string;
  pf_score : Z;
  pf_new_rating : Z
}.

(** The dictionary returned by [finalize_match]. *)
Record MatchResult := mkMatchResult {
  mr_winner_id : option Z;
  mr_player1 : PlayerFinal;
  mr_player2 : PlayerFinal;
  mr_rounds : list RoundReview
}.

(** What a consumer writes to its own websocket ([self.send]). *)
Inductive Frame :=
| f_matchmaking_start (message : string)
| f_matchmaking_cancelled
| f_match_found (m : MatchData)
| f_connected (match_id : Z) (ready : nat)
| f_game_start (message : string)
| f_question_start (round : Z) (q : QuestionData)
| f_answer_submitted (user_id : Z)
| f_round_end (round : Z) (result : RoundResult)
| f_match_end (result : MatchResult)
| f_emoji_received (emoji : option string).

(** What travels on the channel layer; the constructor is the ['type']
    key, which selects the handler of the receiving consumer. *)
Inductive Event :=
| match_found_ev (m : MatchData)
| game_start_ev
| question_start_ev (round : Z) (q : QuestionData)
| answer_submitted_ev (user_id : Z)
| round_end_ev (round : Z) (result : RoundResult)
| match_end_ev (result : MatchResult)
| emoji_received_ev (user_id : Z) (emoji : option string).

(** The rest of a coroutine after an [asyncio.sleep]. *)
Inductive Task :=
| start_round_task
| end_match_task
| round_timeout_task (round_number : Z).

(** [room_group_name = f'game_{match_id}']. *)
Definition Group := Z.

Inductive Effect :=
| Accept (channel : string)
| Close (channel : string)
| Send (channel : string) (f : Frame)
| ChannelSend (channel : string) (e : Event)
| GroupSend (g : Group) (e : Event)
| GroupAdd (g : Group) (channel : string)
| GroupDiscard (g : Group) (channel : string)
| After (seconds : Z) (channel : string) (t : Task).

End Wire.
Export Wire.

(* ===================================================================== *)
(** ** The server's state and the monad of the handlers *)
(* ===================================================================== *)

Module Server.

(** The tables the engine reads and writes. *)
Record Db := mkDb {
  users : gmap Z User;
  questions : list Question;
  matches : gmap Z Match;
  next_match_pk : Z;
  rounds : list Round;
  history : list MatchHistory
}.

(** One value of [state['round_answers'][round]]. *)
Record AnswerData := mkAnswerData {
  answer : option string;
  time : Q
}.

(** One value of [GameConsumer.game_states]. *)
Record GameState := mkGameState {
  players_ready : gset Z;
  current_round : Z;
  round_answers : gmap Z (gmap Z AnswerData);
  round_start_time : option Q;
  emojis_sent : gmap Z Z
}.

Record World := mkWorld {
  waiting_players : list (Z * string);
  game_states : gmap Z GameState;
  db : Db;
  clock : Q
}.

Inductive Exn :=
| User_DoesNotExist
| Match_DoesNotExist
| Round_DoesNotExist
| AttributeError.

Inductive Res (A : Type) :=
| Ok (a : A)
| Raise (e : Exn).
Arguments Ok {A} a.
Arguments Raise {A} e.

(** A handler: from a world to a result or an exception, the world it
    leaves (writes made before an exception stay), and what it sent. *)
Definition M (A : Type) : Type := World → Res A * World * list Effect.

#[global] Instance M_ret : MRet M := λ A a w, (Ok a, w, []).

#[global] Instance M_bind : MBind M := λ A B f m w,
  match m w with
  | (Ok a, w1, out1) =>
      match f a w1 with
      | (r, w2, out2) => (r, w2, out1 ++ out2)
      end
  | (Raise e, w1, out1) => (Raise e, w1, out1)
  end.

Definition raise {A} (e : Exn) : M A := λ w, (Raise e, w, []).
Definition emit (e : Effect) : M unit := λ w, (Ok tt, w, [e]).
Definition gets {A} (f : World → A) : M A := λ w, (Ok (f w), w, []).
Definition modify (f : World → World) : M unit := λ w, (Ok tt, f w, []).

Definition set_waiting_players (q : list (Z * string)) : M unit :=
  modify (λ w, mkWorld q (game_states w) (db w) (clock w)).
Definition set_game_states (g : gmap Z GameState) : M unit :=
  modify (λ w, mkWorld (waiting_players w) g (db w) (clock w)).
Definition set_db (d : Db) : M unit :=
  modify (λ w, mkWorld (waiting_players w) (game_states w) d (clock w)).

(** [timezone.now()]. *)
Definition now : M Q := gets clock.

Definition result_of {A} (r : Res A * World * list Effect) : Res A := r.1.1.
Definition world_of {A} (r : Res A * World * list Effect) : World := r.1.2.
Definition sent_of {A} (r : Res A * World * list Effect) : list Effect := r.2.

End Server.
Export Server.

(* ===================================================================== *)
(** ** A Python [dict] whose insertion order is read *)
(* ===================================================================== *)

Module PyDict.
Section Dict.
Context {V : Type}.

(** [k in d]. *)
Definition mem (k : Z) (d : list (Z * V)) : bool :=
  existsb (λ kv, bool_decide (kv.1 = k)) d.

(** [d[k] = v]: a present key keeps its place, a new one goes last. *)
Fixpoint set (k : Z) (v : V) (d : list (Z * V)) : list (Z * V) :=
  match d with
  | [] => [(k, v)]
  | (k', v') :: d' =>
      if bool_decide (k' = k) then (k, v) :: d' else (k', v') :: set k v d'
  end.

(** [del d[k]]. *)
Definition del (k : Z) (d : list (Z * V)) : list (Z * V) :=
  filter (λ kv, kv.1 ≠ k) d.

(** [list(d.items())[0]], for a non-empty [d]. *)
Definition first_item (d : list (Z * V)) : option (Z * V) := head d.
End Dict.
End PyDict.

(* ===================================================================== *)
(** ** The ORM calls of the consumers *)
(* ===================================================================== *)

Module Orm.

Definition with_users (f : gmap Z User → gmap Z User) (d : Db) : Db :=
  mkDb (f (users d)) (questions d) (matches d) (next_match_pk d)
       (rounds d) (history d).
Definition with_matches (f : gmap Z Match → gmap Z Match) (d : Db) : Db :=
  mkDb (users d) (questions d) (f (matches d)) (next_match_pk d)
       (rounds d) (history d).
Definition with_rounds (f : list Round → list Round) (d : Db) : Db :=
  mkDb (users d) (questions d) (matches d) (next_match_pk d)
       (f (rounds d)) (history d).
Definition with_history (f : list MatchHistory → list MatchHistory) (d : Db) : Db :=
  mkDb (users d) (questions d) (matches d) (next_match_pk d)
       (rounds d) (f (history d)).

Definition update_db (f : Db → Db) : M unit :=
  d ← gets db; set_db (f d).

(** [User.objects.get(id=pk)]. *)
Definition get_user (pk : Z) : M User :=
  d ← gets db;
  match users d !! pk with
  | Some u => mret u
  | None => raise User_DoesNotExist
  end.

(** [user.save()], for the object loaded from row [pk]. *)
Definition save_user (pk : Z) (u : User) : M unit :=
  update_db (with_users (insert pk u)).

Definition set_is_online (b : bool) (u : User) : User :=
  mkUser (username u) (avatar u) (rating u) (level u) (wins u)
         (losses u) b (is_in_game u).
Definition set_is_in_game (b : bool) (u : User) : User :=
  mkUser (username u) (avatar u) (rating u) (level u) (wins u)
         (losses u) (is_online u) b.

(** [User.objects.filter(id__in=pks).update(...)]. *)
Definition update_users (pks : list Z) (f : User → User) : M unit :=
  update_db (with_users (λ us, foldr (λ pk acc, alter f pk acc) us pks)).

(** [Match.objects.get(id=pk)]. *)
Definition get_match (pk : Z) : M Match :=
  d ← gets db;
  match matches d !! pk with
  | Some m => mret m
  | None => raise Match_DoesNotExist
  end.

(** [match.save()], for the object loaded from row [pk]. *)
Definition save_match (pk : Z) (m : Match) : M unit :=
  update_db (with_matches (insert pk m)).

(** [Match.objects.create(player1=.., player2=.., status=.., started_at=..)];
    the other columns take the defaults of the model.  Returns the
    primary key the database gave to the row. *)
Definition create_match_row (p1 p2 : Z) (st : Status) (started : Q) : M Z :=
  d ← gets db;
  let pk := next_match_pk d in
  set_db (mkDb (users d) (questions d)
               (<[pk := mkMatch p1 p2 0 0 None st 0 5 (Some started) None]> (matches d))
               (pk + 1) (rounds d) (history d));;
  mret pk.

Definition is_round (match_id rn : Z) (r : Round) : bool :=
  bool_decide (round_match_id r = match_id) && bool_decide (round_number r = rn).

(** [Round.objects.get(match_id=.., round_number=..)]. *)
Definition get_round (match_id rn : Z) : M Round :=
  d ← gets db;
  match find (is_round match_id rn) (rounds d) with
  | Some r => mret r
  | None => raise Round_DoesNotExist
  end.

(** [Round.objects.create(match=.., round_number=.., question=..)]. *)
Definition create_round (match_id rn : Z) (q : Question) : M unit :=
  update_db (with_rounds
    (λ rs, rs ++ [mkRound match_id rn q None None None None 0 0])).

(** [round_obj.save()]. *)
Definition save_round (r : Round) : M unit :=
  update_db (with_rounds
    (map (λ x, if is_round (round_match_id r) (round_number r) x then r else x))).

(** [MatchHistory.objects.create(...)]. *)
Definition create_history (h : MatchHistory) : M unit :=
  update_db (with_history (λ hs, hs ++ [h])).

(** [match.rounds.all()], in the model's [ordering = ['round_number']]. *)
Fixpoint insert_round (r : Round) (rs : list Round) : list Round :=
  match rs with
  | [] => [r]
  | x :: rs' =>
      if bool_decide (round_number r ≤ round_number x) then r :: rs
      else x :: insert_round r rs'
  end.

Definition rounds_of (match_id : Z) : M (list Round) :=
  d ← gets db;
  mret (foldr insert_round []
          (filter (λ r, round_match_id r = match_id) (rounds d))).

End Orm.
Export Orm.

(* ===================================================================== *)
(** ** game/consumers.py: [MatchmakingConsumer] *)
(* ===================================================================== *)

Module MatchmakingConsumer.

(** [self]: the scope's user and the channel of the connection.  Only
    [connect] and [disconnect] run for an anonymous user, and they do not
    read its id. *)
Record Self := mkSelf {
  is_anonymous : bool;
  user_id : Z;
  channel_name : string
}.

Definition set_user_online (uid : Z) (is_online : bool) : M unit :=
  update_users [uid] (set_is_online is_online).

Section Pairing.
(** [Question.objects.order_by('?')]: the order the database draws. *)
Variable random_order : list Question → list Question.

(** [for i, question in enumerate(questions, 1): Round.objects.create] *)
Fixpoint create_rounds (match_id i : Z) (qs : list Question) : M unit :=
  match qs with
  | [] => mret tt
  | q :: qs' => create_round match_id i q;; create_rounds match_id (i + 1) qs'
  end.

(** Returns [match.id], the only part of [match] its caller reads. *)
Definition create_match (uid opponent_id : Z) : M Z :=
  opponent ← get_user opponent_id;
  started ← now;
  match_id ← create_match_row opponent_id uid in_progress started;
  all ← gets (λ w, questions (db w));
  let questions := take 5 (random_order all) in
  create_rounds match_id 1 questions;;
  update_users [uid; opponent_id] (set_is_in_game true);;
  mret match_id.

(** [match.playerN.avatar.url if match.playerN.avatar else None]:
    [avatar] is a [URLField], its value a string, which has no [url]. *)
Definition avatar_url (a : option string) : M (option string) :=
  match a with
  | None => mret None
  | Some s => if bool_decide (s = "") then mret None else raise AttributeError
  end.

Definition get_match_data (match_id : Z) : M MatchData :=
  m ← get_match match_id;
  p1 ← get_user (player1_id m);
  p2 ← get_user (player2_id m);
  a1 ← avatar_url (avatar p1);
  a2 ← avatar_url (avatar p2);
  mret (mkMatchData match_id
          (mkPlayerCard (player1_id m) (username p1) a1 (rating p1))
          (mkPlayerCard (player2_id m) (username p2) a2 (rating p2))
          (total_rounds m)).

(** The tail of [connect]: no opponent found, add to the waiting list. *)
Definition park (self : Self) : M unit :=
  q ← gets waiting_players;
  set_waiting_players (PyDict.set (user_id self) (channel_name self) q);;
  emit (Send (channel_name self) (f_matchmaking_start "Looking for opponent..."%string)).

Definition connect (self : Self) : M unit :=
  if is_anonymous self then emit (Close (channel_name self))
  else
    emit (Accept (channel_name self));;
    set_user_online (user_id self) true;;
    q ← gets waiting_players;
    match PyDict.first_item q with
    | Some (opponent_id, opponent_channel) =>
        if bool_decide (opponent_id ≠ user_id self) then
          set_waiting_players (PyDict.del opponent_id q);;
          match_id ← create_match (user_id self) opponent_id;
          match_data ← get_match_data match_id;
          emit (ChannelSend opponent_channel (match_found_ev match_data));;
          emit (Send (channel_name self) (f_match_found match_data))
        else park self
    | None => park self
    end.
End Pairing.

Definition disconnect (self : Self) : M unit :=
  if is_anonymous self then mret tt
  else
    q ← gets waiting_players;
    (if PyDict.mem (user_id self) q
     then set_waiting_players (PyDict.del (user_id self) q)
     else mret tt);;
    set_user_online (user_id self) false.

(** [receive]: [action] is the frame's ['action'] key. *)
Definition receive (self : Self) (action : option string) : M unit :=
  if bool_decide (action = Some "cancel"%string) then
    q ← gets waiting_players;
    (if PyDict.mem (user_id self) q
     then set_waiting_players (PyDict.del (user_id self) q)
     else mret tt);;
    emit (Send (channel_name self) f_matchmaking_cancelled)
  else mret tt.

(** The handler of a [match_found] event. *)
Definition match_found (self : Self) (m : MatchData) : M unit :=
  emit (Send (channel_name self) (f_match_found m)).

End MatchmakingConsumer.

(* ===================================================================== *)
(** ** game/consumers.py: [GameConsumer] *)
(* ===================================================================== *)

Module GameConsumer.

Record Self := mkSelf {
  is_anonymous : bool;
  user_id : Z;
  match_id : Z;
  channel_name : string
}.

Definition room_group_name (self : Self) : Group := match_id self.

(** One inbound frame, as [receive] hands it to the handlers: the
    ['action'] key and the keys the handlers read with [data.get]. *)
Record Data := mkData {
  d_action : option string;
  d_answer : option string;
  d_time : option Q;
  d_emoji : option string
}.

(** [GameConsumer.game_states.get(self.match_id)]. *)
Definition get_state (self : Self) : M (option GameState) :=
  gets (λ w, game_states w !! match_id self).

(** The writes to the shared [state] dictionary of the match. *)
Definition put_state (self : Self) (st : GameState) : M unit :=
  g ← gets game_states; set_game_states (<[match_id self := st]> g).

Definition del_state (self : Self) : M unit :=
  g ← gets game_states; set_game_states (delete (match_id self) g).

Definition with_players_ready (s : gset Z) (st : GameState) : GameState :=
  mkGameState s (current_round st) (round_answers st) (round_start_time st)
              (emojis_sent st).
Definition with_round (r : Z) (t : option Q) (st : GameState) : GameState :=
  mkGameState (players_ready st) r (round_answers st) t (emojis_sent st).
Definition with_round_answers (a : gmap Z (gmap Z AnswerData)) (st : GameState)
  : GameState :=
  mkGameState (players_ready st) (current_round st) a (round_start_time st)
              (emojis_sent st).
Definition with_emojis_sent (e : gmap Z Z) (st : GameState) : GameState :=
  mkGameState (players_ready st) (current_round st) (round_answers st)
              (round_start_time st) e.

(** *** Database operations *)

Definition verify_player (self : Self) : M bool :=
  d ← gets db;
  mret match matches d !! match_id self with
       | Some m => bool_decide (player1_id m = user_id self)
                   || bool_decide (player2_id m = user_id self)
       | None => false
       end.

Definition get_round_question (self : Self) (round_number : Z)
  : M (option QuestionData) :=
  d ← gets db;
  mret match find (is_round (match_id self) round_number) (rounds d) with
       | Some round_obj =>
           let q := question round_obj in
           Some (mkQuestionData (question_pk q) (text q) (option_a q)
                   (option_b q) (option_c q) (option_d q)
                   (category_name (category q)))
       | None => None
       end.

Definition update_match_round (self : Self) (round_number : Z) : M unit :=
  update_db (with_matches (alter
    (λ m, mkMatch (player1_id m) (player2_id m) (score1 m) (score2 m)
                  (winner m) (status m) round_number (total_rounds m)
                  (started_at m) (ended_at m))
    (match_id self))).

Definition calculate_round_result (self : Self) (round_number : Z)
    (answers : gmap Z AnswerData) : M RoundResult :=
  round_obj ← get_round (match_id self) round_number;
  m ← get_match (match_id self);
  let correct_answer := correct_option (question round_obj) in
  (* Process player 1 *)
  let p1_data := answers !! player1_id m in
  let p1_answer := p1_data ≫= answer in
  let p1_time := from_option time (15 # 1) p1_data in
  let p1_correct := bool_decide (p1_answer = Some correct_answer) in
  let p1_score := calculate_score p1_time p1_correct in
  let players1 : gmap Z PlayerResult :=
    {[ player1_id m := mkPlayerResult p1_answer p1_time p1_score p1_correct ]} in
  (* Process player 2 *)
  let p2_data := answers !! player2_id m in
  let p2_answer := p2_data ≫= answer in
  let p2_time := from_option time (15 # 1) p2_data in
  let p2_correct := bool_decide (p2_answer = Some correct_answer) in
  let p2_score := calculate_score p2_time p2_correct in
  save_round (mkRound (round_match_id round_obj) (Models.round_number round_obj)
                      (question round_obj) p1_answer p2_answer
                      (Some p1_time) (Some p2_time) p1_score p2_score);;
  let players2 :=
    <[ player2_id m := mkPlayerResult p2_answer p2_time p2_score p2_correct ]>
      players1 in
  (* Update match scores *)
  let m' := mkMatch (player1_id m) (player2_id m) (score1 m + p1_score)
                    (score2 m + p2_score) (winner m) (status m)
                    (Models.current_round m) (total_rounds m)
                    (started_at m) (ended_at m) in
  save_match (match_id self) m';;
  mret (mkRoundResult correct_answer (explanation (question round_obj)) players2
          (<[ player2_id m' := score2 m' ]> {[ player1_id m' := score1 m' ]})).

(** [get_match_scores]; its caller reads ['total_rounds'] only. *)
Definition get_match_scores (self : Self) : M (Z * Z * Z) :=
  m ← get_match (match_id self);
  mret (score1 m, score2 m, total_rounds m).

Definition review (round_obj : Round) : RoundReview :=
  mkRoundReview (round_number round_obj) (text (question round_obj))
    (correct_option (question round_obj)) (explanation (question round_obj))
    (player1_answer round_obj) (player2_answer round_obj)
    (player1_score round_obj) (player2_score round_obj).

(** The variable [p1_won] of [finalize_match]: [None] is a draw. *)
Definition p1_won (m : Match) : option bool :=
  if bool_decide (score1 m > score2 m) then Some true
  else if bool_decide (score2 m > score1 m) then Some false
  else None.

Definition finalize_match (self : Self) : M MatchResult :=
  m ← get_match (match_id self);
  player1 ← get_user (player1_id m);
  player2 ← get_user (player2_id m);
  (* Determine winner *)
  let p1_won := p1_won m in
  let winner' :=
    match p1_won with
    | Some true => Some (player1_id m)
    | Some false => Some (player2_id m)
    | None => None
    end in
  ended ← now;
  save_match (match_id self)
    (mkMatch (player1_id m) (player2_id m) (score1 m) (score2 m) winner'
             completed (Models.current_round m) (total_rounds m)
             (started_at m) (Some ended));;
  (* Update player ratings *)
  '(player1, player2) ←
    match p1_won with
    | Some won =>
        let player1' := update_rating player1 won in
        save_user (player1_id m) player1';;
        let player2' := update_rating player2 (negb won) in
        save_user (player2_id m) player2';;
        mret (player1', player2')
    | None => mret (player1, player2)
    end;
  (* Update is_in_game status *)
  update_users [player1_id m; player2_id m] (set_is_in_game false);;
  (* Create match history entries *)
  create_history (mkMatchHistory (player1_id m) (match_id self) (player2_id m)
    (score1 m) (score2 m)
    (match p1_won with Some won => won | None => false end)
    (match p1_won with Some true => 20 | Some false => -15 | None => 0 end));;
  create_history (mkMatchHistory (player2_id m) (match_id self) (player1_id m)
    (score2 m) (score1 m)
    (match p1_won with Some won => negb won | None => false end)
    (match p1_won with Some true => -15 | Some false => 20 | None => 0 end));;
  (* Get rounds for review *)
  rounds ← rounds_of (match_id self);
  mret (mkMatchResult winner'
          (mkPlayerFinal (player1_id m) (username player1) (score1 m) (rating player1))
          (mkPlayerFinal (player2_id m) (username player2) (score2 m) (rating player2))
          (review <$> rounds)).

(** *** The round state machine *)

(** [start_round] awaits three times: the question, the update of the
    match row and the send to the room.  At an await the event loop may
    run another handler, and after each await the source evaluates
    [state['current_round']] again: it does not keep the number it worked
    out at first.  The stretches between the awaits are therefore
    functions of their own, and [start_round] is the call that no other
    handler interrupts. *)

(** [state['current_round']], evaluated by a coroutine that obtained
    [state] before an await: the counter the state of the match holds now.
    [seen] is the value the coroutine read last.  When the state has been
    deleted from [game_states] in the meantime the coroutine still holds
    the dictionary; the model keeps none that is not registered and reads
    it as the coroutine saw it last. *)
Definition held_round (self : Self) (seen : Z) : M Z :=
  st ← get_state self;
  mret (from_option current_round seen st).

(** Up to [await self.get_round_question(...)]: the counter and the start
    time are written.  The result is the round number the question is
    asked for, [None] when the match has no state and the call returns. *)
Definition start_round_enter (self : Self) : M (option Z) :=
  st ← get_state self;
  match st with
  | None => mret None
  | Some state =>
      t ← now;
      let state := with_round (current_round state + 1) (Some t) state in
      put_state self state;;
      mret (Some (current_round state))
  end.

(** The awaited [get_round_question], for the number worked out on entry. *)
Definition start_round_question (self : Self) (entered : option Z)
  : M (option QuestionData) :=
  match entered with
  | Some round_number => get_round_question self round_number
  | None => mret None
  end.

(** [await self.update_match_round(state['current_round'])]. *)
Definition start_round_update (self : Self) (seen : Z) : M Z :=
  round_number ← held_round self seen;
  update_match_round self round_number;;
  mret round_number.

(** [await self.channel_layer.group_send(...)], whose ['round'] is
    [state['current_round']]. *)
Definition start_round_announce (self : Self) (seen : Z) (qd : QuestionData)
  : M Z :=
  round_number ← held_round self seen;
  emit (GroupSend (room_group_name self) (question_start_ev round_number qd));;
  mret round_number.

(** [asyncio.create_task(self.round_timeout(state['current_round']))]. *)
Definition start_round_timer (self : Self) (seen : Z) : M unit :=
  round_number ← held_round self seen;
  emit (After 15 (channel_name self) (round_timeout_task round_number)).

(** From the return of the question to the end of the call. *)
Definition start_round_finish (self : Self) (entered : option Z)
    (question_data : option QuestionData) : M unit :=
  match entered, question_data with
  | Some seen, Some qd =>
      (* Update match current round *)
      seen ← start_round_update self seen;
      (* Broadcast question to all players *)
      seen ← start_round_announce self seen qd;
      (* Start timeout timer *)
      start_round_timer self seen
  | _, _ => mret tt
  end.

Definition start_round (self : Self) : M unit :=
  entered ← start_round_enter self;
  (* Get question for this round *)
  question_data ← start_round_question self entered;
  start_round_finish self entered question_data.

(** Two calls of [start_round] for one match, on the consumers [a] and
    [b], that both reach their first await before either goes on, and then
    each run to their end.  This is how the event loop runs the two
    [game_start] handlers of a match, whose sleeps end together. *)
Definition start_round_twice (a b : Self) : M unit :=
  entered_a ← start_round_enter a;
  entered_b ← start_round_enter b;
  question_a ← start_round_question a entered_a;
  question_b ← start_round_question b entered_b;
  start_round_finish a entered_a question_a;;
  start_round_finish b entered_b question_b.

Definition end_round (self : Self) : M unit :=
  st ← get_state self;
  match st with
  | None => mret tt
  | Some state =>
      let current_round := current_round state in
      let answers := default ∅ (round_answers state !! current_round) in
      round_result ← calculate_round_result self current_round answers;
      emit (GroupSend (room_group_name self)
              (round_end_ev current_round round_result));;
      (* Check if match is over *)
      match_data ← get_match_scores self;
      if bool_decide (current_round >= match_data.2) then
        emit (After 2 (channel_name self) end_match_task)
      else
        emit (After 3 (channel_name self) start_round_task)
  end.

Definition end_match (self : Self) : M unit :=
  match_result ← finalize_match self;
  emit (GroupSend (room_group_name self) (match_end_ev match_result));;
  (* Clean up game state *)
  st ← get_state self;
  match st with
  | Some _ => del_state self
  | None => mret tt
  end.

(** [round_timeout], from the end of its [asyncio.sleep(15)]. *)
Definition round_timeout (self : Self) (round_number : Z) : M unit :=
  st ← get_state self;
  match st with
  | None => mret tt
  | Some state =>
      if bool_decide (current_round state ≠ round_number) then mret tt
      else
        (* Force end round if not all players answered *)
        match round_answers state !! round_number with
        | Some answers =>
            if bool_decide (size answers < 2)%nat then end_round self
            else mret tt
        | None => mret tt
        end
  end.

(** What a coroutine of this consumer does when its sleep is over. *)
Definition resume (self : Self) (t : Task) : M unit :=
  match t with
  | start_round_task => start_round self
  | end_match_task => end_match self
  | round_timeout_task round_number => round_timeout self round_number
  end.

(** *** Inbound frames *)

Definition handle_ready (self : Self) : M unit :=
  st ← get_state self;
  if bool_decide (2 ≤ size (from_option players_ready ∅ st))%nat
  then start_round self
  else mret tt.

Definition handle_answer (self : Self) (data : Data) : M unit :=
  let answer := d_answer data in
  let time_taken := default (15 # 1) (d_time data) in
  st ← get_state self;
  match st with
  | None => mret tt
  | Some state =>
      let current_round := current_round state in
      (* Initialize round answers if needed *)
      let all :=
        match round_answers state !! current_round with
        | Some _ => round_answers state
        | None => <[current_round := ∅]> (round_answers state)
        end in
      put_state self (with_round_answers all state);;
      let answers := default ∅ (all !! current_round) in
      (* Don't allow duplicate answers *)
      match answers !! user_id self with
      | Some _ => mret tt
      | None =>
          (* Store answer *)
          let answers := <[user_id self := mkAnswerData answer time_taken]> answers in
          put_state self
            (with_round_answers (<[current_round := answers]> all) state);;
          (* Notify all players that someone answered *)
          emit (GroupSend (room_group_name self)
                  (answer_submitted_ev (user_id self)));;
          (* Check if both players answered *)
          if bool_decide (2 ≤ size answers)%nat then end_round self
          else mret tt
      end
  end.

Definition handle_emoji (self : Self) (data : Data) : M unit :=
  let emoji := d_emoji data in
  st ← get_state self;
  match st with
  | None => mret tt
  | Some state =>
      (* Check emoji limit (5 per match) *)
      let sent :=
        match emojis_sent state !! user_id self with
        | Some _ => emojis_sent state
        | None => <[user_id self := 0]> (emojis_sent state)
        end in
      put_state self (with_emojis_sent sent state);;
      let n := default 0 (sent !! user_id self) in
      if bool_decide (n >= 5) then mret tt
      else
        put_state self (with_emojis_sent (<[user_id self := n + 1]> sent) state);;
        (* Broadcast emoji to opponent *)
        emit (GroupSend (room_group_name self)
                (emoji_received_ev (user_id self) emoji))
  end.

Definition receive (self : Self) (data : Data) : M unit :=
  if bool_decide (d_action data = Some "ready"%string) then handle_ready self
  else if bool_decide (d_action data = Some "answer"%string) then handle_answer self data
  else if bool_decide (d_action data = Some "emoji"%string) then handle_emoji self data
  else mret tt.

(** *** Connection life cycle *)

Definition connect (self : Self) : M unit :=
  if is_anonymous self then emit (Close (channel_name self))
  else
    ok ← verify_player self;
    if negb ok then emit (Close (channel_name self))
    else
      emit (GroupAdd (room_group_name self) (channel_name self));;
      emit (Accept (channel_name self));;
      (* Initialize game state if needed *)
      st ← get_state self;
      let state := default (mkGameState ∅ 0 ∅ None ∅) st in
      (* Mark player as ready *)
      let state := with_players_ready ({[user_id self]} ∪ players_ready state) state in
      put_state self state;;
      emit (Send (channel_name self)
              (f_connected (match_id self) (size (players_ready state))));;
      (* If both players are ready, start the game *)
      if bool_decide (2 ≤ size (players_ready state))%nat then
        emit (GroupSend (room_group_name self) game_start_ev)
      else mret tt.

Definition disconnect (self : Self) : M unit :=
  emit (GroupDiscard (room_group_name self) (channel_name self));;
  st ← get_state self;
  match st with
  | None => mret tt
  | Some state =>
      (* [discard(None)], the id of an anonymous user, removes nothing *)
      let ready :=
        if is_anonymous self then players_ready state
        else players_ready state ∖ {[user_id self]} in
      if bool_decide (ready = ∅) then del_state self
      else put_state self (with_players_ready ready state)
  end.

(** *** Channel-layer event handlers *)

(** The handler this consumer runs for an event sent to it or to its
    group.  A game consumer has no handler for [match_found]; the
    matchmaker never sends one to a game channel. *)
Definition handle (self : Self) (e : Event) : M unit :=
  match e with
  | match_found_ev _ => mret tt
  | game_start_ev =>
      emit (Send (channel_name self)
              (f_game_start "Both players connected. Game starting..."%string));;
      (* Start first round after VS screen *)
      emit (After 3 (channel_name self) start_round_task)
  | question_start_ev round q =>
      emit (Send (channel_name self) (f_question_start round q))
  | answer_submitted_ev uid =>
      emit (Send (channel_name self) (f_answer_submitted uid))
  | round_end_ev round result =>
      emit (Send (channel_name self) (f_round_end round result))
  | match_end_ev result =>
      emit (Send (channel_name self) (f_match_end result))
  | emoji_received_ev uid emoji =>
      (* Don't send emoji back to sender *)
      if bool_decide (uid ≠ user_id self) then
        emit (Send (channel_name self) (f_emoji_received emoji))
      else mret tt
  end.

End GameConsumer.

(* ===================================================================== *)
(** ** The policies as the specification words them *)
(* ===================================================================== *)

Module Spec.

(** Scoring Policy: correct and latency at most 3 gives 100; correct and
    at most 7 gives 70; correct and at most 15 gives 40; else 0. *)
Definition Scoring_Policy (correct : bool) (latency : Q) : Z :=
  if correct && Qle_bool latency (3 # 1) then 100
  else if correct && Qle_bool latency (7 # 1) then 70
  else if correct && Qle_bool latency (15 # 1) then 40
  else 0.

(** The latency of step 5 of the per-round algorithm, as worded: the
    minimum of the reported latency and the elapsed wall-clock time. *)
Definition effective_latency (reported elapsed : Q) : Q :=
  Qmin reported elapsed.

(** Rating Policy: a win is +20 rating and +1 win; a loss is
    max(0, rating - 15) and +1 loss; a draw changes nothing; the level
    is recomputed as floor(rating / 200) + 1. *)
Definition win_applied (before after : User) : Prop :=
  rating after = rating before + 20 ∧ wins after = wins before + 1 ∧
  losses after = losses before ∧ level after = rating after / 200 + 1.

Definition loss_applied (before after : User) : Prop :=
  rating after = Z.max 0 (rating before - 15) ∧
  losses after = losses before + 1 ∧ wins after = wins before ∧
  level after = rating after / 200 + 1.

Definition draw_applied (before after : User) : Prop :=
  rating after = rating before ∧ wins after = wins before ∧
  losses after = losses before ∧ level after = level before.

End Spec.

(* ===================================================================== *)
(** ** A concrete deployment, used to run the handlers *)
(* ===================================================================== *)

Module Scenario.
Import GameConsumer.

Definition general := mkCategory 1 "General".
Definition quiz (pk : Z) (correct : string) : Question :=
  mkQuestion pk "Which one?" "first" "second" "third" "fourth" correct
             "Because." general.
Definition five_questions : list Question :=
  [quiz 1 "A"; quiz 2 "B"; quiz 3 "C"; quiz 4 "A"; quiz 5 "D"].

Definition player (name : string) (r : Z) : User :=
  mkUser name None r (r / 200 + 1) 0 0 false false.

(** Users 1 and 2 are registered; no match has been played yet. *)
Definition fresh_db (qs : list Question) : Db :=
  mkDb (<[1 := player "ada" 1000]> (<[2 := player "bob" 10]> ∅)) qs ∅ 1 [] [].
Definition boot (qs : list Question) : World := mkWorld [] ∅ (fresh_db qs) 0.

(** The environment moves the wall clock. *)
Definition at_time (t : Q) (w : World) : World :=
  mkWorld (waiting_players w) (game_states w) (db w) t.

(** The database draws the questions in table order. *)
Definition table_order (qs : list Question) : list Question := qs.

Definition seeker1 := MatchmakingConsumer.mkSelf false 1 "mm.ada".
Definition seeker2 := MatchmakingConsumer.mkSelf false 2 "mm.bob".
Definition ada := mkSelf false 1 1 "game.ada".
Definition bob := mkSelf false 2 1 "game.bob".

(** Ada waits, Bob arrives and is paired with her: match 1. *)
Definition parked (qs : list Question) : World :=
  world_of (MatchmakingConsumer.connect table_order seeker1 (boot qs)).
Definition paired (qs : list Question) : World :=
  world_of (MatchmakingConsumer.connect table_order seeker2 (parked qs)).

(** Ada, still waiting, opens a second matchmaking connection. *)
Definition seeker1_again := MatchmakingConsumer.mkSelf false 1 "mm.ada.2".
Definition requeue : Res unit * World * list Effect :=
  MatchmakingConsumer.connect table_order seeker1_again (parked five_questions).

(** Ada and Bob, in their live match 1, both go back to matchmaking. *)
Definition seeker2_again := MatchmakingConsumer.mkSelf false 2 "mm.bob.2".
Definition rematch : Res unit * World * list Effect :=
  MatchmakingConsumer.connect table_order seeker2_again
    (world_of (MatchmakingConsumer.connect table_order seeker1_again
                 (paired five_questions))).

(** A repository with two questions only. *)
Definition two_questions : list Question := [quiz 1 "A"; quiz 2 "B"].
Definition short_pairing : Res unit * World * list Effect :=
  MatchmakingConsumer.connect table_order seeker2 (parked two_questions).

(** Both open their game session; round 1 starts at time 0. *)
Definition lobby : World :=
  world_of (connect bob (world_of (connect ada (paired five_questions)))).
Definition round1 : World := world_of (start_round ada lobby).

Definition answer_frame (choice : string) (latency : Q) : Data :=
  mkData (Some "answer"%string) (Some choice) (Some latency) None.

(** The row of round [n] of match 1. *)
Definition round_row (n : Z) (w : World) : option Round :=
  find (is_round 1 n) (rounds (db w)).

(** Round 1, whose correct option is A: Ada sends A and reports 20
    seconds, then Bob sends B. *)
Definition overtime : World :=
  world_of (handle_answer bob (answer_frame "B" (1 # 1))
    (world_of (handle_answer ada (answer_frame "A" (20 # 1)) round1))).

(** Twelve seconds after the start of round 1 Ada sends A and reports 0
    seconds, then Bob sends B. *)
Definition understated : World :=
  world_of (handle_answer bob (answer_frame "B" (12 # 1))
    (world_of (handle_answer ada (answer_frame "A" (0 # 1))
       (at_time (12 # 1) round1)))).

(** Five seconds after the start of round 1 Ada sends A and reports 20
    seconds, then Bob sends B. *)
Definition overstated : World :=
  world_of (handle_answer bob (answer_frame "B" (5 # 1))
    (world_of (handle_answer ada (answer_frame "A" (20 # 1))
       (at_time (5 # 1) round1)))).

(** Ada answers round 1 after two seconds; Bob stays silent and the
    timer of round 1 fires. *)
Definition one_answer : World :=
  world_of (handle_answer ada (answer_frame "A" (2 # 1)) (at_time (2 # 1) round1)).
Definition timed_out : World :=
  world_of (round_timeout ada 1 (at_time (15 # 1) one_answer)).

(** One second after that timer has fired Bob sends his answer. *)
Definition late_answer : Res unit * World * list Effect :=
  handle_answer bob (answer_frame "A" (1 # 1)) (at_time (16 # 1) timed_out).

End Scenario.

(* ===================================================================== *)
(** ** Vocabulary of the statements *)
(* ===================================================================== *)

Module Terms.
Import GameConsumer.

(** The latency and the verdict [calculate_round_result] works out for
    player [pid] from the answers collected in the round. *)
Definition latency_of (answers : gmap Z AnswerData) (pid : Z) : Q :=
  from_option time (15 # 1) (answers !! pid).
Definition choice_of (answers : gmap Z AnswerData) (pid : Z) : option string :=
  answers !! pid ≫= answer.
Definition outcome_of (answers : gmap Z AnswerData) (correct : string) (pid : Z)
  : PlayerResult :=
  let ok := bool_decide (choice_of answers pid = Some correct) in
  mkPlayerResult (choice_of answers pid) (latency_of answers pid)
                 (calculate_score (latency_of answers pid) ok) ok.

(** The computation leaves the component [f] of the world as it was,
    whether it returns or raises. *)
Definition keeps {A B} (f : World → B) (m : M A) : Prop :=
  ∀ w, f (world_of (m w)) = f w.

(** The component [f] of the world is not part of the database. *)
Class DbBlind {B} (f : World → B) : Prop :=
  db_blind : ∀ q g d d' c, f (mkWorld q g d c) = f (mkWorld q g d' c).

(** The answers collected so far in the current round. *)
Definition answers_of (st : GameState) : gmap Z AnswerData :=
  default ∅ (round_answers st !! current_round st).

(** The state once [self]'s frame [data] is stored for the current round. *)
Definition recorded (self : Self) (data : Data) (st : GameState) : GameState :=
  with_round_answers
    (<[current_round st :=
         <[user_id self :=
             mkAnswerData (d_answer data) (default (15 # 1) (d_time data))]>
           (answers_of st)]> (round_answers st)) st.

(** The rows [create_match] adds for the questions [qs], numbered from [i]. *)
Fixpoint new_rounds (match_id i : Z) (qs : list Question) : list Round :=
  match qs with
  | [] => []
  | q :: qs' =>
      mkRound match_id i q None None None None 0 0
      :: new_rounds match_id (i + 1) qs'
  end.

(** The user has no avatar URL stored. *)
Definition no_avatar (u : User) : Prop :=
  avatar u = None ∨ avatar u = Some ""%string.

(** The user table and the two history rows [finalize_match] leaves for
    match [m], whose players were loaded as [u1] and [u2]. *)
Definition finalized_users (m : Match) (u1 u2 : User) (us : gmap Z User)
  : gmap Z User :=
  alter (set_is_in_game false) (player1_id m)
    (alter (set_is_in_game false) (player2_id m)
       match p1_won m with
       | Some won =>
           <[player2_id m := update_rating u2 (negb won)]>
             (<[player1_id m := update_rating u1 won]> us)
       | None => us
       end).

Definition history_of_player1 (match_id : Z) (m : Match) : MatchHistory :=
  mkMatchHistory (player1_id m) match_id (player2_id m) (score1 m) (score2 m)
    (match p1_won m with Some won => won | None => false end)
    (match p1_won m with Some true => 20 | Some false => -15 | None => 0 end).

Definition history_of_player2 (match_id : Z) (m : Match) : MatchHistory :=
  mkMatchHistory (player2_id m) match_id (player1_id m) (score2 m) (score1 m)
    (match p1_won m with Some won => negb won | None => false end)
    (match p1_won m with Some true => -15 | Some false => 20 | None => 0 end).

(** The inbound frames of one connection, handled in the order received. *)
Fixpoint receive_all (self : Self) (frames : list Data) : M unit :=
  match frames with
  | [] => mret tt
  | data :: frames' => receive self data;; receive_all self frames'
  end.

(** The frame [{action: "emoji", emoji: ...}]. *)
Definition emoji_frame (emoji : option string) : Data :=
  mkData (Some "emoji"%string) None None emoji.

(** How many emojis the state of the match has counted for [self]. *)
Definition emoji_count (self : Self) (w : World) : Z :=
  default 0 (game_states w !! match_id self
               ≫= λ st, emojis_sent st !! user_id self).

(** The world once the state [st] of the match counts [n] emojis for [self]. *)
Definition counted (self : Self) (n : Z) (st : GameState) (w : World) : World :=
  mkWorld (waiting_players w)
    (<[match_id self :=
         with_emojis_sent (<[user_id self := n]> (emojis_sent st)) st]>
       (game_states w))
    (db w) (clock w).

(** The frames the client of [member] receives when the channel layer
    delivers the group sends of [out] to [member]'s consumer. *)
Definition delivered (member : Self) (w : World) (out : list Effect) : list Frame :=
  flat_map (λ e,
    match e with
    | GroupSend g ev =>
        if bool_decide (g = room_group_name member) then
          omap (λ e', match e' with
                      | Send ch f =>
                          if bool_decide (ch = channel_name member)
                          then Some f else None
                      | _ => None
                      end) (sent_of (handle member ev w))
        else []
    | _ => []
    end) out.

End Terms.
Export Terms.

(* ===================================================================== *)
(** ** api/models.py: the remaining methods of the game models *)
(* ===================================================================== *)

Module ModelMethods.

(** [User.total_matches]. *)
Definition total_matches (self : User) : Z := wins self + losses self.

(** [Match.get_questions]: the questions of the rounds of the match, in
    the order of [round_number]. *)
Definition get_questions (match_id : Z) : M (list Question) :=
  rounds ← rounds_of match_id;
  mret (question <$> rounds).

End ModelMethods.
Export ModelMethods.

(* ===================================================================== *)
(** ** api/views.py: the views that write or read the game results *)
(* ===================================================================== *)

Module Views.

(** The body of the response of [finish_offline_game]. *)
Record OfflineResult := mkOfflineResult {
  or_is_winner : bool;
  or_is_draw : bool;
  or_rating_change : Z;
  or_new_rating : Z;
  or_new_level : Z
}.

(** [finish_offline_game], for the authenticated user [uid]; the two
    scores are the keys ['my_score'] and ['bot_score'] of the request,
    [None] when the key is absent. *)
Definition finish_offline_game (uid : Z) (my_score bot_score : option Z)
  : M OfflineResult :=
  user ← get_user uid;
  let my_score := default 0 my_score in
  let bot_score := default 0 bot_score in
  (* Determine winner *)
  let is_winner := bool_decide (my_score > bot_score) in
  let is_draw := bool_decide (my_score = bot_score) in
  (* Update rating *)
  user ←
    (if negb is_draw then
       let user1 :=
         if is_winner then
           mkUser (username user) (avatar user) (rating user + 15) (level user)
                  (wins user + 1) (losses user) (is_online user) (is_in_game user)
         else
           mkUser (username user) (avatar user) (Z.max 0 (rating user - 10))
                  (level user) (wins user) (losses user + 1) (is_online user)
                  (is_in_game user) in
       let user2 :=
         mkUser (username user1) (avatar user1) (rating user1)
                (rating user1 / 200 + 1) (wins user1) (losses user1)
                (is_online user1) (is_in_game user1) in
       save_user uid user2;; mret user2
     else mret user);
  mret (mkOfflineResult is_winner is_draw
          (if is_winner then 15 else if negb is_draw then -10 else 0)
          (rating user) (level user)).

(** [MatchHistory.objects.filter(user=user)[:10]], in the model's
    [ordering = ['-created_at']]: the rows are kept in the order they were
    created, so the newest are the last ones. *)
Definition recent_matches (uid : Z) : M (list MatchHistory) :=
  d ← gets db;
  mret (take 10 (reverse (filter (λ h, mh_user h = uid) (history d)))).

(** The loop of [user_stats] that counts the streak. *)
Fixpoint count_streak (recent : list MatchHistory) : Z :=
  match recent with
  | [] => 0
  | m :: recent' => if is_winner m then 1 + count_streak recent' else 0
  end.

(** [user_stats]: of the response, [current_streak] and the rows behind
    [recent_matches]. *)
Definition user_stats (uid : Z) : M (Z * list MatchHistory) :=
  recent ← recent_matches uid;
  mret (count_streak recent, recent).

End Views.

(* ===================================================================== *)
(** ** Vocabulary of the further properties *)
(* ===================================================================== *)

Module Traces.
Import GameConsumer.

(** One call the server makes on a matchmaking consumer. *)
Inductive Call :=
| Connect (self : MatchmakingConsumer.Self)
| Disconnect (self : MatchmakingConsumer.Self)
| Receive (self : MatchmakingConsumer.Self) (action : option string).

Definition serve (random_order : list Question → list Question) (c : Call)
  : M unit :=
  match c with
  | Connect self => MatchmakingConsumer.connect random_order self
  | Disconnect self => MatchmakingConsumer.disconnect self
  | Receive self action => MatchmakingConsumer.receive self action
  end.

(** The world after a sequence of calls; a call that raises leaves the
    writes it had made. *)
Definition serve_all (random_order : list Question → list Question)
    (calls : list Call) (w : World) : World :=
  foldl (λ w c, world_of (serve random_order c w)) w calls.

(** The user after the results (won or lost) of a sequence of matches. *)
Definition season (u : User) (results : list bool) : User :=
  foldl update_rating u results.

(** How many of the results are wins. *)
Definition wins_in (results : list bool) : Z :=
  Z.of_nat (length (filter (λ b, b = true) results)).

(** The sum of a score column over the rounds of a match. *)
Definition tally (score : Round → Z) (match_id : Z) (rs : list Round) : Z :=
  foldr (λ r acc,
           if bool_decide (round_match_id r = match_id) then score r + acc
           else acc) 0 rs.

(** The columns of the [unique_together] constraint of [Round]. *)
Definition round_key (r : Round) : Z * Z := (round_match_id r, round_number r).

(** The state [GameConsumer.connect] creates for a match that has none. *)
Definition fresh_state : GameState := mkGameState ∅ 0 ∅ None ∅.

(** The dictionary [get_round_question] builds for a question. *)
Definition question_data (q : Question) : QuestionData :=
  mkQuestionData (question_pk q) (text q) (option_a q) (option_b q)
                 (option_c q) (option_d q) (category_name (category q)).

(** The user is one of the two players of the match. *)
Definition plays (uid : Z) (m : Match) : Prop :=
  player1_id m = uid ∨ player2_id m = uid.

End Traces.
Export Traces.

(* ===================================================================== *)
(** ** Further concrete cases *)
(* ===================================================================== *)

Module Cases.
Import GameConsumer.

(** An evening in the lobby: Ada connects twice, cancels, Bob arrives,
    Ada's first connection closes and she connects again. *)
Definition busy_evening : list Call :=
  [Connect Scenario.seeker1; Connect Scenario.seeker1_again;
   Receive Scenario.seeker1 (Some "cancel"%string);
   Connect Scenario.seeker2; Disconnect Scenario.seeker1;
   Connect Scenario.seeker1].

(** User 7 was parked and its row has been deleted since. *)
Definition ghost_waiting : World :=
  mkWorld [(7, "mm.ghost"%string)] ∅ (Scenario.fresh_db Scenario.five_questions) 0.

(** Ada has signed in with an account that carries a picture. *)
Definition pictured_ada : User :=
  mkUser "ada" (Some "https://img.example/ada.png"%string) 1000 6 0 0 true false.
Definition pictured : World :=
  mkWorld [(1, "mm.ada"%string)] ∅
    (mkDb (<[1 := pictured_ada]> (<[2 := Scenario.player "bob" 10]> ∅))
          Scenario.five_questions ∅ 1 [] [])
    0.

(** Eve is registered but plays no match; she opens a game session on
    match 1. *)
Definition eve := mkSelf false 3 1 "game.eve".

(** Ada alone has opened her game session on match 1. *)
Definition ada_alone : World :=
  world_of (connect Scenario.ada (Scenario.paired Scenario.five_questions)).
Definition bob_alone : World :=
  world_of (connect Scenario.bob (Scenario.paired Scenario.five_questions)).

(** In the lobby, before round 1 has started, Ada already sends an
    answer. *)
Definition early_answer : World :=
  world_of (handle_answer Scenario.ada (Scenario.answer_frame "A" (1 # 1))
              Scenario.lobby).

(** Ada and Bob are paired a second time while match 1 exists: match 2. *)
Definition ada_again := mkSelf false 1 2 "game.ada.2".

(** A beginner with rating 4. *)
Definition beginners : World :=
  mkWorld [] ∅
    (mkDb (<[3 := Scenario.player "cy" 4]> ∅) Scenario.five_questions ∅ 1 [] [])
    0.

Definition seven_emojis : list (option string) :=
  [Some "a"; Some "b"; Some "c"; Some "d"; Some "e"; Some "f"; None]%string.






(** In the lobby of match 1 Ada sends seven emojis; both players leave and
    come back; Ada sends seven emojis again. *)
Definition first_burst : Res unit * World * list Effect :=
  receive_all Scenario.ada (emoji_frame <$> seven_emojis) Scenario.lobby.
Definition session_left : World :=
  world_of (disconnect Scenario.ada
              (world_of (disconnect Scenario.bob (world_of first_burst)))).
Definition session_back : World :=
  world_of (connect Scenario.bob (world_of (connect Scenario.ada session_left))).
Definition second_burst : Res unit * World * list Effect :=
  receive_all Scenario.ada (emoji_frame <$> seven_emojis) session_back.

End Cases.

(* ===================================================================== *)
(** ** Running the monad in proofs *)
(* ===================================================================== *)

Ltac run_monad :=
  cbv [mbind M_bind mret M_ret gets modify raise emit set_db set_game_states
       set_waiting_players update_db now get_user get_match save_user save_match
       update_users create_history rounds_of get_round save_round create_round
       create_match_row
       with_users with_matches with_rounds with_history
       result_of world_of sent_of fst snd
       GameConsumer.get_state GameConsumer.put_state GameConsumer.del_state
       GameConsumer.get_match_scores GameConsumer.get_round_question
       GameConsumer.update_match_round GameConsumer.verify_player
       GameConsumer.held_round GameConsumer.start_round_enter
       GameConsumer.start_round_question GameConsumer.start_round_update
       GameConsumer.start_round_announce GameConsumer.start_round_timer
       GameConsumer.start_round_finish
       db users matches history rounds questions next_match_pk clock
       game_states waiting_players].

Ltac open_world w :=
  destruct w as [?q ?g [?us ?qs ?ms ?npk ?rs ?hs] ?c];
  cbn [db users matches history rounds questions next_match_pk clock
       game_states waiting_players] in *.

(* ===================================================================== *)
(** ** Scoring *)
(* ===================================================================== *)

Section Scoring.
Import GameConsumer.

Lemma calculate_score_cases (t : Q) (c : bool) :
  (c = false → calculate_score t c = 0) ∧
  (c = true → (t <= 3 # 1)%Q → calculate_score t c = 100) ∧
  (c = true → (3 # 1 < t)%Q → (t <= 7 # 1)%Q → calculate_score t c = 70) ∧
  (c = true → (7 # 1 < t)%Q → calculate_score t c = 40).
Proof.
  unfold calculate_score.
  repeat split; intros ->; cbn [negb]; intros.
  - reflexivity.
  - by rewrite (proj2 (Qle_bool_iff _ _)).
  - destruct (Qle_bool t (3 # 1)) eqn:E.
    + apply Qle_bool_iff in E. exfalso. eapply Qlt_not_le; eauto.
    + by rewrite (proj2 (Qle_bool_iff _ _)).
  - destruct (Qle_bool t (3 # 1)) eqn:E3.
    + apply Qle_bool_iff in E3. exfalso.
      eapply (Qlt_not_le (3 # 1) t); [|done].
      eapply Qlt_trans; [|done]. reflexivity.
    + destruct (Qle_bool t (7 # 1)) eqn:E7; [|done].
      apply Qle_bool_iff in E7. exfalso. eapply Qlt_not_le; eauto.
Qed.

Lemma find_replace (P : Round → bool) (r r0 : Round) (l : list Round) :
  find P l = Some r0 → P r = true →
  find P (map (λ x, if P x then r else x) l) = Some r.
Proof.
  intros Hf Hr. induction l as [|x l IH]; [done|].
  cbn [find map] in *. destruct (P x) eqn:E.
  - by rewrite Hr.
  - rewrite E. auto.
Qed.

Lemma is_round_found match_id rn r l :
  find (is_round match_id rn) l = Some r →
  round_match_id r = match_id ∧ round_number r = rn.
Proof.
  intros H. apply find_some in H as [_ H]. unfold is_round in H.
  apply andb_prop in H as [H1 H2].
  by apply bool_decide_eq_true in H1, H2.
Qed.

(** What one call of [calculate_round_result] returns and writes, when
    the round and its match exist. *)
Lemma calculate_round_result_run self rn answers w round_obj m :
  find (is_round (match_id self) rn) (rounds (db w)) = Some round_obj →
  matches (db w) !! match_id self = Some m →
  let correct := correct_option (question round_obj) in
  let o1 := outcome_of answers correct (player1_id m) in
  let o2 := outcome_of answers correct (player2_id m) in
  ∃ res w',
    calculate_round_result self rn answers w = (Ok res, w', []) ∧
    rr_correct_answer res = correct ∧
    rr_players res = <[player2_id m := o2]> {[player1_id m := o1]} ∧
    game_states w' = game_states w ∧
    users (db w') = users (db w) ∧
    find (is_round (match_id self) rn) (rounds (db w')) =
      Some (mkRound (match_id self) rn (question round_obj)
              (pr_answer o1) (pr_answer o2)
              (Some (pr_time o1)) (Some (pr_time o2))
              (pr_score o1) (pr_score o2)) ∧
    matches (db w') !! match_id self =
      Some (mkMatch (player1_id m) (player2_id m)
              (score1 m + pr_score o1) (score2 m + pr_score o2)
              (winner m) (status m) (Models.current_round m)
              (total_rounds m) (started_at m) (ended_at m)).
Proof.
  intros Hr Hm. open_world w.
  destruct (is_round_found _ _ _ _ Hr) as [Hid Hrn].
  unfold calculate_round_result. run_monad. rewrite Hr, Hm.
  cbv beta iota zeta. cbn [app]. do 2 eexists.
  split; [reflexivity|].
  cbn [rr_correct_answer rr_players game_states db users rounds matches].
  repeat split.
  - rewrite Hid, Hrn. eapply find_replace; [done|].
    unfold is_round. cbn [round_match_id round_number].
    by rewrite !bool_decide_eq_true_2.
  - by rewrite lookup_insert_eq.
Qed.

End Scoring.

(* ===================================================================== *)
(** ** What a handler leaves alone *)
(* ===================================================================== *)

Section Frame.
Context {B : Type} (f : World → B) `{!DbBlind f}.

Lemma keeps_ret {A} (a : A) : keeps f (mret a).
Proof. done. Qed.

Lemma keeps_bind {A C} (m : M A) (k : A → M C) :
  keeps f m → (∀ a, keeps f (k a)) → keeps f (m ≫= k).
Proof.
  intros Hm Hk w. specialize (Hm w). unfold world_of, mbind, M_bind in *.
  destruct (m w) as [[[a|e] w1] o1]; [|done].
  specialize (Hk a w1). destruct (k a w1) as [[r w2] o2]. cbn in *. congruence.
Qed.

Lemma keeps_gets {A} (g : World → A) : keeps f (gets g).
Proof. done. Qed.
Lemma keeps_emit e : keeps f (emit e).
Proof. done. Qed.
Lemma keeps_raise {A} e : keeps f (raise (A:=A) e).
Proof. done. Qed.
Lemma keeps_set_db d : keeps f (set_db d).
Proof. intros [q g d0 c]. apply db_blind. Qed.
Lemma keeps_update_db u : keeps f (update_db u).
Proof. apply keeps_bind; [apply keeps_gets | intros; apply keeps_set_db]. Qed.

End Frame.

#[export] Instance game_states_blind : DbBlind game_states.
Proof. done. Qed.
#[export] Instance waiting_players_blind : DbBlind waiting_players.
Proof. done. Qed.

Create HintDb frame.
#[export] Hint Resolve keeps_ret keeps_gets keeps_emit keeps_raise keeps_set_db
  keeps_update_db : frame.

Ltac keeps :=
  repeat first
    [ solve [eauto with frame typeclass_instances]
    | apply keeps_bind; [|intros]
    | progress cbv zeta
    | match goal with
      | |- keeps _ (match ?x with _ => _ end) => destruct x
      end ].

Section FrameOfRounds.
Import GameConsumer.

Lemma keeps_calculate_round_result self rn answers :
  keeps game_states (calculate_round_result self rn answers).
Proof.
  unfold calculate_round_result, get_round, get_match, save_round, save_match.
  keeps.
Qed.

Lemma keeps_end_round self : keeps game_states (end_round self).
Proof.
  pose proof keeps_calculate_round_result.
  unfold end_round, get_state, get_match_scores, get_match. keeps.
Qed.

End FrameOfRounds.

(* ===================================================================== *)
(** ** Answers *)
(* ===================================================================== *)

Section Answers.
Import GameConsumer.

Lemma with_round_answers_id st : with_round_answers (round_answers st) st = st.
Proof. by destruct st. Qed.

(** Names the last step of [handle_answer], which may end the round,
    and records that it leaves the game states alone. *)
Ltac name_tail self :=
  match goal with
  | |- context [(if ?b then end_round self else ?k) ?w2] =>
      assert (keeps game_states (if b then end_round self else k)) as Hk
        by (destruct b; [apply keeps_end_round | done]);
      specialize (Hk w2); unfold world_of in Hk; cbn [game_states fst snd] in Hk;
      set (tail := (if b then end_round self else k) w2) in *
  end.

(** A first answer is stored as sent and announced to the room. *)
Lemma handle_answer_accepted self data w st :
  game_states w !! match_id self = Some st →
  answers_of st !! user_id self = None →
  game_states (world_of (handle_answer self data w)) =
    <[match_id self := recorded self data st]> (game_states w) ∧
  ∃ rest, sent_of (handle_answer self data w) =
    GroupSend (room_group_name self) (answer_submitted_ev (user_id self)) :: rest.
Proof.
  intros Hst Hnew. unfold handle_answer, recorded.
  unfold answers_of in *.
  open_world w. run_monad. rewrite Hst. cbv beta iota zeta.
  destruct (round_answers st !! current_round st) as [a|] eqn:Ea.
  - rewrite Ea in *. cbn [default id] in *. rewrite Hnew in *.
    name_tail self.
    destruct tail as [[r w3] o3] eqn:Et. cbn [fst snd app] in *.
    destruct w3; cbn [game_states] in Hk.
    rewrite Hk, with_round_answers_id, insert_insert_eq. eauto.
  - rewrite lookup_insert_eq in *. cbn [default id] in *.
    rewrite lookup_empty in *.
    name_tail self.
    destruct tail as [[r w3] o3] eqn:Et. cbn [fst snd app] in *.
    destruct w3; cbn [game_states] in Hk.
    rewrite Hk, !insert_insert_eq. eauto.
Qed.

(** A second answer of the same player in the same round changes
    nothing and sends nothing. *)
Lemma handle_answer_duplicate self data w st prev :
  game_states w !! match_id self = Some st →
  answers_of st !! user_id self = Some prev →
  handle_answer self data w = (Ok tt, w, []).
Proof.
  intros Hst Hdup. unfold handle_answer. unfold answers_of in *.
  open_world w. run_monad. rewrite Hst. cbv beta iota zeta.
  destruct (round_answers st !! current_round st) as [a|] eqn:Ea.
  - rewrite Ea. cbn [default id] in *. rewrite Hdup. cbn [app].
    by rewrite with_round_answers_id, insert_id.
  - cbn [default id] in Hdup. by rewrite lookup_empty in Hdup.
Qed.

End Answers.

(* ===================================================================== *)
(** ** Claims on scoring and latency *)
(* ===================================================================== *)

Section ScoringClaims.
Import GameConsumer.

(** C1, as stated, fails: in round 1 of a match (correct option A) a
    player sends A and reports a latency of 20 seconds; the round row
    records that latency and a score of 40, where the Scoring Policy of
    the specification gives 0 to a latency over 15. *)
Lemma C1_counterexample :
  Scenario.round_row 1 Scenario.overtime =
    Some (mkRound 1 1 (Scenario.quiz 1 "A") (Some "A"%string) (Some "B"%string)
            (Some (20 # 1)) (Some (1 # 1)) 40 0) ∧
  Spec.Scoring_Policy true (20 # 1) = 0 ∧
  40 ≠ Spec.Scoring_Policy true (20 # 1).
Proof. vm_compute. repeat split; discriminate. Qed.

(** C1 (amended): for every round whose row and match exist,
    [calculate_round_result] returns a result that holds, for each of the
    two players of the match, an entry with the answer and the latency
    collected for that player (no answer and 15 when there is none); the
    entry is marked correct exactly when the answer is the question's
    correct option, and is scored 0 when incorrect, 100 when correct with
    latency at most 3, 70 when correct with latency over 3 and at most 7,
    and 40 when correct with any latency over 7. *)
Theorem C1_round_scores self rn answers w round_obj m :
  find (is_round (match_id self) rn) (rounds (db w)) = Some round_obj →
  matches (db w) !! match_id self = Some m →
  ∃ res w',
    calculate_round_result self rn answers w = (Ok res, w', []) ∧
    ∀ pid, pid = player1_id m ∨ pid = player2_id m →
      ∃ pr, rr_players res !! pid = Some pr ∧
        pr_answer pr = choice_of answers pid ∧
        pr_time pr = latency_of answers pid ∧
        pr_correct pr =
          bool_decide (pr_answer pr = Some (correct_option (question round_obj))) ∧
        (pr_correct pr = false → pr_score pr = 0) ∧
        (pr_correct pr = true → (pr_time pr <= 3 # 1)%Q → pr_score pr = 100) ∧
        (pr_correct pr = true → (3 # 1 < pr_time pr)%Q → (pr_time pr <= 7 # 1)%Q →
           pr_score pr = 70) ∧
        (pr_correct pr = true → (7 # 1 < pr_time pr)%Q → pr_score pr = 40).
Proof.
  intros Hr Hm.
  destruct (calculate_round_result_run self rn answers w round_obj m Hr Hm)
    as (res & w' & Hrun & _ & Hplayers & _).
  exists res, w'. split; [done|]. intros pid Hpid.
  exists (outcome_of answers (correct_option (question round_obj)) pid).
  split.
  { rewrite Hplayers.
    destruct (decide (player2_id m = pid)) as [<-|Hne].
    - by rewrite lookup_insert_eq.
    - rewrite lookup_insert_ne by done.
      destruct Hpid as [-> | ->]; [|done]. by rewrite lookup_singleton_eq. }
  cbn [outcome_of pr_answer pr_time pr_correct pr_score].
  do 3 (split; [done|]).
  apply calculate_score_cases.
Qed.

(** C1 at work: round 1 of match 1, where only player 1 has answered. *)
Lemma C1_round_scores_witness :
  ∃ res w',
    calculate_round_result Scenario.ada 1
      {[1 := mkAnswerData (Some "A"%string) (2 # 1)]} Scenario.round1
      = (Ok res, w', []) ∧
    ∀ pid, pid = 1 ∨ pid = 2 →
      ∃ pr, rr_players res !! pid = Some pr ∧
        pr_answer pr = choice_of {[1 := mkAnswerData (Some "A"%string) (2 # 1)]} pid ∧
        pr_time pr = latency_of {[1 := mkAnswerData (Some "A"%string) (2 # 1)]} pid ∧
        pr_correct pr = bool_decide (pr_answer pr = Some "A"%string) ∧
        (pr_correct pr = false → pr_score pr = 0) ∧
        (pr_correct pr = true → (pr_time pr <= 3 # 1)%Q → pr_score pr = 100) ∧
        (pr_correct pr = true → (3 # 1 < pr_time pr)%Q → (pr_time pr <= 7 # 1)%Q →
           pr_score pr = 70) ∧
        (pr_correct pr = true → (7 # 1 < pr_time pr)%Q → pr_score pr = 40).
Proof.
  apply (C1_round_scores Scenario.ada 1 _ Scenario.round1
           (mkRound 1 1 (Scenario.quiz 1 "A") None None None None 0 0)
           (mkMatch 1 2 0 0 None in_progress 1 5 (Some (0 # 1)) None)).
  - vm_compute. reflexivity.
  - vm_compute. reflexivity.
Defined.

(** C2, as stated, fails.  Round 1 starts at time 0.  At time 12 a player
    sends the correct option and reports 0 seconds: the round row records
    latency 0 and score 100, not latency 12.  At time 5 a player sends
    the correct option and reports 20 seconds: the row records latency
    20, not the minimum of 20 and the 5 seconds elapsed. *)
Lemma C2_counterexample :
  (game_states (Scenario.at_time (12 # 1) Scenario.round1) !! 1
     ≫= round_start_time = Some (0 # 1) ∧
   ∃ row, Scenario.round_row 1 Scenario.understated = Some row ∧
          player1_time row = Some (0 # 1) ∧ player1_score row = 100 ∧
          player1_time row ≠ Some (12 # 1)) ∧
  (∃ row, Scenario.round_row 1 Scenario.overstated = Some row ∧
          player1_time row = Some (20 # 1) ∧
          player1_time row ≠
            Some (Spec.effective_latency (20 # 1) ((5 # 1) - (0 # 1)))).
Proof.
  split; [split; [vm_compute; reflexivity|]|].
  - exists (mkRound 1 1 (Scenario.quiz 1 "A") (Some "A"%string)
              (Some "B"%string) (Some (0 # 1)) (Some (12 # 1)) 100 0).
    vm_compute. repeat split; discriminate.
  - exists (mkRound 1 1 (Scenario.quiz 1 "A") (Some "A"%string)
              (Some "B"%string) (Some (20 # 1)) (Some (5 # 1)) 40 0).
    vm_compute. repeat split; discriminate.
Qed.

(** C2 (amended): for every accepted answer (the match has a game state
    and the player has not answered the current round), the latency
    stored for the player is the latency the client reported, unchanged
    (15 when the frame carries none), whatever the server clock and the
    recorded start of the round; and whenever the round is then ended
    with the collected answers, as they are then or after further
    answers have come in, the round row records that same latency for the
    player and the score [calculate_score] gives to it. *)
Theorem C2_latency_is_client_reported self data w st :
  game_states w !! match_id self = Some st →
  answers_of st !! user_id self = None →
  let reported := default (15 # 1) (d_time data) in
  ∃ st1,
    game_states (world_of (handle_answer self data w)) !! match_id self = Some st1 ∧
    current_round st1 = current_round st ∧
    answers_of st1 !! user_id self = Some (mkAnswerData (d_answer data) reported) ∧
    ∀ answers w2 round_obj m,
      answers !! user_id self = answers_of st1 !! user_id self →
      find (is_round (match_id self) (current_round st1)) (rounds (db w2))
        = Some round_obj →
      matches (db w2) !! match_id self = Some m →
      ∃ res w3 row,
        calculate_round_result self (current_round st1) answers w2
          = (Ok res, w3, []) ∧
        find (is_round (match_id self) (current_round st1)) (rounds (db w3))
          = Some row ∧
        let ok := bool_decide
          (d_answer data = Some (correct_option (question round_obj))) in
        (user_id self = player1_id m →
           player1_time row = Some reported ∧
           player1_score row = calculate_score reported ok) ∧
        (user_id self = player2_id m →
           player2_time row = Some reported ∧
           player2_score row = calculate_score reported ok).
Proof.
  intros Hst Hnew reported.
  destruct (handle_answer_accepted self data w st Hst Hnew) as [Hg _].
  exists (recorded self data st). rewrite Hg, lookup_insert_eq.
  assert (answers_of (recorded self data st) !! user_id self
          = Some (mkAnswerData (d_answer data) reported)) as Hmine.
  { unfold answers_of at 1. unfold recorded.
    cbn [round_answers current_round with_round_answers].
    rewrite lookup_insert_eq. cbn [default id]. by rewrite lookup_insert_eq. }
  do 3 (split; [done|]).
  intros answers w2 round_obj m Hsame Hr Hm. rewrite Hmine in Hsame.
  destruct (calculate_round_result_run self _ answers
              w2 round_obj m Hr Hm) as (res & w3 & Hrun & _ & _ & _ & _ & Hrow & _).
  eexists res, w3, _. split; [done|]. split; [exact Hrow|].
  cbn [player1_time player2_time player1_score player2_score
       outcome_of pr_time pr_score].
  unfold latency_of, choice_of.
  split; intros <-; rewrite Hsame; done.
Qed.

(** C2 at work: twelve seconds into round 1 Ada reports 0 seconds. *)
Lemma C2_latency_is_client_reported_witness :
  ∃ st1,
    game_states (world_of (handle_answer Scenario.ada
      (Scenario.answer_frame "A" (0 # 1))
      (Scenario.at_time (12 # 1) Scenario.round1))) !! 1 = Some st1 ∧
    answers_of st1 !! 1 = Some (mkAnswerData (Some "A"%string) (0 # 1)).
Proof.
  destruct (C2_latency_is_client_reported Scenario.ada
              (Scenario.answer_frame "A" (0 # 1))
              (Scenario.at_time (12 # 1) Scenario.round1)
              (mkGameState {[1; 2]} 1 ∅ (Some (0 # 1)) ∅))
    as (st1 & H1 & _ & H2 & _).
  - vm_compute. reflexivity.
  - vm_compute. reflexivity.
  - exists st1. split; [exact H1 | exact H2].
Defined.

End ScoringClaims.

(* ===================================================================== *)
(** ** Claims on the end of a round and on the acceptance of answers *)
(* ===================================================================== *)

Section RoundClaims.
Import GameConsumer.

(** C3 (the code departs from it): when the timer of the current round
    fires and no answer at all was submitted in that round, the dictionary
    of answers has no entry for the round, and [round_timeout] returns
    without ending it: nothing is computed, nothing is sent, no next
    round or match end is scheduled. *)
Theorem C3_timeout_without_answers_is_ignored self w st :
  game_states w !! match_id self = Some st →
  round_answers st !! current_round st = None →
  round_timeout self (current_round st) w = (Ok tt, w, []).
Proof.
  intros Hst Hnone. unfold round_timeout.
  open_world w. run_monad. rewrite Hst. cbv beta iota.
  rewrite bool_decide_eq_false_2 by (intros H; by apply H).
  by rewrite Hnone.
Qed.

(** C3 at work: the timer of round 1 fires and nobody has answered. *)
Lemma C3_timeout_without_answers_is_ignored_witness :
  round_timeout Scenario.ada 1 (Scenario.at_time (15 # 1) Scenario.round1)
    = (Ok tt, Scenario.at_time (15 # 1) Scenario.round1, []).
Proof.
  apply (C3_timeout_without_answers_is_ignored Scenario.ada
           (Scenario.at_time (15 # 1) Scenario.round1)
           (mkGameState {[1; 2]} 1 ∅ (Some (0 # 1)) ∅)).
  - vm_compute. reflexivity.
  - vm_compute. reflexivity.
Defined.

(** The sibling path: with exactly one answer in, the same timer does
    end the round. *)
Lemma timeout_with_one_answer_ends_round :
  ∃ res, sent_of (round_timeout Scenario.ada 1
                    (Scenario.at_time (15 # 1) Scenario.one_answer))
         = [GroupSend 1 (round_end_ev 1 res);
            After 3 "game.ada" start_round_task].
Proof. vm_compute. eexists. reflexivity. Qed.

(** C4, as stated, fails on answers after the deadline.  Ada answered
    round 1, the 15-second timer fired and ended the round; one second
    later Bob's answer is still accepted: it is announced to the room,
    stored, and the round is scored once more with it. *)
Lemma C4_counterexample :
  (∃ res, sent_of (round_timeout Scenario.ada 1
                     (Scenario.at_time (15 # 1) Scenario.one_answer))
          = [GroupSend 1 (round_end_ev 1 res);
             After 3 "game.ada" start_round_task]) ∧
  (∃ rest, sent_of Scenario.late_answer
           = GroupSend 1 (answer_submitted_ev 2) :: rest) ∧
  (game_states (world_of Scenario.late_answer) !! 1
     ≫= λ st, answers_of st !! 2)
    = Some (mkAnswerData (Some "A"%string) (1 # 1)) ∧
  Scenario.round_row 1 (world_of Scenario.late_answer)
    = Some (mkRound 1 1 (Scenario.quiz 1 "A") (Some "A"%string)
              (Some "A"%string) (Some (2 # 1)) (Some (1 # 1)) 100 100).
Proof.
  split; [exact timeout_with_one_answer_ends_round|].
  vm_compute. split; [eexists; reflexivity|]. split; reflexivity.
Qed.

(** C4 (amended): for every round, each player's answer is accepted at
    most once: once a player has submitted, the answer recorded for that
    player in the current round is the first one (the one already there,
    or else the one just sent), and any further submission of that player
    in the same round is silently dropped: it returns normally, changes
    nothing and sends nothing. *)
Theorem C4_first_answer_only self d1 d2 w st :
  game_states w !! match_id self = Some st →
  let first :=
    match answers_of st !! user_id self with
    | Some prev => prev
    | None => mkAnswerData (d_answer d1) (default (15 # 1) (d_time d1))
    end in
  let w1 := world_of (handle_answer self d1 w) in
  handle_answer self d2 w1 = (Ok tt, w1, []) ∧
  ∃ st1, game_states w1 !! match_id self = Some st1 ∧
         current_round st1 = current_round st ∧
         answers_of st1 !! user_id self = Some first.
Proof.
  intros Hst first w1. subst first w1.
  destruct (answers_of st !! user_id self) as [prev|] eqn:Hprev.
  - rewrite (handle_answer_duplicate self d1 w st prev Hst Hprev).
    cbn [world_of fst snd].
    split; [by eapply handle_answer_duplicate|eauto].
  - destruct (handle_answer_accepted self d1 w st Hst Hprev) as [Hg _].
    assert (answers_of (recorded self d1 st) !! user_id self
            = Some (mkAnswerData (d_answer d1) (default (15 # 1) (d_time d1))))
      as Hmine.
    { unfold answers_of at 1. unfold recorded.
      cbn [round_answers current_round with_round_answers].
      rewrite lookup_insert_eq. cbn [default id]. by rewrite lookup_insert_eq. }
    assert (game_states (world_of (handle_answer self d1 w)) !! match_id self
            = Some (recorded self d1 st)) as Hst1
      by (by rewrite Hg, lookup_insert_eq).
    split; [by eapply handle_answer_duplicate|].
    exists (recorded self d1 st). done.
Qed.

(** C4 at work: Ada answers A, then sends B in the same round. *)
Lemma C4_first_answer_only_witness :
  let w1 := world_of (handle_answer Scenario.ada
              (Scenario.answer_frame "A" (2 # 1)) Scenario.round1) in
  handle_answer Scenario.ada (Scenario.answer_frame "B" (1 # 1)) w1
    = (Ok tt, w1, []) ∧
  ∃ st1, game_states w1 !! 1 = Some st1 ∧ current_round st1 = 1 ∧
         answers_of st1 !! 1 = Some (mkAnswerData (Some "A"%string) (2 # 1)).
Proof.
  assert (game_states Scenario.round1 !! 1
          = Some (mkGameState {[1; 2]} 1 ∅ (Some (0 # 1)) ∅)) as Hst
    by (vm_compute; reflexivity).
  exact (C4_first_answer_only Scenario.ada
           (Scenario.answer_frame "A" (2 # 1))
           (Scenario.answer_frame "B" (1 # 1)) Scenario.round1 _ Hst).
Defined.

End RoundClaims.

(* ===================================================================== *)
(** ** Matchmaking *)
(* ===================================================================== *)

Section Matchmaking.
Import MatchmakingConsumer.
Variable random_order : list Question → list Question.

Lemma create_rounds_run match_id qs : ∀ i w,
  create_rounds match_id i qs w =
    (Ok tt,
     mkWorld (waiting_players w) (game_states w)
       (with_rounds (λ rs, rs ++ new_rounds match_id i qs) (db w)) (clock w),
     []).
Proof.
  induction qs as [|q qs IH]; intros i w; open_world w.
  - cbn [create_rounds new_rounds]. run_monad. by rewrite app_nil_r.
  - cbn [create_rounds new_rounds]. unfold mbind, M_bind at 1.
    unfold create_round at 1. run_monad. rewrite IH. run_monad.
    by rewrite <- app_assoc.
Qed.

Lemma new_rounds_length match_id qs : ∀ i,
  length (new_rounds match_id i qs) = length qs.
Proof. induction qs as [|q qs IH]; intros i; cbn; [done|]. by rewrite IH. Qed.

Lemma new_rounds_lookup match_id qs : ∀ i (k : nat) q,
  qs !! k = Some q →
  new_rounds match_id i qs !! k
    = Some (mkRound match_id (i + Z.of_nat k) q None None None None 0 0).
Proof.
  induction qs as [|q0 qs IH]; intros i k q Hk; [done|].
  destruct k as [|k]; simpl in *.
  - injection Hk as ->. by rewrite Z.add_0_r.
  - erewrite IH by done. do 2 f_equal. lia.
Qed.

(** [create_match] has no failure of its own: once the opponent's row is
    found it creates the match and one round per question drawn. *)
Lemma create_match_run uid opp w uo :
  users (db w) !! opp = Some uo →
  create_match random_order uid opp w =
    (Ok (next_match_pk (db w)),
     mkWorld (waiting_players w) (game_states w)
       (mkDb (alter (set_is_in_game true) uid
                (alter (set_is_in_game true) opp (users (db w))))
             (questions (db w))
             (<[next_match_pk (db w) :=
                  mkMatch opp uid 0 0 None in_progress 0 5 (Some (clock w)) None]>
                (matches (db w)))
             (next_match_pk (db w) + 1)
             (rounds (db w) ++
                new_rounds (next_match_pk (db w)) 1
                  (take 5 (random_order (questions (db w)))))
             (history (db w)))
       (clock w), []).
Proof.
  intros Ho. open_world w. unfold create_match. run_monad. rewrite Ho.
  cbv beta iota zeta. rewrite create_rounds_run. run_monad.
  cbn [foldr app]. done.
Qed.

Lemma avatar_url_run a w :
  a = None ∨ a = Some ""%string → avatar_url a w = (Ok None, w, []).
Proof. by intros [-> | ->]. Qed.

Lemma get_match_data_run mid w m u1 u2 :
  matches (db w) !! mid = Some m →
  users (db w) !! player1_id m = Some u1 →
  users (db w) !! player2_id m = Some u2 →
  no_avatar u1 → no_avatar u2 →
  get_match_data mid w =
    (Ok (mkMatchData mid
           (mkPlayerCard (player1_id m) (username u1) None (rating u1))
           (mkPlayerCard (player2_id m) (username u2) None (rating u2))
           (total_rounds m)), w, []).
Proof.
  intros Hm H1 H2 A1 A2. open_world w. unfold get_match_data. run_monad.
  rewrite Hm, H1, H2.
  rewrite (avatar_url_run _ _ A1), (avatar_url_run _ _ A2). done.
Qed.

(** The pairing branch of [connect]: another player is first in line. *)
Lemma connect_pairs self w opp och rest uo me :
  is_anonymous self = false →
  waiting_players w = (opp, och) :: rest →
  opp ≠ user_id self →
  users (db w) !! opp = Some uo →
  users (db w) !! user_id self = Some me →
  no_avatar uo → no_avatar me →
  let pk := next_match_pk (db w) in
  let md := mkMatchData pk (mkPlayerCard opp (username uo) None (rating uo))
              (mkPlayerCard (user_id self) (username me) None (rating me)) 5 in
  ∃ w',
    connect random_order self w =
      (Ok tt, w', [Accept (channel_name self);
                   ChannelSend och (match_found_ev md);
                   Send (channel_name self) (f_match_found md)]) ∧
    waiting_players w' = PyDict.del opp rest ∧
    matches (db w') !! pk =
      Some (mkMatch opp (user_id self) 0 0 None in_progress 0 5
              (Some (clock w)) None) ∧
    rounds (db w') =
      rounds (db w) ++
        new_rounds pk 1 (take 5 (random_order (questions (db w)))).
Proof.
  intros Ha Hq Hne Ho Hme Ao Ame pk md. subst pk md.
  open_world w. subst. unfold connect, set_user_online, park. rewrite Ha.
  run_monad. cbn [PyDict.first_item head foldr].
  rewrite bool_decide_eq_true_2 by done.
  erewrite create_match_run; last first.
  { cbn [db users]. by rewrite lookup_alter_ne. }
  cbn [db users matches questions rounds next_match_pk clock waiting_players
       game_states history].
  erewrite get_match_data_run; cycle 1.
  - cbn [db matches]. apply lookup_insert_eq.
  - cbn [db users player1_id]. rewrite lookup_alter_ne by done.
    rewrite lookup_alter_eq. rewrite lookup_alter_ne by done. by rewrite Ho.
  - cbn [db users player2_id]. rewrite lookup_alter_eq.
    rewrite lookup_alter_ne by done. by rewrite lookup_alter_eq, Hme.
  - done.
  - done.
  - cbn [app username rating set_is_in_game set_is_online total_rounds
         player1_id player2_id].
    eexists. split; [reflexivity|].
    cbn [waiting_players db matches rounds].
    split.
    { unfold PyDict.del. rewrite filter_cons_False; [done|].
      cbn. intros H; by apply H. }
    split; [apply lookup_insert_eq|done].
Qed.

(** Pairing leaves the queue as [connect] has just set it, also when the
    creation of the match or of its data raises. *)
Lemma keeps_queue_create_rounds match_id qs : ∀ i,
  keeps waiting_players (create_rounds match_id i qs).
Proof.
  induction qs as [|q qs IH]; intros i; cbn [create_rounds]; [keeps|].
  apply keeps_bind; [unfold create_round; keeps | intros; apply IH].
Qed.

Lemma keeps_queue_create_match uid opp :
  keeps waiting_players (create_match random_order uid opp).
Proof.
  pose proof keeps_queue_create_rounds.
  unfold create_match, get_user, now, create_match_row, update_users. keeps.
Qed.

Lemma keeps_queue_get_match_data mid :
  keeps waiting_players (get_match_data mid).
Proof. unfold get_match_data, get_match, get_user, avatar_url. keeps. Qed.

Lemma del_length {V} k (d : list (Z * V)) :
  (length (PyDict.del k d) ≤ length d)%nat.
Proof. apply length_filter. Qed.

(** The waiting queue never holds more than one player: [connect] either
    takes the first player out or writes the caller's own entry. *)
Lemma connect_queue_at_most_one self w :
  (length (waiting_players w) ≤ 1)%nat →
  (length (waiting_players (world_of (connect random_order self w))) ≤ 1)%nat.
Proof.
  intros Hq. unfold connect, set_user_online, park.
  destruct (is_anonymous self); [done|].
  open_world w. run_monad. cbn [foldr].
  destruct q as [|[opp och] rest]; cbn [PyDict.first_item head]; [cbn; lia|].
  case_bool_decide as Hopp.
  - match goal with
    | |- context [create_match ?ro ?u ?o ?W] =>
        pose proof (keeps_queue_create_match u o W) as K1;
        destruct (create_match ro u o W) as [[[mid|e] w3] o3]
    end; unfold world_of in K1; cbn [fst snd waiting_players] in K1.
    + match goal with
      | |- context [get_match_data ?m ?W] =>
          pose proof (keeps_queue_get_match_data m W) as K2;
          destruct (get_match_data m W) as [[[md|e] w4] o4]
      end; unfold world_of in K2; cbn [fst snd] in K2;
        destruct w4; cbn [waiting_players] in *; rewrite K2, K1;
        (etrans; [apply del_length|done]).
    + destruct w3. cbn [waiting_players] in *. rewrite K1.
      etrans; [apply del_length|done].
  - rewrite Hopp. cbn [PyDict.set fst]. by rewrite bool_decide_eq_true_2.
Qed.

Lemma disconnect_queue_at_most_one self w :
  (length (waiting_players w) ≤ 1)%nat →
  (length (waiting_players (world_of (disconnect self w))) ≤ 1)%nat.
Proof.
  intros Hq. unfold disconnect, set_user_online.
  destruct (is_anonymous self); [done|].
  open_world w. run_monad.
  destruct (PyDict.mem (user_id self) q); run_monad; [|done].
  etrans; [apply del_length|done].
Qed.

Lemma receive_queue_at_most_one self action w :
  (length (waiting_players w) ≤ 1)%nat →
  (length (waiting_players (world_of (receive self action w))) ≤ 1)%nat.
Proof.
  intros Hq. unfold receive. case_bool_decide; [|done].
  open_world w. run_monad.
  destruct (PyDict.mem (user_id self) q); run_monad; [|done].
  etrans; [apply del_length|done].
Qed.

(** In such a queue a caller who is in the queue is first in line. *)
Lemma queue_holds_self (uid : Z) (q : list (Z * string)) :
  PyDict.mem uid q = true → (length q ≤ 1)%nat → ∃ ch, q = [(uid, ch)].
Proof.
  destruct q as [|[k ch] [|? ?]]; cbn; intros Hmem Hlen; [done| |lia].
  rewrite orb_false_r in Hmem. apply bool_decide_eq_true in Hmem as ->. eauto.
Qed.

(** The parking branch of [connect]: nobody waits, or the caller itself
    is first in line. *)
Lemma connect_parks self w :
  is_anonymous self = false →
  (waiting_players w = [] ∨
   ∃ ch rest, waiting_players w = (user_id self, ch) :: rest) →
  connect random_order self w =
    (Ok tt,
     mkWorld (PyDict.set (user_id self) (channel_name self) (waiting_players w))
       (game_states w)
       (with_users (alter (set_is_online true) (user_id self)) (db w))
       (clock w),
     [Accept (channel_name self);
      Send (channel_name self)
        (f_matchmaking_start "Looking for opponent..."%string)]).
Proof.
  intros Ha Hq. open_world w. unfold connect, set_user_online, park.
  rewrite Ha. run_monad.
  destruct Hq as [-> | (ch & rest & ->)]; cbn [PyDict.first_item head foldr app].
  - done.
  - by rewrite bool_decide_eq_false_2 by (intros H; by apply H).
Qed.

End Matchmaking.

(* ===================================================================== *)
(** ** Claims on matchmaking *)
(* ===================================================================== *)

Section MatchmakingClaims.
Import MatchmakingConsumer.
Variable random_order : list Question → list Question.

(** What is sent first is sent whatever follows, also when it raises. *)
Lemma sent_of_emit_bind {A} (e : Effect) (k : unit → M A) (w : World) :
  sent_of ((emit e ≫= k) w) = e :: sent_of (k tt w).
Proof.
  unfold sent_of, mbind, M_bind, emit. by destruct (k tt w) as [[r w'] out].
Qed.

(** C5 (amended): an authenticated caller who is already in the waiting
    queue (which holds one player at most), or who is currently in a live
    match, is not refused.  A caller in the queue is parked again under the
    new connection: its entry is overwritten, [matchmaking_start] is sent
    and nobody is paired.  A caller in a live match is handled like any
    other caller: parked when the queue is empty, and paired with the
    first waiting player when that is someone else (both then receive
    [match_found] for a newly created match, provided the row of the
    waiting player exists and the two rows hold no avatar URL, which
    [create_match] and [get_match_data] need).  Whatever the queue and
    the rows hold, the connection is accepted before anything else is
    done. *)
Theorem C5_enqueue_never_refuses self w me :
  is_anonymous self = false →
  users (db w) !! user_id self = Some me →
  let parked_frames :=
    [Accept (channel_name self);
     Send (channel_name self)
       (f_matchmaking_start "Looking for opponent..."%string)] in
  (PyDict.mem (user_id self) (waiting_players w) = true →
   (length (waiting_players w) ≤ 1)%nat →
     ∃ w', connect random_order self w = (Ok tt, w', parked_frames) ∧
           waiting_players w' = [(user_id self, channel_name self)]) ∧
  (is_in_game me = true →
     (waiting_players w = [] →
        ∃ w', connect random_order self w = (Ok tt, w', parked_frames) ∧
              waiting_players w' = [(user_id self, channel_name self)]) ∧
     (∀ opp och rest uo,
        waiting_players w = (opp, och) :: rest → opp ≠ user_id self →
        users (db w) !! opp = Some uo → no_avatar uo → no_avatar me →
        ∃ w' md,
          connect random_order self w =
            (Ok tt, w', [Accept (channel_name self);
                         ChannelSend och (match_found_ev md);
                         Send (channel_name self) (f_match_found md)]) ∧
          md_id md = next_match_pk (db w) ∧
          matches (db w') !! md_id md =
            Some (mkMatch opp (user_id self) 0 0 None in_progress 0 5
                    (Some (clock w)) None))) ∧
  (∃ rest,
     sent_of (connect random_order self w) = Accept (channel_name self) :: rest).
Proof.
  intros Ha Hme frames. subst frames. split; [|split; [intros _; split|]].
  - intros Hmem Hlen.
    destruct (queue_holds_self _ _ Hmem Hlen) as [ch Hq]. eexists. split.
    + apply connect_parks; eauto.
    + cbn [waiting_players]. rewrite Hq. cbn [PyDict.set fst].
      by rewrite bool_decide_eq_true_2.
  - intros Hq. eexists. split.
    + apply connect_parks; eauto.
    + cbn [waiting_players]. by rewrite Hq.
  - intros opp och rest uo Hq Hne Ho Ao Ame.
    destruct (connect_pairs random_order self w opp och rest uo me)
      as (w' & Hrun & _ & Hm & _); try done.
    eexists w', _. split; [exact Hrun|]. split; [done|exact Hm].
  - unfold connect. rewrite Ha. rewrite sent_of_emit_bind. by eexists.
Qed.

(** C6 (amended): whenever a pairing is attempted (another player is
    first in the queue, both rows exist and hold no avatar URL) and fewer
    than five questions are available, question selection does not fail
    and nothing is rolled back: the match is created, in progress and
    with [total_rounds] 5, with one round per available question,
    numbered from 1 in the order drawn, and both clients receive
    [match_found]. *)
Theorem C6_short_repository_still_pairs self w opp och rest uo me :
  is_anonymous self = false →
  waiting_players w = (opp, och) :: rest →
  opp ≠ user_id self →
  users (db w) !! opp = Some uo →
  users (db w) !! user_id self = Some me →
  no_avatar uo → no_avatar me →
  random_order (questions (db w)) ≡ₚ questions (db w) →
  (length (questions (db w)) < 5)%nat →
  let drawn := random_order (questions (db w)) in
  ∃ w' md created,
    connect random_order self w =
      (Ok tt, w', [Accept (channel_name self);
                   ChannelSend och (match_found_ev md);
                   Send (channel_name self) (f_match_found md)]) ∧
    md_id md = next_match_pk (db w) ∧ md_total_rounds md = 5 ∧
    matches (db w') !! md_id md =
      Some (mkMatch opp (user_id self) 0 0 None in_progress 0 5
              (Some (clock w)) None) ∧
    rounds (db w') = rounds (db w) ++ created ∧
    length created = length (questions (db w)) ∧
    ∀ (k : nat) q, drawn !! k = Some q →
      created !! k
        = Some (mkRound (md_id md) (1 + Z.of_nat k) q None None None None 0 0).
Proof.
  intros Ha Hq Hne Ho Hme Ao Ame Hperm Hlen drawn. subst drawn.
  destruct (connect_pairs random_order self w opp och rest uo me)
    as (w' & Hrun & _ & Hm & Hrounds); try done.
  rewrite take_ge in Hrounds by (rewrite Hperm; lia).
  eexists w', _, _. split; [exact Hrun|].
  cbn [md_id md_total_rounds]. do 3 (split; [done|]).
  split; [exact Hrounds|]. split.
  - rewrite new_rounds_length. by rewrite Hperm.
  - intros k q Hk. by apply new_rounds_lookup.
Qed.

End MatchmakingClaims.

(** C5, as stated, fails.  Ada waits in the queue and connects again: the
    call succeeds, she is parked again under the new channel and receives
    [matchmaking_start].  Ada and Bob, both in their live match 1, go back
    to matchmaking: Ada is parked, Bob is paired with her and a second
    match is created. *)
Lemma C5_counterexample :
  (PyDict.mem 1 (waiting_players (Scenario.parked Scenario.five_questions)) = true ∧
   result_of Scenario.requeue = Ok tt ∧
   sent_of Scenario.requeue =
     [Accept "mm.ada.2";
      Send "mm.ada.2" (f_matchmaking_start "Looking for opponent..."%string)] ∧
   waiting_players (world_of Scenario.requeue) = [(1, "mm.ada.2"%string)]) ∧
  (is_in_game <$> users (db (Scenario.paired Scenario.five_questions)) !! 1
     = Some true ∧
   is_in_game <$> users (db (Scenario.paired Scenario.five_questions)) !! 2
     = Some true ∧
   result_of Scenario.rematch = Ok tt ∧
   ∃ md, md_id md = 2 ∧
         sent_of Scenario.rematch =
           [Accept "mm.bob.2"; ChannelSend "mm.ada.2" (match_found_ev md);
            Send "mm.bob.2" (f_match_found md)]).
Proof.
  split; [vm_compute; by repeat split|].
  do 3 (split; [vm_compute; reflexivity|]).
  exists (mkMatchData 2 (mkPlayerCard 1 "ada" None 1000)
            (mkPlayerCard 2 "bob" None 10) 5).
  split; vm_compute; reflexivity.
Qed.

(** C5 at work: Ada, waiting in the queue, connects once more. *)
Lemma C5_enqueue_never_refuses_witness :
  ∃ w', MatchmakingConsumer.connect Scenario.table_order Scenario.seeker1_again
          (Scenario.parked Scenario.five_questions)
        = (Ok tt, w',
           [Accept "mm.ada.2";
            Send "mm.ada.2" (f_matchmaking_start "Looking for opponent..."%string)]) ∧
        waiting_players w' = [(1, "mm.ada.2"%string)].
Proof.
  assert (users (db (Scenario.parked Scenario.five_questions)) !! 1
          = Some (mkUser "ada" None 1000 6 0 0 true false)) as Hme
    by (vm_compute; reflexivity).
  destruct (C5_enqueue_never_refuses Scenario.table_order Scenario.seeker1_again
              (Scenario.parked Scenario.five_questions) _ eq_refl Hme)
    as [Hqueued _].
  apply Hqueued.
  - vm_compute. reflexivity.
  - vm_compute. lia.
Defined.

(** C6, as stated, fails: with two questions in the repository the pairing
    succeeds, match 1 is created with two rounds and both clients receive
    [match_found]. *)
Lemma C6_counterexample :
  result_of Scenario.short_pairing = Ok tt ∧
  (∃ md, md_id md = 1 ∧ md_total_rounds md = 5 ∧
         sent_of Scenario.short_pairing =
           [Accept "mm.bob"; ChannelSend "mm.ada" (match_found_ev md);
            Send "mm.bob" (f_match_found md)]) ∧
  status <$> matches (db (world_of Scenario.short_pairing)) !! 1
    = Some in_progress ∧
  rounds (db (world_of Scenario.short_pairing)) =
    [mkRound 1 1 (Scenario.quiz 1 "A") None None None None 0 0;
     mkRound 1 2 (Scenario.quiz 2 "B") None None None None 0 0].
Proof.
  split; [vm_compute; reflexivity|]. split; [|split; vm_compute; reflexivity].
  exists (mkMatchData 1 (mkPlayerCard 1 "ada" None 1000)
            (mkPlayerCard 2 "bob" None 10) 5).
  repeat split; vm_compute; reflexivity.
Qed.

(** C6 at work: Bob is paired with Ada over a repository of two questions. *)
Lemma C6_short_repository_still_pairs_witness :
  ∃ w' md created,
    Scenario.short_pairing =
      (Ok tt, w', [Accept "mm.bob"; ChannelSend "mm.ada" (match_found_ev md);
                   Send "mm.bob" (f_match_found md)]) ∧
    md_id md = 1 ∧ md_total_rounds md = 5 ∧
    matches (db w') !! md_id md =
      Some (mkMatch 1 2 0 0 None in_progress 0 5 (Some (0 # 1)) None) ∧
    rounds (db w') = [] ++ created ∧
    length created = 2%nat ∧
    ∀ (k : nat) q, Scenario.two_questions !! k = Some q →
      created !! k
        = Some (mkRound (md_id md) (1 + Z.of_nat k) q None None None None 0 0).
Proof.
  assert (users (db (Scenario.parked Scenario.two_questions)) !! 1
          = Some (mkUser "ada" None 1000 6 0 0 true false)) as Hada
    by (vm_compute; reflexivity).
  assert (users (db (Scenario.parked Scenario.two_questions)) !! 2
          = Some (mkUser "bob" None 10 1 0 0 false false)) as Hbob
    by (vm_compute; reflexivity).
  exact (C6_short_repository_still_pairs Scenario.table_order Scenario.seeker2
           (Scenario.parked Scenario.two_questions) 1 "mm.ada"%string [] _ _
           eq_refl eq_refl ltac:(discriminate) Hada Hbob
           (or_introl eq_refl) (or_introl eq_refl)
           (Permutation_refl _) ltac:(vm_compute; lia)).
Defined.

(* ===================================================================== *)
(** ** Finalisation *)
(* ===================================================================== *)

Section Finalisation.
Import GameConsumer.

Lemma p1_won_cases (m : Match) :
  (score1 m > score2 m ∧ p1_won m = Some true) ∨
  (score2 m > score1 m ∧ p1_won m = Some false) ∨
  (score1 m = score2 m ∧ p1_won m = None).
Proof.
  unfold p1_won. repeat case_bool_decide; [left | right; left | right; right];
    split; (done || lia).
Qed.

(** What one call of [finalize_match] returns and writes, when the match
    and the rows of its two players exist. *)
Lemma finalize_match_run self w m u1 u2 :
  matches (db w) !! match_id self = Some m →
  users (db w) !! player1_id m = Some u1 →
  users (db w) !! player2_id m = Some u2 →
  ∃ res ms',
    finalize_match self w =
      (Ok res,
       mkWorld (waiting_players w) (game_states w)
         (mkDb (finalized_users m u1 u2 (users (db w))) (questions (db w)) ms'
               (next_match_pk (db w)) (rounds (db w))
               (history (db w) ++ [history_of_player1 (match_id self) m;
                                   history_of_player2 (match_id self) m]))
         (clock w), []) ∧
    status <$> ms' !! match_id self = Some completed ∧
    pf_new_rating (mr_player1 res) =
      rating (match p1_won m with Some won => update_rating u1 won | None => u1 end) ∧
    pf_new_rating (mr_player2 res) =
      rating (match p1_won m with
              | Some won => update_rating u2 (negb won) | None => u2 end).
Proof.
  intros Hm H1 H2. open_world w.
  unfold finalize_match, finalized_users, history_of_player1, history_of_player2.
  run_monad. rewrite Hm, H1, H2.
  destruct (p1_won m) as [[|]|]; cbv beta iota; cbn [app foldr];
    rewrite <- app_assoc; cbn [app];
    (do 2 eexists; split; [reflexivity|]);
    (split; [by rewrite lookup_insert_eq|done]).
Qed.

Lemma filter_none {A} (P : A → Prop) `{∀ x, Decision (P x)} (l : list A) :
  (∀ x, x ∈ l → ¬ P x) → filter P l = [].
Proof.
  induction l as [|x l IH]; intros Hl; [done|].
  rewrite filter_cons_False by (apply Hl; left).
  apply IH. intros y Hy. apply Hl. by right.
Qed.

End Finalisation.

(* ===================================================================== *)
(** ** Claims on finalisation *)
(* ===================================================================== *)

Section FinalisationClaims.
Import GameConsumer.

Lemma finalized_player1 m u1 u2 us :
  us !! player1_id m = Some u1 → player1_id m ≠ player2_id m →
  finalized_users m u1 u2 us !! player1_id m =
    Some (set_is_in_game false
            match p1_won m with Some won => update_rating u1 won | None => u1 end).
Proof.
  intros H1 Hne. unfold finalized_users.
  rewrite lookup_alter_eq, lookup_alter_ne by done.
  destruct (p1_won m).
  - by rewrite lookup_insert_ne, lookup_insert_eq by done.
  - by rewrite H1.
Qed.

Lemma finalized_player2 m u1 u2 us :
  us !! player2_id m = Some u2 → player1_id m ≠ player2_id m →
  finalized_users m u1 u2 us !! player2_id m =
    Some (set_is_in_game false
            match p1_won m with
            | Some won => update_rating u2 (negb won) | None => u2 end).
Proof.
  intros H2 Hne. unfold finalized_users.
  rewrite lookup_alter_ne, lookup_alter_eq by done.
  destruct (p1_won m).
  - by rewrite lookup_insert_eq.
  - by rewrite H2.
Qed.

Lemma update_rating_win u :
  Spec.win_applied u (set_is_in_game false (update_rating u true)).
Proof. by repeat split. Qed.

Lemma update_rating_loss u :
  Spec.loss_applied u (set_is_in_game false (update_rating u false)).
Proof. by repeat split. Qed.

Lemma update_rating_nonneg u won :
  0 ≤ rating u → 0 ≤ rating (update_rating u won).
Proof. destruct won; cbn; lia. Qed.

(** C7: for every finalisation of a match between two distinct players
    whose ratings are not negative, the winner receives +20 rating and +1
    win, the loser's rating becomes max(0, rating - 15) and the loser's
    losses grow by 1, a draw changes neither player's rating, wins,
    losses or level; after every update the player's level is
    floor(rating / 200) + 1, and both ratings stay non-negative.  The
    ratings announced in [match_end] are the stored ones. *)
Theorem C7_rating_policy self w m u1 u2 :
  matches (db w) !! match_id self = Some m →
  users (db w) !! player1_id m = Some u1 →
  users (db w) !! player2_id m = Some u2 →
  player1_id m ≠ player2_id m →
  0 ≤ rating u1 → 0 ≤ rating u2 →
  ∃ res w' u1' u2',
    finalize_match self w = (Ok res, w', []) ∧
    users (db w') !! player1_id m = Some u1' ∧
    users (db w') !! player2_id m = Some u2' ∧
    (score1 m > score2 m → Spec.win_applied u1 u1' ∧ Spec.loss_applied u2 u2') ∧
    (score2 m > score1 m → Spec.loss_applied u1 u1' ∧ Spec.win_applied u2 u2') ∧
    (score1 m = score2 m → Spec.draw_applied u1 u1' ∧ Spec.draw_applied u2 u2') ∧
    0 ≤ rating u1' ∧ 0 ≤ rating u2' ∧
    pf_new_rating (mr_player1 res) = rating u1' ∧
    pf_new_rating (mr_player2 res) = rating u2'.
Proof.
  intros Hm H1 H2 Hne Hr1 Hr2.
  destruct (finalize_match_run self w m u1 u2 Hm H1 H2)
    as (res & ms' & Hrun & _ & Hn1 & Hn2).
  eexists res, _, _, _. split; [exact Hrun|]. cbn [db users].
  split; [by apply finalized_player1|]. split; [by apply finalized_player2|].
  rewrite Hn1, Hn2.
  destruct (p1_won_cases m) as [[Hs ->] | [[Hs ->] | [Hs ->]]]; cbn [negb].
  - split; [intros _; split; [apply update_rating_win|apply update_rating_loss]|].
    split; [lia|]. split; [lia|].
    split; [apply (update_rating_nonneg u1 true Hr1)|].
    split; [apply (update_rating_nonneg u2 false Hr2)|done].
  - split; [lia|].
    split; [intros _; split; [apply update_rating_loss|apply update_rating_win]|].
    split; [lia|].
    split; [apply (update_rating_nonneg u1 false Hr1)|].
    split; [apply (update_rating_nonneg u2 true Hr2)|done].
  - split; [lia|]. split; [lia|].
    split; [intros _; by repeat split|]. by repeat split.
Qed.


(** C10: in every finalisation with a winner, between two distinct
    players, where the loser's rating [r] before the match satisfies
    0 <= r < 15, the loser's history row records [rating_change] -15
    while the loser's stored rating becomes 0, a change of -r only: the
    recorded change differs from the new rating minus the old one. *)
Theorem C10_floored_loss_is_recorded_as_15 self w m u1 u2 :
  matches (db w) !! match_id self = Some m →
  users (db w) !! player1_id m = Some u1 →
  users (db w) !! player2_id m = Some u2 →
  player1_id m ≠ player2_id m →
  score1 m ≠ score2 m →
  let p1_wins := bool_decide (score1 m > score2 m) in
  let loser := if p1_wins then player2_id m else player1_id m in
  let before := if p1_wins then u2 else u1 in
  0 ≤ rating before < 15 →
  ∃ res w' h after,
    finalize_match self w = (Ok res, w', []) ∧
    h ∈ history (db w') ∧ mh_match h = match_id self ∧ mh_user h = loser ∧
    rating_change h = -15 ∧
    users (db w') !! loser = Some after ∧
    rating after = 0 ∧
    rating after - rating before = - rating before ∧
    rating_change h ≠ rating after - rating before.
Proof.
  intros Hm H1 H2 Hne Hs p1_wins loser before. subst p1_wins loser before.
  destruct (finalize_match_run self w m u1 u2 Hm H1 H2)
    as (res & ms' & Hrun & _).
  pose proof (finalized_player1 m u1 u2 _ H1 Hne) as Hu1.
  pose proof (finalized_player2 m u1 u2 _ H2 Hne) as Hu2.
  destruct (p1_won_cases m) as [[Hw Hp] | [[Hw Hp] | [Hw Hp]]]; [| |lia].
  - rewrite bool_decide_eq_true_2 by done. intros Hr. rewrite Hp in Hu2.
    eexists res, _, (history_of_player2 (match_id self) m), _.
    split; [exact Hrun|]. cbn [db users history].
    split; [apply elem_of_app; right; repeat constructor|].
    unfold history_of_player2. rewrite Hp.
    cbn [mh_match mh_user rating_change negb].
    do 3 (split; [done|]). split; [exact Hu2|].
    simpl. lia.
  - rewrite bool_decide_eq_false_2 by lia. intros Hr. rewrite Hp in Hu1.
    eexists res, _, (history_of_player1 (match_id self) m), _.
    split; [exact Hrun|]. cbn [db users history].
    split; [apply elem_of_app; right; repeat constructor|].
    unfold history_of_player1. rewrite Hp.
    cbn [mh_match mh_user rating_change negb].
    do 3 (split; [done|]). split; [exact Hu1|].
    simpl. lia.
Qed.

End FinalisationClaims.

(** C7 at work: match 1 is finalised at 100 to 0 for Ada (rating 1000)
    against Bob (rating 10). *)
Lemma C7_rating_policy_witness :
  ∃ res w' u1' u2',
    GameConsumer.finalize_match Scenario.ada Scenario.timed_out = (Ok res, w', []) ∧
    users (db w') !! 1 = Some u1' ∧ users (db w') !! 2 = Some u2' ∧
    Spec.win_applied (mkUser "ada" None 1000 6 0 0 true true) u1' ∧
    Spec.loss_applied (mkUser "bob" None 10 1 0 0 true true) u2'.
Proof.
  assert (matches (db Scenario.timed_out) !! 1
          = Some (mkMatch 1 2 100 0 None in_progress 1 5 (Some (0 # 1)) None)) as Hm
    by (vm_compute; reflexivity).
  assert (users (db Scenario.timed_out) !! 1
          = Some (mkUser "ada" None 1000 6 0 0 true true)) as Hada
    by (vm_compute; reflexivity).
  assert (users (db Scenario.timed_out) !! 2
          = Some (mkUser "bob" None 10 1 0 0 true true)) as Hbob
    by (vm_compute; reflexivity).
  assert (0 ≤ 1000) as H1000 by lia.
  assert (0 ≤ 10) as H10 by lia.
  destruct (C7_rating_policy Scenario.ada Scenario.timed_out _ _ _ Hm Hada Hbob
              ltac:(discriminate) H1000 H10)
    as (res & w' & u1' & u2' & Hrun & H1 & H2 & Hwin & _).
  exists res, w', u1', u2'.
  destruct (Hwin eq_refl) as [Hw Hl]. auto.
Defined.



(** C10 at work on the same finalisation: Bob loses with a rating of 10. *)
Lemma C10_floored_loss_is_recorded_as_15_witness :
  ∃ res w' h after,
    GameConsumer.finalize_match Scenario.ada Scenario.timed_out = (Ok res, w', []) ∧
    h ∈ history (db w') ∧ mh_user h = 2 ∧ rating_change h = -15 ∧
    users (db w') !! 2 = Some after ∧ rating after - 10 = -10.
Proof.
  assert (matches (db Scenario.timed_out) !! 1
          = Some (mkMatch 1 2 100 0 None in_progress 1 5 (Some (0 # 1)) None)) as Hm
    by (vm_compute; reflexivity).
  assert (users (db Scenario.timed_out) !! 1
          = Some (mkUser "ada" None 1000 6 0 0 true true)) as Hada
    by (vm_compute; reflexivity).
  assert (users (db Scenario.timed_out) !! 2
          = Some (mkUser "bob" None 10 1 0 0 true true)) as Hbob
    by (vm_compute; reflexivity).
  assert (0 ≤ 10 < 15) as Hlow by lia.
  destruct (C10_floored_loss_is_recorded_as_15 Scenario.ada Scenario.timed_out
              _ _ _ Hm Hada Hbob ltac:(discriminate) ltac:(discriminate) Hlow)
    as (res & w' & h & after & Hrun & Hin & _ & Hu & Hc & Hafter & _ & Hdelta & _).
  exists res, w', h, after. auto 10.
Defined.

(* ===================================================================== *)
(** ** Claims on the emoji channel *)
(* ===================================================================== *)

Section Emoji.
Import GameConsumer.

Lemma emoji_count_counted self n st w :
  emoji_count self (counted self n st w) = n.
Proof.
  unfold emoji_count, counted. cbn [game_states].
  rewrite lookup_insert_eq. cbn. by rewrite lookup_insert_eq.
Qed.

(** One emoji frame: counted and broadcast while fewer than five were. *)
Lemma handle_emoji_step self data w st :
  game_states w !! match_id self = Some st →
  let n := emoji_count self w in
  handle_emoji self data w =
    (Ok tt, counted self (if bool_decide (n < 5) then n + 1 else n) st w,
     if bool_decide (n < 5) then
       [GroupSend (room_group_name self)
          (emoji_received_ev (user_id self) (d_emoji data))]
     else []).
Proof.
  intros Hst n.
  assert (n = default 0 (emojis_sent st !! user_id self)) as Hn
    by (subst n; unfold emoji_count; by rewrite Hst).
  clearbody n. unfold handle_emoji, counted. open_world w. run_monad.
  rewrite Hst. cbv beta iota zeta.
  destruct (emojis_sent st !! user_id self) as [k|] eqn:Ek;
    cbn [default id] in Hn; subst n.
  - rewrite Ek. cbn [default id].
    repeat case_bool_decide; try lia; cbn [app];
      rewrite ?insert_insert_eq, ?(insert_id (emojis_sent st)) by done; done.
  - rewrite lookup_insert_eq. cbn [default id].
    repeat case_bool_decide; try lia; cbn [app].
    by rewrite !insert_insert_eq.
Qed.

Lemma receive_emoji self e :
  receive self (emoji_frame e) = handle_emoji self (emoji_frame e).
Proof. reflexivity. Qed.

Lemma receive_all_emojis self emojis : ∀ w st,
  game_states w !! match_id self = Some st →
  0 ≤ emoji_count self w →
  ∃ w', receive_all self (emoji_frame <$> emojis) w =
    (Ok tt, w',
     (λ e, GroupSend (room_group_name self) (emoji_received_ev (user_id self) e))
       <$> take (Z.to_nat (5 - emoji_count self w)) emojis).
Proof.
  induction emojis as [|e es IH]; intros w st Hst Hn.
  - eexists. cbn. by rewrite take_nil.
  - cbn [fmap list_fmap receive_all]. rewrite receive_emoji.
    pose proof (handle_emoji_step self (emoji_frame e) w st Hst) as Hrun.
    cbv zeta in Hrun. unfold mbind, M_bind. rewrite Hrun.
    edestruct (IH (counted self
                     (if bool_decide (emoji_count self w < 5)
                      then emoji_count self w + 1 else emoji_count self w) st w))
      as (w2 & Hrest).
    { unfold counted. cbn [game_states]. apply lookup_insert_eq. }
    { rewrite emoji_count_counted. case_bool_decide; lia. }
    rewrite Hrest. eexists. f_equal. rewrite emoji_count_counted.
    case_bool_decide as Hlt.
    + replace (Z.to_nat (5 - emoji_count self w))
        with (S (Z.to_nat (5 - (emoji_count self w + 1)))) by lia.
      done.
    + replace (Z.to_nat (5 - emoji_count self w)) with 0%nat by lia. done.
Qed.

Lemma delivered_to_other sender other w emojis :
  match_id other = match_id sender →
  user_id other ≠ user_id sender →
  delivered other w
    ((λ e, GroupSend (room_group_name sender)
             (emoji_received_ev (user_id sender) e)) <$> emojis)
  = f_emoji_received <$> emojis.
Proof.
  intros Hm Hu. induction emojis as [|e es IH]; [done|].
  cbn [fmap list_fmap delivered flat_map] in *. unfold delivered in IH.
  rewrite IH. unfold room_group_name. rewrite bool_decide_eq_true_2 by done.
  cbn [handle]. rewrite bool_decide_eq_true_2 by done.
  cbn. by rewrite bool_decide_eq_true_2.
Qed.

Lemma delivered_to_sender sender member w emojis :
  user_id member = user_id sender →
  delivered member w
    ((λ e, GroupSend (room_group_name sender)
             (emoji_received_ev (user_id sender) e)) <$> emojis)
  = [].
Proof.
  intros Hu. induction emojis as [|e es IH]; [done|].
  cbn [fmap list_fmap delivered flat_map] in *. unfold delivered in IH.
  rewrite IH. case_bool_decide; [|done].
  cbn [handle]. by rewrite bool_decide_eq_false_2 by (intros H'; by apply H').
Qed.

(** The limit of one state: when the state of the match has counted no
    emoji of a player yet and that player sends any sequence of emoji
    frames, the consumer of the other player forwards to its client
    exactly the first five of them, in order, as [emoji_received] frames,
    and the sender's own consumer forwards none. *)
Lemma emoji_limit_of_one_state sender other w st emojis :
  game_states w !! match_id sender = Some st →
  emojis_sent st !! user_id sender = None →
  match_id other = match_id sender →
  user_id other ≠ user_id sender →
  ∃ w' out,
    receive_all sender (emoji_frame <$> emojis) w = (Ok tt, w', out) ∧
    ∀ v,
      delivered other v out = f_emoji_received <$> take 5 emojis ∧
      delivered sender v out = [] ∧
      (length emojis = 6%nat → length (delivered other v out) = 5%nat).
Proof.
  intros Hst Hnone Hm Hu.
  assert (emoji_count sender w = 0) as Hn
    by (unfold emoji_count; rewrite Hst; cbn; by rewrite Hnone).
  destruct (receive_all_emojis sender emojis w st Hst) as (w' & Hrun); [lia|].
  rewrite Hn in Hrun. change (Z.to_nat (5 - 0)) with 5%nat in Hrun.
  eexists w', _. split; [exact Hrun|]. intros v.
  rewrite delivered_to_other, delivered_to_sender by done.
  do 2 (split; [done|]). intros Hlen.
  rewrite length_fmap, length_take. lia.
Qed.

End Emoji.

(* ===================================================================== *)
(** ** Further properties of matchmaking *)
(* ===================================================================== *)

Section MatchmakingMore.
Import MatchmakingConsumer.
Variable random_order : list Question → list Question.

Lemma mem_del {V} (k : Z) (d : list (Z * V)) : PyDict.mem k (PyDict.del k d) = false.
Proof.
  unfold PyDict.mem, PyDict.del. induction d as [|[k' v] d IH]; [done|].
  destruct (decide (k' = k)) as [->|Hne].
  - by rewrite filter_cons_False by (cbn; intros H; by apply H).
  - rewrite filter_cons_True by done. cbn. by rewrite bool_decide_eq_false_2.
Qed.

(** X1: the waiting queue never holds more than one player: from a queue
    of at most one entry, any sequence of connections, disconnections and
    inbound frames, by any users, leaves at most one entry. *)
Theorem queue_never_holds_two calls : ∀ w,
  (length (waiting_players w) ≤ 1)%nat →
  (length (waiting_players (serve_all random_order calls w)) ≤ 1)%nat.
Proof.
  induction calls as [|c calls IH]; intros w Hq; [done|].
  cbn [serve_all foldl]. apply IH. destruct c as [self|self|self action]; cbn [serve].
  - by apply connect_queue_at_most_one.
  - by apply disconnect_queue_at_most_one.
  - by apply receive_queue_at_most_one.
Qed.

(** X2: cancelling undoes parking.  A caller who connects while nobody
    waits is parked; its [cancel] frame is answered by
    [matchmaking_cancelled] and leaves the queue empty again, and a second
    [cancel] is answered the same way and changes nothing. *)
Theorem cancel_undoes_parking self w :
  is_anonymous self = false →
  waiting_players w = [] →
  let w1 := world_of (connect random_order self w) in
  ∃ w2,
    waiting_players w1 = [(user_id self, channel_name self)] ∧
    receive self (Some "cancel"%string) w1 =
      (Ok tt, w2, [Send (channel_name self) f_matchmaking_cancelled]) ∧
    waiting_players w2 = [] ∧ db w2 = db w1 ∧
    receive self (Some "cancel"%string) w2 =
      (Ok tt, w2, [Send (channel_name self) f_matchmaking_cancelled]).
Proof.
  intros Ha Hq w1. subst w1.
  rewrite (connect_parks random_order self w Ha (or_introl Hq)).
  cbn [world_of fst snd waiting_players]. rewrite Hq. cbn [PyDict.set].
  eexists. split; [done|]. unfold receive.
  rewrite bool_decide_eq_true_2 by done. run_monad.
  cbn [PyDict.mem existsb fst orb]. rewrite bool_decide_eq_true_2 by done.
  cbn [orb]. run_monad. unfold PyDict.del.
  rewrite filter_cons_False by (cbn; intros H; by apply H).
  rewrite filter_nil. cbn [app]. split; [reflexivity|].
  cbn [waiting_players db PyDict.mem existsb]. done.
Qed.

(** X3: the queue is keyed by user, not by connection.  When a user who
    is parked opens a second matchmaking connection and the first one then
    closes, the queue is left empty although the second connection is
    still open and was told [matchmaking_start]. *)
Theorem stale_disconnect_unparks_new_connection old new w :
  is_anonymous old = false → is_anonymous new = false →
  user_id new = user_id old →
  waiting_players w = [] →
  let w1 := world_of (connect random_order old w) in
  let r2 := connect random_order new w1 in
  let r3 := disconnect old (world_of r2) in
  sent_of r2 =
    [Accept (channel_name new);
     Send (channel_name new) (f_matchmaking_start "Looking for opponent..."%string)] ∧
  waiting_players (world_of r2) = [(user_id new, channel_name new)] ∧
  result_of r3 = Ok tt ∧ sent_of r3 = [] ∧
  waiting_players (world_of r3) = [].
Proof.
  intros Ho Hn Hid Hq w1 r2 r3. subst w1 r2 r3.
  rewrite (connect_parks random_order old w Ho (or_introl Hq)).
  cbn [world_of fst snd]. rewrite Hq. cbn [PyDict.set].
  rewrite (connect_parks random_order new); [|done|].
  2:{ right. cbn [waiting_players]. rewrite Hid. eauto. }
  cbn [world_of sent_of fst snd waiting_players PyDict.set].
  rewrite Hid. rewrite bool_decide_eq_true_2 by done.
  do 2 (split; [done|]).
  unfold disconnect, set_user_online. rewrite Ho. run_monad.
  cbn [PyDict.mem existsb fst]. rewrite bool_decide_eq_true_2 by done.
  cbn [orb]. run_monad. unfold PyDict.del.
  rewrite filter_cons_False by (cbn; intros H; by apply H).
  by rewrite filter_nil.
Qed.

Lemma avatar_url_raises a w :
  ¬ (a = None ∨ a = Some ""%string) → avatar_url a w = (Raise AttributeError, w, []).
Proof.
  intros Ha. destruct a as [s|]; [|by destruct Ha; left].
  unfold avatar_url. case_bool_decide as Hs; [|done].
  subst. destruct Ha. by right.
Qed.

Lemma no_avatar_dec (u : User) : no_avatar u ∨ ¬ no_avatar u.
Proof.
  unfold no_avatar. destruct (avatar u) as [s|]; [|by left; left].
  destruct (decide (s = ""%string)) as [->|Hs]; [by left; right|].
  right. intros [H|H]; [done|]. by injection H.
Qed.

Lemma get_match_data_raises mid w m u1 u2 :
  matches (db w) !! mid = Some m →
  users (db w) !! player1_id m = Some u1 →
  users (db w) !! player2_id m = Some u2 →
  ¬ no_avatar u1 ∨ ¬ no_avatar u2 →
  get_match_data mid w = (Raise AttributeError, w, []).
Proof.
  intros Hm H1 H2 Hav. open_world w. unfold get_match_data. run_monad.
  rewrite Hm, H1, H2.
  destruct (no_avatar_dec u1) as [A1|A1].
  - destruct Hav as [Hav|Hav]; [done|].
    rewrite (avatar_url_run _ _ A1), (avatar_url_raises _ _ Hav). done.
  - by rewrite (avatar_url_raises _ _ A1).
Qed.

(** X4: pairing is first come, first served and marks both players.  When
    another player is first in the queue (and the two rows hold no avatar
    URL), the waiting player becomes player 1 and the caller player 2 of
    the new match, both rows get [is_in_game] set, the caller is marked
    online, the waiting player leaves the queue and the caller does not
    enter it. *)
Theorem pairing_roles_and_flags self w opp och rest uo me :
  is_anonymous self = false →
  waiting_players w = (opp, och) :: rest →
  opp ≠ user_id self →
  users (db w) !! opp = Some uo →
  users (db w) !! user_id self = Some me →
  no_avatar uo → no_avatar me →
  ∃ w' m,
    result_of (connect random_order self w) = Ok tt ∧
    world_of (connect random_order self w) = w' ∧
    matches (db w') !! next_match_pk (db w) = Some m ∧
    player1_id m = opp ∧ player2_id m = user_id self ∧
    users (db w') !! opp = Some (set_is_in_game true uo) ∧
    users (db w') !! user_id self
      = Some (set_is_in_game true (set_is_online true me)) ∧
    waiting_players w' = PyDict.del opp rest ∧
    PyDict.mem opp (waiting_players w') = false.
Proof.
  intros Ha Hq Hne Ho Hme Ao Ame.
  open_world w. subst. unfold connect, set_user_online, park. rewrite Ha.
  run_monad. cbn [PyDict.first_item head foldr].
  rewrite bool_decide_eq_true_2 by done.
  erewrite create_match_run; last first.
  { cbn [db users]. by rewrite lookup_alter_ne. }
  cbn [db users matches questions rounds next_match_pk clock waiting_players
       game_states history].
  erewrite get_match_data_run; cycle 1.
  - cbn [db matches]. apply lookup_insert_eq.
  - cbn [db users player1_id]. rewrite lookup_alter_ne by done.
    rewrite lookup_alter_eq. rewrite lookup_alter_ne by done. by rewrite Ho.
  - cbn [db users player2_id]. rewrite lookup_alter_eq.
    rewrite lookup_alter_ne by done. by rewrite lookup_alter_eq, Hme.
  - done.
  - done.
  - do 2 eexists. split; [reflexivity|]. split; [reflexivity|].
    cbn [waiting_players db matches users].
    split; [apply lookup_insert_eq|]. do 2 (split; [done|]).
    split.
    { rewrite lookup_alter_ne by done. rewrite lookup_alter_eq.
      rewrite lookup_alter_ne by done. by rewrite Ho. }
    split.
    { rewrite lookup_alter_eq. rewrite lookup_alter_ne by done.
      by rewrite lookup_alter_eq, Hme. }
    assert (PyDict.del opp ((opp, och) :: rest) = PyDict.del opp rest) as ->.
    { unfold PyDict.del. rewrite filter_cons_False; [done|].
      cbn. intros H; by apply H. }
    split; [done|apply mem_del].
Qed.

(** X5: a waiting player whose row is gone is dropped.  When the row of
    the first waiting player no longer exists, [connect] raises
    [DoesNotExist] after it has accepted the caller and taken the waiting
    player out of the queue: no match is created, nothing more is sent,
    and the caller is not parked. *)
Theorem pairing_without_opponent_row self w opp och rest :
  is_anonymous self = false →
  waiting_players w = (opp, och) :: rest →
  opp ≠ user_id self →
  users (db w) !! opp = None →
  ∃ w',
    connect random_order self w
      = (Raise User_DoesNotExist, w', [Accept (channel_name self)]) ∧
    waiting_players w' = PyDict.del opp rest ∧
    matches (db w') = matches (db w) ∧ rounds (db w') = rounds (db w).
Proof.
  intros Ha Hq Hne Ho.
  open_world w. subst. unfold connect, set_user_online, park, create_match.
  rewrite Ha. run_monad. cbn [PyDict.first_item head foldr].
  rewrite bool_decide_eq_true_2 by done.
  rewrite lookup_alter_ne by done. rewrite Ho. cbn [app].
  eexists. split; [reflexivity|]. cbn [waiting_players db matches rounds].
  split; [|done]. unfold PyDict.del. rewrite filter_cons_False; [done|].
  cbn. intros H; by apply H.
Qed.

(** X6: a stored avatar URL breaks the pairing after the match is made.
    When another player is first in the queue and one of the two rows holds
    a non-empty avatar URL, [connect] raises [AttributeError] while it
    builds the match data: the match row exists, in progress, both players
    are marked in game and the waiting player has left the queue, but
    neither client is sent [match_found]. *)
Theorem pairing_with_avatar_is_silent self w opp och rest uo me :
  is_anonymous self = false →
  waiting_players w = (opp, och) :: rest →
  opp ≠ user_id self →
  users (db w) !! opp = Some uo →
  users (db w) !! user_id self = Some me →
  ¬ no_avatar uo ∨ ¬ no_avatar me →
  ∃ w',
    connect random_order self w
      = (Raise AttributeError, w', [Accept (channel_name self)]) ∧
    matches (db w') !! next_match_pk (db w) =
      Some (mkMatch opp (user_id self) 0 0 None in_progress 0 5
              (Some (clock w)) None) ∧
    is_in_game <$> users (db w') !! opp = Some true ∧
    is_in_game <$> users (db w') !! user_id self = Some true ∧
    waiting_players w' = PyDict.del opp rest.
Proof.
  intros Ha Hq Hne Ho Hme Hav.
  open_world w. subst. unfold connect, set_user_online, park. rewrite Ha.
  run_monad. cbn [PyDict.first_item head foldr].
  rewrite bool_decide_eq_true_2 by done.
  erewrite create_match_run; last first.
  { cbn [db users]. by rewrite lookup_alter_ne. }
  cbn [db users matches questions rounds next_match_pk clock waiting_players
       game_states history].
  erewrite get_match_data_raises; cycle 1.
  - cbn [db matches]. apply lookup_insert_eq.
  - cbn [db users player1_id]. rewrite lookup_alter_ne by done.
    rewrite lookup_alter_eq. rewrite lookup_alter_ne by done. by rewrite Ho.
  - cbn [db users player2_id]. rewrite lookup_alter_eq.
    rewrite lookup_alter_ne by done. by rewrite lookup_alter_eq, Hme.
  - unfold no_avatar in *. cbn [avatar set_is_in_game set_is_online]. exact Hav.
  - cbn [app]. eexists. split; [reflexivity|].
    cbn [waiting_players db matches users].
    split; [apply lookup_insert_eq|].
    split.
    { rewrite lookup_alter_ne by done. rewrite lookup_alter_eq.
      rewrite lookup_alter_ne by done. by rewrite Ho. }
    split.
    { rewrite lookup_alter_eq. rewrite lookup_alter_ne by done.
      by rewrite lookup_alter_eq, Hme. }
    unfold PyDict.del. rewrite filter_cons_False; [done|].
    cbn. intros H; by apply H.
Qed.

End MatchmakingMore.

(* ===================================================================== *)
(** ** Further properties of the game session *)
(* ===================================================================== *)

Section SessionMore.
Import GameConsumer.

Lemma verify_player_run self w :
  verify_player self w =
    (Ok match matches (db w) !! match_id self with
        | Some m => bool_decide (player1_id m = user_id self)
                    || bool_decide (player2_id m = user_id self)
        | None => false
        end, w, []).
Proof. by destruct w. Qed.

(** X7: a game session is open to the two players only.  For an anonymous
    user, a match that does not exist, or a user who is neither player of
    the match, [connect] closes the connection and leaves the world as it
    was: no state is created and nobody is marked ready. *)
Theorem connect_refuses_outsiders self w :
  (is_anonymous self = true ∨
   ∀ m, matches (db w) !! match_id self = Some m → ¬ plays (user_id self) m) →
  connect self w = (Ok tt, w, [Close (channel_name self)]).
Proof.
  intros Hout. unfold connect.
  destruct (is_anonymous self) eqn:Ha; [by destruct w|].
  destruct Hout as [|Hout]; [done|].
  unfold mbind, M_bind. rewrite verify_player_run.
  destruct (matches (db w) !! match_id self) as [m|] eqn:Hm; [|by destruct w].
  specialize (Hout m eq_refl). unfold plays in Hout.
  rewrite !bool_decide_eq_false_2 by tauto. by destruct w.
Qed.

(** What [connect] does for a player of the match. *)
Lemma connect_run self w m :
  is_anonymous self = false →
  matches (db w) !! match_id self = Some m →
  plays (user_id self) m →
  let ready :=
    {[user_id self]} ∪ from_option players_ready ∅ (game_states w !! match_id self) in
  connect self w =
    (Ok tt,
     mkWorld (waiting_players w)
       (<[match_id self :=
            with_players_ready ready
              (default fresh_state (game_states w !! match_id self))]>
          (game_states w))
       (db w) (clock w),
     [GroupAdd (room_group_name self) (channel_name self);
      Accept (channel_name self);
      Send (channel_name self) (f_connected (match_id self) (size ready))]
     ++ (if bool_decide (2 ≤ size ready)%nat
         then [GroupSend (room_group_name self) game_start_ev] else [])).
Proof.
  intros Ha Hm Hp ready. subst ready. unfold connect. rewrite Ha.
  unfold mbind at 1, M_bind at 1. rewrite verify_player_run, Hm.
  assert (bool_decide (player1_id m = user_id self)
          || bool_decide (player2_id m = user_id self) = true) as ->.
  { destruct Hp as [Hp|Hp]; rewrite (bool_decide_eq_true_2 _ Hp);
      [done|apply orb_true_r]. }
  cbn [negb]. open_world w. run_monad.
  destruct (g !! match_id self) as [st|]; cbn [default from_option id fresh_state
    players_ready with_players_ready];
    case_bool_decide; done.
Qed.

(** X8: the game starts when the second player arrives, not before.  For
    a player of the match, [connect] marks the player ready in the state
    of the match (created on the first connection) and answers
    [connected]; if no other player is ready, also when the same player
    connects again, nothing more is sent; if another player is ready,
    [game_start] is sent to the room, again when the player who connects
    was ready already. *)
Theorem game_starts_with_second_player self w m :
  is_anonymous self = false →
  matches (db w) !! match_id self = Some m →
  plays (user_id self) m →
  let old := from_option players_ready ∅ (game_states w !! match_id self) in
  let r := connect self w in
  result_of r = Ok tt ∧ db (world_of r) = db w ∧
  (players_ready <$> game_states (world_of r) !! match_id self)
    = Some ({[user_id self]} ∪ old) ∧
  (old ⊆ {[user_id self]} →
     sent_of r = [GroupAdd (room_group_name self) (channel_name self);
                  Accept (channel_name self);
                  Send (channel_name self) (f_connected (match_id self) 1)]) ∧
  (user_id self ∉ old → old ≠ ∅ →
     sent_of r = [GroupAdd (room_group_name self) (channel_name self);
                  Accept (channel_name self);
                  Send (channel_name self)
                    (f_connected (match_id self) (S (size old)));
                  GroupSend (room_group_name self) game_start_ev]) ∧
  (user_id self ∈ old → old ≠ {[user_id self]} →
     sent_of r = [GroupAdd (room_group_name self) (channel_name self);
                  Accept (channel_name self);
                  Send (channel_name self)
                    (f_connected (match_id self) (size old));
                  GroupSend (room_group_name self) game_start_ev]).
Proof.
  intros Ha Hm Hp old r. subst r.
  pose proof (connect_run self w m Ha Hm Hp) as Hrun. cbv zeta in Hrun.
  fold old in Hrun. rewrite Hrun. clear Hrun.
  cbn [result_of world_of sent_of fst snd db game_states].
  split; [done|]. split; [done|]. split; [by rewrite lookup_insert_eq|]. split.
  - intros Hsub. assert ({[user_id self]} ∪ old = {[user_id self]}) as ->
      by set_solver.
    rewrite size_singleton. by rewrite bool_decide_eq_false_2 by lia.
  - split.
    + intros Hnew Hne.
      assert (size ({[user_id self]} ∪ old) = S (size old)) as ->.
      { rewrite size_union by set_solver. by rewrite size_singleton. }
      assert (size old ≠ 0%nat) by (by intros ?%size_empty_inv%leibniz_equiv).
      by rewrite bool_decide_eq_true_2 by lia.
    + intros Hin Hne.
      assert ({[user_id self]} ∪ old = old) as -> by set_solver.
      assert (size old ≠ 1%nat) as Hsize.
      { intros [x Hx]%size_1_elem_of. apply leibniz_equiv in Hx.
        apply Hne. rewrite Hx in Hin |- *.
        apply elem_of_singleton in Hin. by rewrite Hin. }
      assert (size old ≠ 0%nat).
      { intros H0%size_empty_inv%leibniz_equiv. rewrite H0 in Hin.
        by apply not_elem_of_empty in Hin. }
      by rewrite bool_decide_eq_true_2 by lia.
Qed.

Lemma disconnect_run self w st :
  is_anonymous self = false →
  game_states w !! match_id self = Some st →
  let ready := players_ready st ∖ {[user_id self]} in
  disconnect self w =
    (Ok tt,
     mkWorld (waiting_players w)
       (if bool_decide (ready = ∅) then delete (match_id self) (game_states w)
        else <[match_id self := with_players_ready ready st]> (game_states w))
       (db w) (clock w),
     [GroupDiscard (room_group_name self) (channel_name self)]).
Proof.
  intros Ha Hst ready. subst ready. unfold disconnect. rewrite Ha.
  open_world w. run_monad. rewrite Hst.
  case_bool_decide; done.
Qed.

(** X9: when the last ready player leaves, the state of the match is
    forgotten.  If no other player is ready, [disconnect] deletes the state
    of the match, and when the player connects again a new state is made:
    the round counter is back at 0, the collected answers and the emoji
    counts are gone. *)
Theorem last_disconnect_resets_match_state self w m st :
  is_anonymous self = false →
  matches (db w) !! match_id self = Some m →
  plays (user_id self) m →
  game_states w !! match_id self = Some st →
  players_ready st ⊆ {[user_id self]} →
  let w1 := world_of (disconnect self w) in
  let w2 := world_of (connect self w1) in
  game_states w1 !! match_id self = None ∧
  game_states w2 !! match_id self
    = Some (mkGameState {[user_id self]} 0 ∅ None ∅) ∧
  emoji_count self w2 = 0.
Proof.
  intros Ha Hm Hp Hst Hsub w1 w2. subst w2 w1.
  pose proof (disconnect_run self w st Ha Hst) as Hd. cbv zeta in Hd.
  rewrite Hd. clear Hd. cbn [world_of fst snd].
  rewrite bool_decide_eq_true_2 by set_solver.
  set (w1 := mkWorld _ _ _ _).
  assert (game_states w1 !! match_id self = None) as Hgone
    by apply lookup_delete_eq.
  split; [done|].
  pose proof (connect_run self w1 m Ha Hm Hp) as Hc. cbv zeta in Hc.
  rewrite Hc. clear Hc. cbn [world_of fst snd]. rewrite Hgone.
  cbn [from_option default id]. unfold emoji_count. cbn [game_states].
  rewrite !lookup_insert_eq. unfold fresh_state, with_players_ready.
  cbn [current_round round_answers round_start_time emojis_sent].
  assert ({[user_id self]} ∪ ∅ = ({[user_id self]} : gset Z)) as -> by set_solver.
  split; [done|]. cbn. by rewrite lookup_empty.
Qed.

(** X10: a disconnect does not end the match for the player who stays.
    While another player is ready, [disconnect] only takes the leaving
    player out of the ready set: the round counter, the collected answers,
    the start time and the emoji counts are kept, and the database is not
    written. *)
Theorem disconnect_keeps_state_for_the_other self w st v :
  is_anonymous self = false →
  game_states w !! match_id self = Some st →
  v ∈ players_ready st → v ≠ user_id self →
  ∃ w',
    disconnect self w =
      (Ok tt, w', [GroupDiscard (room_group_name self) (channel_name self)]) ∧
    game_states w' !! match_id self =
      Some (mkGameState (players_ready st ∖ {[user_id self]}) (current_round st)
              (round_answers st) (round_start_time st) (emojis_sent st)) ∧
    v ∈ players_ready st ∖ {[user_id self]} ∧ db w' = db w.
Proof.
  intros Ha Hst Hv Hne.
  pose proof (disconnect_run self w st Ha Hst) as Hd. cbv zeta in Hd.
  rewrite Hd. clear Hd. eexists. split; [reflexivity|].
  rewrite bool_decide_eq_false_2 by set_solver.
  cbn [game_states db]. rewrite lookup_insert_eq.
  split; [done|]. split; [set_solver|done].
Qed.

End SessionMore.

(* ===================================================================== *)
(** ** Further properties of the rounds *)
(* ===================================================================== *)

Section RoundsMore.
Import GameConsumer.

Lemma Qle_bool_mono (t1 t2 b : Q) :
  (t1 <= t2)%Q → Qle_bool t2 b = true → Qle_bool t1 b = true.
Proof.
  intros Hle H2. apply Qle_bool_iff. apply Qle_bool_iff in H2.
  by eapply Qle_trans.
Qed.

(** X11: a faster correct answer never scores less.  [calculate_score]
    gives one of 0, 40, 70 and 100; an incorrect answer gets 0 and a
    correct one at least 40; and of two correct answers the one with the
    smaller latency gets at least the score of the other. *)
Theorem calculate_score_is_antitone (t1 t2 : Q) (c : bool) :
  (t1 <= t2)%Q →
  calculate_score t2 c ≤ calculate_score t1 c ∧
  calculate_score t1 c ∈ [0; 40; 70; 100] ∧
  (c = true → 40 ≤ calculate_score t1 c) ∧
  (c = false → calculate_score t1 c = 0).
Proof.
  intros Hle. unfold calculate_score. destruct c; cbn [negb].
  2:{ split; [done|]. split; [by left|done]. }
  assert (calculate_score t1 true ∈ [0; 40; 70; 100] ∧ 40 ≤ calculate_score t1 true)
    as [Hin Hmin].
  { unfold calculate_score. cbn [negb].
    destruct (Qle_bool t1 (3 # 1)), (Qle_bool t1 (7 # 1));
      (split; [repeat constructor|lia]). }
  unfold calculate_score in Hin, Hmin. cbn [negb] in Hin, Hmin.
  split; [|split; [exact Hin|split; [by intros _|done]]].
  destruct (Qle_bool t2 (3 # 1)) eqn:E23.
  { by rewrite (Qle_bool_mono _ _ _ Hle E23). }
  destruct (Qle_bool t2 (7 # 1)) eqn:E27.
  { rewrite (Qle_bool_mono _ _ _ Hle E27). by destruct (Qle_bool t1 (3 # 1)). }
  exact Hmin.
Qed.

(** What one call of [start_round] does. *)
Lemma start_round_run self w st :
  game_states w !! match_id self = Some st →
  let r := current_round st + 1 in
  let g' := <[match_id self := with_round r (Some (clock w)) st]> (game_states w) in
  start_round self w =
    match find (is_round (match_id self) r) (rounds (db w)) with
    | Some row =>
        (Ok tt,
         mkWorld (waiting_players w) g'
           (with_matches (alter
              (λ m, mkMatch (player1_id m) (player2_id m) (score1 m) (score2 m)
                      (winner m) (status m) r (total_rounds m)
                      (started_at m) (ended_at m)) (match_id self)) (db w))
           (clock w),
         [GroupSend (room_group_name self)
            (question_start_ev r (question_data (question row)));
          After 15 (channel_name self) (round_timeout_task r)])
    | None => (Ok tt, mkWorld (waiting_players w) g' (db w) (clock w), [])
    end.
Proof.
  intros Hst r g'. subst r g'. unfold start_round. open_world w. run_monad.
  rewrite Hst. cbv beta iota zeta.
  cbn [current_round with_round].
  destruct (find _ rs) as [row|]; cbv beta iota zeta; [|done].
  rewrite !lookup_insert_eq. cbn [from_option current_round with_round]. done.
Qed.

(** X12: [start_round] reads the round counter again after each await.
    A call that no other handler interrupts moves the counter of the
    state from [c] to [c + 1] and, if the match has a round [c + 1], sends
    its question labelled [c + 1], writes [c + 1] to the match row and
    starts the timer of round [c + 1]; without such a round it sends
    nothing and does not write the database.  When two calls for the same
    match both reach their first await before either goes on, as the two
    [game_start] handlers do, the counter is [c + 2] by the time either
    sends: both [question_start] frames are labelled [c + 2], the first
    with the question of round [c + 1] and the second with that of round
    [c + 2], both timers are timers of round [c + 2], none is started for
    round [c + 1], and the match row says [c + 2]. *)
Theorem start_round_reads_the_counter_again a b w st :
  match_id b = match_id a →
  game_states w !! match_id a = Some st →
  let c := current_round st in
  let row_of n := find (is_round (match_id a) n) (rounds (db w)) in
  let question_start n row :=
    GroupSend (room_group_name a)
      (question_start_ev n (question_data (question row))) in
  (∀ row, row_of (c + 1) = Some row →
     sent_of (start_round a w) =
       [question_start (c + 1) row;
        After 15 (channel_name a) (round_timeout_task (c + 1))] ∧
     Models.current_round <$> matches (db (world_of (start_round a w))) !! match_id a
       = (λ _, c + 1) <$> matches (db w) !! match_id a) ∧
  (row_of (c + 1) = None →
     sent_of (start_round a w) = [] ∧ db (world_of (start_round a w)) = db w) ∧
  (∀ row1 row2, row_of (c + 1) = Some row1 → row_of (c + 2) = Some row2 →
     let run := start_round_twice a b w in
     result_of run = Ok tt ∧
     sent_of run =
       [question_start (c + 2) row1;
        After 15 (channel_name a) (round_timeout_task (c + 2));
        question_start (c + 2) row2;
        After 15 (channel_name b) (round_timeout_task (c + 2))] ∧
     game_states (world_of run) !! match_id a
       = Some (mkGameState (players_ready st) (c + 2) (round_answers st)
                 (Some (clock w)) (emojis_sent st)) ∧
     Models.current_round <$> matches (db (world_of run)) !! match_id a
       = (λ _, c + 2) <$> matches (db w) !! match_id a).
Proof.
  intros Hm Hst c row_of question_start. subst c row_of question_start.
  cbv beta. split; [|split].
  - intros row Hrow.
    pose proof (start_round_run a w st Hst) as Hrun. cbv zeta in Hrun.
    rewrite Hrun, Hrow. cbn [sent_of world_of fst snd]. split; [done|].
    destruct w as [? ? [? ? ms ? ? ?] ?]. cbn [with_matches matches db].
    rewrite lookup_alter_eq. by destruct (ms !! match_id a).
  - intros Hrow.
    pose proof (start_round_run a w st Hst) as Hrun. cbv zeta in Hrun.
    rewrite Hrun, Hrow. done.
  - intros row1 row2 Hrow1 Hrow2. cbv zeta.
    unfold start_round_twice, room_group_name. open_world w. run_monad.
    rewrite Hm, Hst. cbv beta iota zeta.
    rewrite !lookup_insert_eq. cbv beta iota zeta.
    cbn [current_round with_round from_option].
    replace (current_round st + 1 + 1) with (current_round st + 2) by lia.
    rewrite Hrow1, Hrow2. cbv beta iota zeta.
    rewrite !lookup_insert_eq. cbn [current_round with_round from_option app].
    split; [done|]. split; [unfold room_group_name; by rewrite Hm|].
    split; [done|].
    rewrite !lookup_alter_eq. by destruct (ms !! match_id a).
Qed.

Lemma frames_ignored_without_state self w data :
  game_states w !! match_id self = None →
  handle_answer self data w = (Ok tt, w, []) ∧
  handle_emoji self data w = (Ok tt, w, []).
Proof.
  intros Hnone. open_world w. unfold handle_answer, handle_emoji.
  run_monad. rewrite Hnone. done.
Qed.

Lemma start_round_state self w st :
  game_states w !! match_id self = Some st →
  game_states (world_of (start_round self w)) !! match_id self
    = Some (mkGameState (players_ready st) (current_round st + 1)
              (round_answers st) (Some (clock w)) (emojis_sent st)).
Proof.
  intros Hst. pose proof (start_round_run self w st Hst) as Hrun.
  cbv zeta in Hrun. rewrite Hrun.
  destruct (find _ (rounds (db w))) as [row|];
    cbn [world_of fst snd game_states]; by rewrite lookup_insert_eq.
Qed.

(** X13: without a state for the match every handler of the round is
    inert: an answer, an emoji, a ready signal, a timer, the start and the
    end of a round all return normally, change nothing and send nothing. *)
Theorem handlers_inert_without_state self w data round_number :
  game_states w !! match_id self = None →
  handle_answer self data w = (Ok tt, w, []) ∧
  handle_emoji self data w = (Ok tt, w, []) ∧
  handle_ready self w = (Ok tt, w, []) ∧
  round_timeout self round_number w = (Ok tt, w, []) ∧
  start_round self w = (Ok tt, w, []) ∧
  end_round self w = (Ok tt, w, []).
Proof.
  intros Hnone. open_world w.
  unfold handle_answer, handle_emoji, handle_ready, round_timeout, start_round,
    end_round.
  run_monad. rewrite Hnone. cbn [from_option]. rewrite size_empty.
  rewrite bool_decide_eq_false_2 by lia. done.
Qed.

(** X14: a timer that comes too late does nothing.  When the round it was
    started for is no longer the current one, or when two answers are
    already in for that round, [round_timeout] returns without ending the
    round. *)
Theorem round_timeout_guards self w st round_number :
  game_states w !! match_id self = Some st →
  (current_round st ≠ round_number ∨
   ∃ answers, round_answers st !! round_number = Some answers ∧
              (2 ≤ size answers)%nat) →
  round_timeout self round_number w = (Ok tt, w, []).
Proof.
  intros Hst Hguard. unfold round_timeout. open_world w. run_monad.
  rewrite Hst. cbv beta iota.
  destruct Hguard as [Hne | (answers & Ha & Hsize)].
  - by rewrite bool_decide_eq_true_2.
  - case_bool_decide; [done|]. rewrite Ha.
    by rewrite bool_decide_eq_false_2 by lia.
Qed.

(** What one call of [end_round] does when the round and the match exist. *)
Lemma end_round_run self w st round_obj m :
  game_states w !! match_id self = Some st →
  find (is_round (match_id self) (current_round st)) (rounds (db w)) = Some round_obj →
  matches (db w) !! match_id self = Some m →
  let correct := correct_option (question round_obj) in
  let o1 := outcome_of (answers_of st) correct (player1_id m) in
  let o2 := outcome_of (answers_of st) correct (player2_id m) in
  ∃ res w',
    end_round self w =
      (Ok tt, w',
       [GroupSend (room_group_name self) (round_end_ev (current_round st) res);
        if bool_decide (current_round st >= total_rounds m)
        then After 2 (channel_name self) end_match_task
        else After 3 (channel_name self) start_round_task]) ∧
    rr_players res = <[player2_id m := o2]> {[player1_id m := o1]} ∧
    game_states w' = game_states w ∧
    users (db w') = users (db w) ∧
    find (is_round (match_id self) (current_round st)) (rounds (db w')) =
      Some (mkRound (match_id self) (current_round st) (question round_obj)
              (pr_answer o1) (pr_answer o2)
              (Some (pr_time o1)) (Some (pr_time o2))
              (pr_score o1) (pr_score o2)) ∧
    matches (db w') !! match_id self =
      Some (mkMatch (player1_id m) (player2_id m)
              (score1 m + pr_score o1) (score2 m + pr_score o2)
              (winner m) (status m) (Models.current_round m)
              (total_rounds m) (started_at m) (ended_at m)).
Proof.
  intros Hst Hr Hm correct o1 o2. subst correct o1 o2.
  destruct (calculate_round_result_run self (current_round st) (answers_of st)
              w round_obj m Hr Hm)
    as (res & w' & Hrun & _ & Hplayers & Hg & Hu & Hrow & Hm').
  exists res, w'. split; [|done].
  unfold end_round. unfold mbind at 1, M_bind at 1.
  unfold get_state, gets. rewrite Hst. cbv zeta.
  fold (answers_of st). unfold mbind at 1, M_bind at 1. rewrite Hrun.
  unfold get_match_scores, get_match. open_world w'.
  run_monad. rewrite Hm'. cbv beta iota. cbn [total_rounds].
  case_bool_decide; done.
Qed.

(** What one accepted answer does, up to the end of the round it may
    trigger. *)
Lemma handle_answer_run self data w st :
  game_states w !! match_id self = Some st →
  answers_of st !! user_id self = None →
  let w2 := mkWorld (waiting_players w)
              (<[match_id self := recorded self data st]> (game_states w))
              (db w) (clock w) in
  let said := GroupSend (room_group_name self) (answer_submitted_ev (user_id self)) in
  handle_answer self data w =
    if bool_decide (2 ≤ S (size (answers_of st)))%nat then
      match end_round self w2 with
      | (r, w3, out) => (r, w3, said :: out)
      end
    else (Ok tt, w2, [said]).
Proof.
  intros Hst Hnew w2 said. subst w2 said. unfold handle_answer, recorded.
  assert (∀ a, size (<[user_id self := a]> (answers_of st))
               = S (size (answers_of st))) as Hsize
    by (intros; by apply map_size_insert_None).
  unfold answers_of in *.
  open_world w. run_monad. rewrite Hst. cbv beta iota zeta.
  destruct (round_answers st !! current_round st) as [a|] eqn:Ea.
  - rewrite Ea in *. cbn [default id] in *. rewrite Hnew.
    rewrite Hsize, with_round_answers_id, insert_insert_eq.
    case_bool_decide; [|done].
    by destruct (end_round self _) as [[r w3] o3].
  - rewrite lookup_insert_eq in *. cbn [default id] in *.
    rewrite lookup_empty. rewrite Hsize, !insert_insert_eq.
    case_bool_decide; [|done].
    by destruct (end_round self _) as [[r w3] o3].
Qed.


(** X16: the second answer ends the round at once.  When another player
    has already answered the current round, whose row and match exist, an
    answer is announced and then the round is ended in the same call: the
    result is sent to the room with both players' entries, the row keeps
    both answers, the match totals grow by the two scores, and the end of
    the match (after the last round) or the next round is scheduled. *)
Theorem second_answer_ends_round self data w st round_obj m :
  game_states w !! match_id self = Some st →
  answers_of st !! user_id self = None →
  answers_of st ≠ ∅ →
  find (is_round (match_id self) (current_round st)) (rounds (db w)) = Some round_obj →
  matches (db w) !! match_id self = Some m →
  let answers :=
    <[user_id self := mkAnswerData (d_answer data) (default (15 # 1) (d_time data))]>
      (answers_of st) in
  let correct := correct_option (question round_obj) in
  let o1 := outcome_of answers correct (player1_id m) in
  let o2 := outcome_of answers correct (player2_id m) in
  ∃ res w',
    handle_answer self data w =
      (Ok tt, w',
       [GroupSend (room_group_name self) (answer_submitted_ev (user_id self));
        GroupSend (room_group_name self) (round_end_ev (current_round st) res);
        if bool_decide (current_round st >= total_rounds m)
        then After 2 (channel_name self) end_match_task
        else After 3 (channel_name self) start_round_task]) ∧
    rr_players res = <[player2_id m := o2]> {[player1_id m := o1]} ∧
    find (is_round (match_id self) (current_round st)) (rounds (db w')) =
      Some (mkRound (match_id self) (current_round st) (question round_obj)
              (pr_answer o1) (pr_answer o2)
              (Some (pr_time o1)) (Some (pr_time o2))
              (pr_score o1) (pr_score o2)) ∧
    (score1 <$> matches (db w') !! match_id self) = Some (score1 m + pr_score o1) ∧
    (score2 <$> matches (db w') !! match_id self) = Some (score2 m + pr_score o2).
Proof.
  intros Hst Hnew Hsome Hr Hm answers correct o1 o2.
  pose proof (handle_answer_run self data w st Hst Hnew) as Hrun.
  cbv zeta in Hrun. rewrite Hrun. clear Hrun.
  assert (size (answers_of st) ≠ 0%nat)
    by (by intros ?%map_size_empty_inv).
  rewrite bool_decide_eq_true_2 by lia.
  set (w2 := mkWorld _ _ _ _).
  assert (answers_of (recorded self data st) = answers) as Hans.
  { unfold answers_of at 1. unfold recorded.
    cbn [round_answers current_round with_round_answers].
    by rewrite lookup_insert_eq. }
  destruct (end_round_run self w2 (recorded self data st) round_obj m)
    as (res & w' & Hend & Hplayers & _ & _ & Hrow & Hm');
    [apply lookup_insert_eq|exact Hr|exact Hm|].
  rewrite Hans in *. cbn [recorded with_round_answers current_round] in *.
  rewrite Hend. exists res, w'.
  split; [done|]. split; [exact Hplayers|]. split; [exact Hrow|].
  by rewrite Hm'.
Qed.

(** X17: answers sent before the round exists break the handler.  When
    the match has no round of the current number (as before the first
    round has started, when the counter is 0) and another player has
    already answered, the second answer is stored and announced, and then
    the call raises [DoesNotExist]: no result is sent and the round is not
    ended. *)
Theorem answers_without_round_raise self data w st :
  game_states w !! match_id self = Some st →
  answers_of st !! user_id self = None →
  answers_of st ≠ ∅ →
  find (is_round (match_id self) (current_round st)) (rounds (db w)) = None →
  ∃ w',
    handle_answer self data w =
      (Raise Round_DoesNotExist, w',
       [GroupSend (room_group_name self) (answer_submitted_ev (user_id self))]) ∧
    game_states w' !! match_id self = Some (recorded self data st) ∧
    db w' = db w.
Proof.
  intros Hst Hnew Hsome Hr.
  pose proof (handle_answer_run self data w st Hst Hnew) as Hrun.
  cbv zeta in Hrun. rewrite Hrun. clear Hrun.
  assert (size (answers_of st) ≠ 0%nat)
    by (by intros ?%map_size_empty_inv).
  rewrite bool_decide_eq_true_2 by lia.
  unfold end_round, calculate_round_result. open_world w. run_monad.
  rewrite lookup_insert_eq. cbv beta iota zeta.
  cbn [recorded with_round_answers current_round]. rewrite Hr.
  eexists. split; [reflexivity|]. cbn [game_states db].
  by rewrite lookup_insert_eq.
Qed.

End RoundsMore.

(* ===================================================================== *)
(** ** Further properties of the end of a match and of the scores *)
(* ===================================================================== *)

Section MatchEndMore.
Import GameConsumer.

(** What one call of [finalize_match] writes to the match row. *)
Lemma finalize_match_writes self w m u1 u2 :
  matches (db w) !! match_id self = Some m →
  users (db w) !! player1_id m = Some u1 →
  users (db w) !! player2_id m = Some u2 →
  let champion :=
    match p1_won m with
    | Some true => Some (player1_id m)
    | Some false => Some (player2_id m)
    | None => None
    end in
  ∃ res,
    finalize_match self w =
      (Ok res,
       mkWorld (waiting_players w) (game_states w)
         (mkDb (finalized_users m u1 u2 (users (db w))) (questions (db w))
               (<[match_id self :=
                    mkMatch (player1_id m) (player2_id m) (score1 m) (score2 m)
                      champion completed (Models.current_round m)
                      (total_rounds m) (started_at m) (Some (clock w))]>
                  (matches (db w)))
               (next_match_pk (db w)) (rounds (db w))
               (history (db w) ++ [history_of_player1 (match_id self) m;
                                   history_of_player2 (match_id self) m]))
         (clock w), []) ∧
    mr_winner_id res = champion ∧
    pf_score (mr_player1 res) = score1 m ∧ pf_score (mr_player2 res) = score2 m.
Proof.
  intros Hm H1 H2 champion. subst champion. open_world w.
  unfold finalize_match, finalized_users, history_of_player1, history_of_player2.
  run_monad. rewrite Hm, H1, H2.
  destruct (p1_won m) as [[|]|]; cbv beta iota; cbn [app foldr];
    rewrite <- app_assoc; cbn [app]; eexists; (split; [reflexivity|done]).
Qed.

(** X18: the end of a match.  When the match and the rows of its two
    players exist, [end_match] sends one [match_end] to the room, whose
    winner is the player with the higher total (nobody in a draw); the
    match row is completed with that winner and the clock as end time,
    both players are no longer in game, and the state of the match is
    deleted, so that an answer or an emoji that arrives afterwards is
    ignored. *)
Theorem end_match_outcome self w m u1 u2 :
  matches (db w) !! match_id self = Some m →
  users (db w) !! player1_id m = Some u1 →
  users (db w) !! player2_id m = Some u2 →
  let champion :=
    if bool_decide (score1 m > score2 m) then Some (player1_id m)
    else if bool_decide (score2 m > score1 m) then Some (player2_id m)
    else None in
  ∃ res w',
    end_match self w =
      (Ok tt, w', [GroupSend (room_group_name self) (match_end_ev res)]) ∧
    mr_winner_id res = champion ∧
    matches (db w') !! match_id self =
      Some (mkMatch (player1_id m) (player2_id m) (score1 m) (score2 m)
              champion completed (Models.current_round m) (total_rounds m)
              (started_at m) (Some (clock w))) ∧
    is_in_game <$> users (db w') !! player1_id m = Some false ∧
    is_in_game <$> users (db w') !! player2_id m = Some false ∧
    game_states w' = delete (match_id self) (game_states w) ∧
    ∀ data, handle_answer self data w' = (Ok tt, w', []) ∧
            handle_emoji self data w' = (Ok tt, w', []).
Proof.
  intros Hm H1 H2 champion.
  destruct (finalize_match_writes self w m u1 u2 Hm H1 H2)
    as (res & Hrun & Hwin & _).
  assert (match p1_won m with
          | Some true => Some (player1_id m)
          | Some false => Some (player2_id m)
          | None => None
          end = champion) as Hch.
  { subst champion. unfold p1_won. by repeat case_bool_decide. }
  cbv zeta in Hrun. rewrite Hch in *.
  set (w' := mkWorld (waiting_players w) (delete (match_id self) (game_states w))
               (mkDb (finalized_users m u1 u2 (users (db w))) (questions (db w))
                  (<[match_id self :=
                       mkMatch (player1_id m) (player2_id m) (score1 m) (score2 m)
                         champion completed (Models.current_round m)
                         (total_rounds m) (started_at m) (Some (clock w))]>
                     (matches (db w)))
                  (next_match_pk (db w)) (rounds (db w))
                  (history (db w) ++ [history_of_player1 (match_id self) m;
                                      history_of_player2 (match_id self) m]))
               (clock w)).
  exists res, w'.
  assert (end_match self w =
          (Ok tt, w', [GroupSend (room_group_name self) (match_end_ev res)])) as ->.
  { unfold end_match. unfold mbind at 1, M_bind at 1. rewrite Hrun.
    subst w'. clear Hrun. open_world w. run_monad.
    destruct (g !! match_id self) eqn:Hst; [done|].
    by rewrite delete_id. }
  assert (game_states w' !! match_id self = None) as Hgone
    by apply lookup_delete_eq.
  pose proof (λ data, frames_ignored_without_state self w' data Hgone) as Hinert.
  split; [done|]. split; [done|]. subst w'.
  cbn [db matches users game_states].
  split; [apply lookup_insert_eq|].
  split.
  { unfold finalized_users. rewrite lookup_alter_eq.
    destruct (decide (player1_id m = player2_id m)) as [He|Hne].
    - rewrite He, lookup_alter_eq.
      destruct (p1_won m); [by rewrite lookup_insert_eq|by rewrite H2].
    - rewrite lookup_alter_ne by done.
      destruct (p1_won m);
        [by rewrite lookup_insert_ne, lookup_insert_eq|by rewrite H1]. }
  split.
  { unfold finalized_users.
    destruct (decide (player1_id m = player2_id m)) as [He|Hne].
    - rewrite He, lookup_alter_eq, lookup_alter_eq.
      destruct (p1_won m); [by rewrite lookup_insert_eq|by rewrite H2].
    - rewrite lookup_alter_ne by done. rewrite lookup_alter_eq.
      destruct (p1_won m); [by rewrite lookup_insert_eq|by rewrite H2]. }
  split; [done|]. intros data.
  exact (Hinert data).
Qed.

Lemma tally_replace (score : Round → Z) (mid rn : Z) (r r0 : Round) :
  round_match_id r = mid → round_number r = rn →
  ∀ rs, NoDup (round_key <$> rs) →
  find (is_round mid rn) rs = Some r0 →
  tally score mid (map (λ x, if is_round mid rn x then r else x) rs)
    = tally score mid rs - score r0 + score r.
Proof.
  intros Hrm Hrn. induction rs as [|x rs IH]; intros Hnd Hf; [done|].
  cbn [fmap list_fmap] in Hnd. apply NoDup_cons in Hnd as [Hx Hnd].
  cbn [find map tally foldr] in *. destruct (is_round mid rn x) eqn:Ex.
  - injection Hf as <-.
    apply andb_prop in Ex as [E1 E2].
    apply bool_decide_eq_true in E1, E2.
    rewrite !bool_decide_eq_true_2 by done.
    assert (map (λ y, if is_round mid rn y then r else y) rs = rs) as ->.
    { clear IH Hnd. induction rs as [|y rs IH]; [done|]. cbn [map].
      destruct (is_round mid rn y) eqn:Ey.
      - exfalso. apply Hx. cbn [fmap list_fmap].
        apply andb_prop in Ey as [Ey1 Ey2].
        apply bool_decide_eq_true in Ey1, Ey2.
        apply elem_of_cons. left. unfold round_key. congruence.
      - f_equal. apply IH. intros Hin. apply Hx. cbn [fmap list_fmap].
        apply elem_of_cons. by right. }
    fold (tally score mid rs). lia.
  - fold (tally score mid rs).
    fold (tally score mid (map (λ y, if is_round mid rn y then r else y) rs)).
    rewrite IH by done. case_bool_decide; lia.
Qed.

Lemma replace_keeps_keys (mid rn : Z) (r : Round) (l : list Round) :
  round_match_id r = mid → round_number r = rn →
  round_key <$> map (λ x, if is_round mid rn x then r else x) l = round_key <$> l.
Proof.
  intros Hrm Hrn. induction l as [|x l IH]; [done|]. cbn [map fmap list_fmap] in *.
  rewrite IH. f_equal. destruct (is_round mid rn x) eqn:Ex; [|done].
  apply andb_prop in Ex as [E1 E2]. apply bool_decide_eq_true in E1, E2.
  unfold round_key. congruence.
Qed.

(** X19: the match totals are the sums of the round scores.  If the rows
    of the rounds are unique in (match, round number), the totals of the
    match equal the sums of the two score columns over its rounds, and the
    round that is ended has not been scored yet (both scores 0), then
    after [calculate_round_result] the totals again equal the sums. *)
Theorem totals_are_sums_of_round_scores self rn answers w round_obj m :
  find (is_round (match_id self) rn) (rounds (db w)) = Some round_obj →
  matches (db w) !! match_id self = Some m →
  NoDup (round_key <$> rounds (db w)) →
  player1_score round_obj = 0 → player2_score round_obj = 0 →
  score1 m = tally player1_score (match_id self) (rounds (db w)) →
  score2 m = tally player2_score (match_id self) (rounds (db w)) →
  ∃ res w' m',
    calculate_round_result self rn answers w = (Ok res, w', []) ∧
    matches (db w') !! match_id self = Some m' ∧
    score1 m' = tally player1_score (match_id self) (rounds (db w')) ∧
    score2 m' = tally player2_score (match_id self) (rounds (db w')) ∧
    score1 m ≤ score1 m' ∧ score2 m ≤ score2 m' ∧
    NoDup (round_key <$> rounds (db w')).
Proof.
  intros Hr Hm Hnd Hz1 Hz2 Hs1 Hs2.
  destruct (is_round_found _ _ _ _ Hr) as [Hid Hrn].
  open_world w. unfold calculate_round_result. run_monad. rewrite Hr, Hm.
  cbv beta iota zeta. cbn [app]. do 3 eexists. split; [reflexivity|].
  cbn [db matches rounds]. split; [apply lookup_insert_eq|].
  cbn [score1 score2]. rewrite Hid, Hrn.
  rewrite !(tally_replace _ _ _ _ round_obj) by done.
  cbn [player1_score player2_score]. rewrite Hz1, Hz2, Hs1, Hs2.
  split; [lia|]. split; [lia|].
  assert (∀ t ok, 0 ≤ calculate_score t ok) as Hpos.
  { intros t ok. unfold calculate_score.
    destruct (negb ok), (Qle_bool t (3 # 1)), (Qle_bool t (7 # 1)); lia. }
  repeat match goal with
         | |- context [calculate_score ?t ?ok] =>
             lazymatch goal with
             | H : 0 ≤ calculate_score t ok |- _ => fail
             | _ => pose proof (Hpos t ok)
             end
         end.
  split; [lia|]. split; [lia|].
  by rewrite replace_keeps_keys.
Qed.

End MatchEndMore.

(* ===================================================================== *)
(** ** Further properties of the emoji channel *)
(* ===================================================================== *)

Section EmojiMore.
Import GameConsumer.

Lemma emoji_count_of_other self other n st w :
  game_states w !! match_id self = Some st →
  match_id other = match_id self → user_id other ≠ user_id self →
  emoji_count other (counted self n st w) = emoji_count other w.
Proof.
  intros Hst Hm Hu. unfold emoji_count, counted. cbn [game_states].
  rewrite Hm, lookup_insert_eq, Hst. cbn.
  by rewrite lookup_insert_ne.
Qed.

Lemma world_of_bind_ok {A B} (m : M A) (k : A → M B) w a w1 o1 :
  m w = (Ok a, w1, o1) → world_of ((m ≫= k) w) = world_of (k a w1).
Proof.
  intros Hm. unfold world_of, mbind, M_bind. rewrite Hm.
  by destruct (k a w1) as [[r w2] o2].
Qed.

Lemma receive_all_keeps_other_count self other emojis : ∀ w st,
  game_states w !! match_id self = Some st →
  match_id other = match_id self → user_id other ≠ user_id self →
  emoji_count other (world_of (receive_all self (emoji_frame <$> emojis) w))
    = emoji_count other w.
Proof.
  induction emojis as [|e es IH]; intros w st Hst Hm Hu; [done|].
  cbn [fmap list_fmap receive_all]. rewrite receive_emoji.
  pose proof (handle_emoji_step self (emoji_frame e) w st Hst) as Hstep.
  cbv zeta in Hstep. rewrite (world_of_bind_ok _ _ _ _ _ _ Hstep).
  erewrite IH; [by apply emoji_count_of_other| |done|done].
  unfold counted. cbn [game_states]. apply lookup_insert_eq.
Qed.

(** X20: the emoji allowance is counted for the whole match and per
    player.  From a state that has counted [n] emojis of a player, of any
    further emoji frames of that player exactly the first [5 - n] are sent
    to the room (none once five are counted), and the count kept for any
    other player of the match is not changed by them. *)
Theorem emoji_allowance_is_per_player self other w st emojis :
  game_states w !! match_id self = Some st →
  0 ≤ emoji_count self w →
  match_id other = match_id self → user_id other ≠ user_id self →
  let run := receive_all self (emoji_frame <$> emojis) w in
  result_of run = Ok tt ∧
  sent_of run =
    (λ e, GroupSend (room_group_name self) (emoji_received_ev (user_id self) e))
      <$> take (Z.to_nat (5 - emoji_count self w)) emojis ∧
  (5 ≤ emoji_count self w → sent_of run = []) ∧
  emoji_count other (world_of run) = emoji_count other w.
Proof.
  intros Hst Hn Hm Hu run. subst run.
  split; [|split; [|split]].
  - destruct (receive_all_emojis self emojis w st Hst Hn) as (w' & ->). done.
  - destruct (receive_all_emojis self emojis w st Hst Hn) as (w' & ->). done.
  - intros Hfull.
    destruct (receive_all_emojis self emojis w st Hst Hn) as (w' & ->).
    cbn [sent_of snd].
    replace (Z.to_nat (5 - emoji_count self w)) with 0%nat by lia. done.
  - by eapply receive_all_keeps_other_count.
Qed.

End EmojiMore.

(* ===================================================================== *)
(** ** Further properties of the rounds of a new match *)
(* ===================================================================== *)

Section NewMatchMore.
Import MatchmakingConsumer.
Variable random_order : list Question → list Question.

Lemma new_rounds_sorted match_id qs : ∀ i,
  foldr insert_round [] (new_rounds match_id i qs) = new_rounds match_id i qs.
Proof.
  induction qs as [|q qs IH]; intros i; [done|].
  cbn [new_rounds foldr]. rewrite IH.
  destruct qs as [|q' qs]; [done|].
  cbn [new_rounds insert_round round_number].
  by rewrite bool_decide_eq_true_2 by lia.
Qed.

Lemma new_rounds_of_match match_id qs : ∀ i,
  filter (λ r, round_match_id r = match_id) (new_rounds match_id i qs)
    = new_rounds match_id i qs.
Proof.
  induction qs as [|q qs IH]; intros i; [done|].
  cbn [new_rounds]. rewrite filter_cons_True by done. by rewrite IH.
Qed.

Lemma new_rounds_questions match_id qs : ∀ i,
  question <$> new_rounds match_id i qs = qs.
Proof.
  induction qs as [|q qs IH]; intros i; [done|].
  cbn [new_rounds fmap list_fmap] in *. by rewrite IH.
Qed.

Lemma find_no_round (match_id rn : Z) (rs : list Round) :
  (∀ r, r ∈ rs → round_match_id r ≠ match_id) →
  find (is_round match_id rn) rs = None.
Proof.
  induction rs as [|x rs IH]; intros Hrs; [done|]. cbn [find].
  unfold is_round at 1.
  rewrite (bool_decide_eq_false_2 (round_match_id x = match_id))
    by (apply Hrs; apply elem_of_cons; by left).
  cbn [andb]. apply IH. intros r Hr. apply Hrs. apply elem_of_cons. by right.
Qed.

Lemma find_app_none {A} (P : A → bool) (l k : list A) :
  find P l = None → find P (l ++ k) = find P k.
Proof.
  induction l as [|x l IH]; [done|]. cbn [find app].
  destruct (P x); [done|]. exact IH.
Qed.

Lemma find_new_round match_id qs : ∀ i (k : nat) q,
  qs !! k = Some q →
  find (is_round match_id (i + Z.of_nat k)) (new_rounds match_id i qs)
    = Some (mkRound match_id (i + Z.of_nat k) q None None None None 0 0).
Proof.
  induction qs as [|q0 qs IH]; intros i k q Hk; [done|].
  destruct k as [|k]; simpl in Hk.
  - injection Hk as ->. cbn [new_rounds find]. unfold is_round.
    cbn [round_match_id round_number].
    rewrite !bool_decide_eq_true_2 by lia. cbn [andb]. do 2 f_equal. lia.
  - cbn [new_rounds find]. unfold is_round at 1.
    cbn [round_match_id round_number].
    rewrite (bool_decide_eq_false_2 (i = i + Z.of_nat (S k))) by lia.
    rewrite andb_false_r.
    replace (i + Z.of_nat (S k)) with (i + 1 + Z.of_nat k) by lia.
    by apply IH.
Qed.

Lemma find_new_round_outside match_id qs : ∀ i rn,
  rn < i ∨ i + Z.of_nat (length qs) ≤ rn →
  find (is_round match_id rn) (new_rounds match_id i qs) = None.
Proof.
  induction qs as [|q0 qs IH]; intros i rn Hout; [done|].
  cbn [new_rounds find length] in *. unfold is_round at 1.
  cbn [round_match_id round_number].
  rewrite (bool_decide_eq_false_2 (i = rn)) by lia. rewrite andb_false_r.
  apply IH. lia.
Qed.

(** X21: the questions of a new match read back as drawn.  When no round
    row carries the key the new match gets, [create_match] followed by
    [Match.get_questions] returns the questions that were drawn, at most
    five, in the order of the draw. *)
Theorem new_match_questions_round_trip uid opp w uo :
  users (db w) !! opp = Some uo →
  (∀ r, r ∈ rounds (db w) → round_match_id r ≠ next_match_pk (db w)) →
  let w' := world_of (create_match random_order uid opp w) in
  result_of (create_match random_order uid opp w) = Ok (next_match_pk (db w)) ∧
  get_questions (next_match_pk (db w)) w' =
    (Ok (take 5 (random_order (questions (db w)))), w', []).
Proof.
  intros Ho Hfresh w'. subst w'.
  rewrite (create_match_run random_order uid opp w uo Ho).
  cbn [result_of world_of fst snd]. split; [done|].
  unfold get_questions, rounds_of. run_monad.
  rewrite filter_app, (filter_none _ _ Hfresh), app_nil_l.
  by rewrite new_rounds_of_match, new_rounds_sorted, new_rounds_questions.
Qed.

(** X22: the rounds of a new match serve the drawn questions in order,
    and no others.  Under the same condition, after [create_match] has
    drawn the questions, [get_round_question] finds for the round numbers 1
    to the number of questions drawn the question drawn in that place, and
    for every other round number nothing: a match made from fewer than five
    questions has no round after the last question. *)
Theorem new_match_serves_drawn_questions self opp w uo :
  users (db w) !! opp = Some uo →
  (∀ r, r ∈ rounds (db w) → round_match_id r ≠ next_match_pk (db w)) →
  GameConsumer.match_id self = next_match_pk (db w) →
  let drawn := take 5 (random_order (questions (db w))) in
  let w' := world_of (create_match random_order (GameConsumer.user_id self) opp w) in
  (∀ (k : nat) q, drawn !! k = Some q →
     GameConsumer.get_round_question self (1 + Z.of_nat k) w'
       = (Ok (Some (question_data q)), w', [])) ∧
  (∀ rn, rn < 1 ∨ Z.of_nat (length drawn) < rn →
     GameConsumer.get_round_question self rn w' = (Ok None, w', [])).
Proof.
  intros Ho Hfresh Hmid drawn w'. subst w' drawn.
  rewrite (create_match_run random_order _ opp w uo Ho).
  cbn [world_of fst snd]. unfold GameConsumer.get_round_question.
  run_monad. rewrite Hmid. split.
  - intros k q Hk.
    rewrite find_app_none by (by apply find_no_round).
    by rewrite (find_new_round _ _ _ _ _ Hk).
  - intros rn Hout.
    rewrite find_app_none by (by apply find_no_round).
    rewrite find_new_round_outside; [done|lia].
Qed.

End NewMatchMore.

(* ===================================================================== *)
(** ** Further properties of ratings, offline games and streaks *)
(* ===================================================================== *)

Section RatingsMore.

Lemma season_snoc u results won :
  season u (results ++ [won]) = update_rating (season u results) won.
Proof. unfold season. by rewrite foldl_app. Qed.

Lemma wins_in_snoc results won :
  wins_in (results ++ [won]) = wins_in results + (if won then 1 else 0).
Proof.
  unfold wins_in. rewrite filter_app, length_app.
  destruct won.
  - rewrite filter_cons_True by done. cbn. lia.
  - rewrite filter_cons_False by done. cbn. lia.
Qed.

(** X23: ratings over any number of matches.  After any sequence of wins
    and losses applied with [update_rating] to a user whose rating is not
    negative, the rating is still not negative, it lies between the old
    rating plus 20 per win minus 15 per loss and the old rating plus 20 per
    win, the wins have grown by the number of wins, [total_matches] has
    grown by the number of matches, and, if at least one match was played,
    the level is floor(rating / 200) + 1 and at least 1. *)
Theorem season_keeps_rating_policy (u : User) (results : list bool) :
  0 ≤ rating u →
  let u' := season u results in
  let played := Z.of_nat (length results) in
  let won := wins_in results in
  0 ≤ rating u' ∧
  rating u + 20 * won - 15 * (played - won) ≤ rating u' ≤ rating u + 20 * won ∧
  wins u' = wins u + won ∧
  total_matches u' = total_matches u + played ∧
  (results ≠ [] → level u' = rating u' / 200 + 1 ∧ 1 ≤ level u').
Proof.
  intros Hr. cbv zeta.
  induction results as [|won results IH] using rev_ind.
  { unfold season, wins_in, total_matches. cbn. repeat split; (done || lia). }
  rewrite season_snoc, wins_in_snoc, length_app.
  destruct IH as (H0 & [Hlo Hhi] & Hw & Ht & _).
  unfold total_matches in *.
  assert (0 ≤ wins_in results ≤ Z.of_nat (length results)) as Hwin.
  { unfold wins_in. pose proof (length_filter (λ b : bool, b = true) results). lia. }
  set (v := season u results) in *.
  assert (0 ≤ (rating v + 20) / 200) by (apply Z.div_pos; lia).
  assert (0 ≤ Z.max 0 (rating v - 15) / 200) by (apply Z.div_pos; lia).
  destruct won; cbn [update_rating rating wins losses level length];
    repeat split; lia.
Qed.

Lemma finish_offline_game_run uid my bot w user :
  users (db w) !! uid = Some user →
  let mine := default 0 my in
  let theirs := default 0 bot in
  let user' :=
    if bool_decide (mine = theirs) then user
    else if bool_decide (mine > theirs) then
      mkUser (username user) (avatar user) (rating user + 15)
             ((rating user + 15) / 200 + 1) (wins user + 1) (losses user)
             (is_online user) (is_in_game user)
    else
      mkUser (username user) (avatar user) (Z.max 0 (rating user - 10))
             (Z.max 0 (rating user - 10) / 200 + 1) (wins user) (losses user + 1)
             (is_online user) (is_in_game user) in
  Views.finish_offline_game uid my bot w =
    (Ok (Views.mkOfflineResult (bool_decide (mine > theirs))
           (bool_decide (mine = theirs))
           (if bool_decide (mine > theirs) then 15
            else if bool_decide (mine = theirs) then 0 else -10)
           (rating user') (level user')),
     if bool_decide (mine = theirs) then w
     else mkWorld (waiting_players w) (game_states w)
            (with_users (insert uid user') (db w)) (clock w),
     []).
Proof.
  intros Hu mine theirs user'. subst user' mine theirs.
  unfold Views.finish_offline_game. open_world w. run_monad. rewrite Hu.
  cbv beta iota zeta.
  destruct (bool_decide (default 0 my = default 0 bot)) eqn:Ed; cbn [negb].
  - apply bool_decide_eq_true in Ed.
    rewrite bool_decide_eq_false_2 by lia. done.
  - destruct (bool_decide (default 0 my > default 0 bot)); done.
Qed.

(** X24: the result of an offline game.  For a user whose row exists and
    whose rating is not negative, [finish_offline_game] leaves the row
    untouched in a draw; otherwise it stores +15 rating and +1 win for a
    higher score, or max(0, rating - 10) and +1 loss for a lower one, with
    the level recomputed; the rating stays non-negative and the response
    carries the stored rating and level. *)
Theorem offline_game_rating_policy uid my bot w user :
  users (db w) !! uid = Some user →
  0 ≤ rating user →
  let mine := default 0 my in
  let theirs := default 0 bot in
  ∃ res w' user',
    Views.finish_offline_game uid my bot w = (Ok res, w', []) ∧
    users (db w') !! uid = Some user' ∧
    Views.or_new_rating res = rating user' ∧
    Views.or_new_level res = level user' ∧
    0 ≤ rating user' ∧
    (mine = theirs → w' = w ∧ user' = user ∧ Views.or_rating_change res = 0) ∧
    (mine > theirs →
       rating user' = rating user + 15 ∧ wins user' = wins user + 1 ∧
       losses user' = losses user ∧ level user' = rating user' / 200 + 1 ∧
       Views.or_rating_change res = 15) ∧
    (mine < theirs →
       rating user' = Z.max 0 (rating user - 10) ∧ wins user' = wins user ∧
       losses user' = losses user + 1 ∧ level user' = rating user' / 200 + 1 ∧
       Views.or_rating_change res = -10).
Proof.
  intros Hu Hr mine theirs.
  pose proof (finish_offline_game_run uid my bot w user Hu) as Hrun.
  cbv zeta in Hrun. fold mine theirs in Hrun. rewrite Hrun. clear Hrun.
  destruct (decide (mine = theirs)) as [He|Hne].
  - rewrite !(bool_decide_eq_true_2 (mine = theirs)) by done.
    rewrite bool_decide_eq_false_2 by lia.
    eexists _, _, user. split; [reflexivity|].
    cbn [Views.or_new_rating Views.or_new_level Views.or_rating_change].
    repeat split; (done || lia).
  - rewrite !(bool_decide_eq_false_2 (mine = theirs)) by done.
    destruct (decide (mine > theirs)) as [Hgt|Hle].
    + rewrite !bool_decide_eq_true_2 by done.
      eexists _, _, _. split; [reflexivity|].
      destruct w as [? ? [? ? ? ? ? ?] ?].
      cbn [db users with_users]. split; [apply lookup_insert_eq|].
      cbn [Views.or_new_rating Views.or_new_level Views.or_rating_change
           rating level wins losses].
      repeat split; (done || lia).
    + rewrite !bool_decide_eq_false_2 by done.
      eexists _, _, _. split; [reflexivity|].
      destruct w as [? ? [? ? ? ? ? ?] ?].
      cbn [db users with_users]. split; [apply lookup_insert_eq|].
      cbn [Views.or_new_rating Views.or_new_level Views.or_rating_change
           rating level wins losses].
      repeat split; (done || lia).
Qed.

(** X25: an offline loss near the floor is reported as -10.  For a user
    with a rating [r] between 0 and 9 who loses an offline game, the
    response says [rating_change] -10 and [new_rating] 0: the reported
    change is not the difference between the new and the old rating. *)
Theorem offline_loss_change_is_overstated uid my bot w user :
  users (db w) !! uid = Some user →
  0 ≤ rating user < 10 →
  default 0 my < default 0 bot →
  ∃ res w',
    Views.finish_offline_game uid my bot w = (Ok res, w', []) ∧
    Views.or_rating_change res = -10 ∧ Views.or_new_rating res = 0 ∧
    rating <$> users (db w') !! uid = Some 0 ∧
    Views.or_rating_change res ≠ Views.or_new_rating res - rating user.
Proof.
  intros Hu Hr Hlt.
  pose proof (finish_offline_game_run uid my bot w user Hu) as Hrun.
  cbv zeta in Hrun. rewrite Hrun. clear Hrun.
  rewrite !(bool_decide_eq_false_2 (default 0 my = default 0 bot)) by lia.
  rewrite !(bool_decide_eq_false_2 (default 0 my > default 0 bot)) by lia.
  do 2 eexists. split; [reflexivity|].
  destruct w as [? ? [? ? ? ? ? ?] ?].
  cbn [Views.or_new_rating Views.or_rating_change rating db users with_users].
  rewrite lookup_insert_eq. cbn [fmap option_fmap option_map rating].
  assert (Z.max 0 (rating user - 10) = 0) as -> by lia.
  repeat split; (done || lia).
Qed.

Lemma count_streak_bounds recent :
  0 ≤ Views.count_streak recent ≤ Z.of_nat (length recent).
Proof.
  induction recent as [|h recent IH]; cbn [Views.count_streak length]; [lia|].
  destruct (is_winner h); lia.
Qed.

Lemma user_stats_run uid w :
  let recent :=
    take 10 (reverse (filter (λ h, mh_user h = uid) (history (db w)))) in
  Views.user_stats uid w = (Ok (Views.count_streak recent, recent), w, []).
Proof.
  unfold Views.user_stats, Views.recent_matches. open_world w. by run_monad.
Qed.

Lemma streak_of_newest (mine : list MatchHistory) h :
  last mine = Some h →
  (is_winner h = false → Views.count_streak (take 10 (reverse mine)) = 0) ∧
  (is_winner h = true → 1 ≤ Views.count_streak (take 10 (reverse mine))).
Proof.
  intros Hlast. destruct mine as [|x l _] using rev_ind; [done|].
  rewrite last_snoc in Hlast. injection Hlast as ->.
  rewrite reverse_snoc. cbn [take Views.count_streak].
  split; intros Hw; rewrite Hw; [done|].
  pose proof (count_streak_bounds (take 9 (reverse l))). lia.
Qed.

(** X26: the streak of [user_stats] looks at ten matches at most.  The
    streak is never negative and never more than 10, however many matches
    the user has won in a row; it is 0 when the user has no history or the
    newest row of the user is not a win, and at least 1 when it is. *)
Theorem streak_is_capped_at_ten uid w :
  ∃ streak recent,
    Views.user_stats uid w = (Ok (streak, recent), w, []) ∧
    0 ≤ streak ≤ 10 ∧ (length recent ≤ 10)%nat ∧
    let mine := filter (λ h, mh_user h = uid) (history (db w)) in
    (mine = [] → streak = 0) ∧
    (∀ h, last mine = Some h → is_winner h = false → streak = 0) ∧
    (∀ h, last mine = Some h → is_winner h = true → 1 ≤ streak).
Proof.
  pose proof (user_stats_run uid w) as Hrun. cbv zeta in Hrun.
  set (mine := filter (λ h, mh_user h = uid) (history (db w))) in *.
  exists (Views.count_streak (take 10 (reverse mine))), (take 10 (reverse mine)).
  split; [exact Hrun|].
  pose proof (count_streak_bounds (take 10 (reverse mine))) as Hb.
  assert (length (take 10 (reverse mine)) ≤ 10)%nat as Hlen
    by (rewrite length_take; lia).
  split; [lia|]. split; [done|]. split; [|split].
  - intros ->. done.
  - intros h Hlast. apply (streak_of_newest mine h Hlast).
  - intros h Hlast. apply (streak_of_newest mine h Hlast).
Qed.

End RatingsMore.

(* ===================================================================== *)
(** ** Further properties of calls that follow one another *)
(* ===================================================================== *)

Section SequencesMore.
Import GameConsumer.

Lemma p1_won_same_scores (m m' : Match) :
  score1 m' = score1 m → score2 m' = score2 m → p1_won m' = p1_won m.
Proof. intros H1 H2. unfold p1_won. by rewrite H1, H2. Qed.

(** X27: [finalize_match] is applied as often as it is called.  A second
    call for the same match (between two distinct players), which happens
    when the last round is ended twice, appends two more history rows,
    equal to the first two, and applies the rating change once more: the
    match then has four history rows and the players' ratings have been
    updated twice. *)
Theorem finalize_match_twice self w m u1 u2 :
  matches (db w) !! match_id self = Some m →
  users (db w) !! player1_id m = Some u1 →
  users (db w) !! player2_id m = Some u2 →
  player1_id m ≠ player2_id m →
  let w1 := world_of (finalize_match self w) in
  let w2 := world_of (finalize_match self w1) in
  let h1 := history_of_player1 (match_id self) m in
  let h2 := history_of_player2 (match_id self) m in
  (∃ res, result_of (finalize_match self w1) = Ok res) ∧
  history (db w2) = history (db w) ++ [h1; h2; h1; h2] ∧
  users (db w2) !! player1_id m =
    Some (set_is_in_game false
            match p1_won m with
            | Some won => update_rating (update_rating u1 won) won
            | None => u1
            end) ∧
  users (db w2) !! player2_id m =
    Some (set_is_in_game false
            match p1_won m with
            | Some won => update_rating (update_rating u2 (negb won)) (negb won)
            | None => u2
            end).
Proof.
  intros Hm H1 H2 Hne w1 w2 h1 h2. subst w2 w1 h1 h2.
  destruct (finalize_match_writes self w m u1 u2 Hm H1 H2) as (res & Hrun & _).
  cbv zeta in Hrun. rewrite Hrun. clear Hrun. cbn [world_of fst snd].
  set (m' := mkMatch _ _ _ _ _ completed _ _ _ _).
  set (w1 := mkWorld _ _ _ _).
  assert (matches (db w1) !! match_id self = Some m') as Hm'
    by apply lookup_insert_eq.
  pose proof (finalized_player1 m u1 u2 (users (db w)) H1 Hne) as Hu1.
  pose proof (finalized_player2 m u1 u2 (users (db w)) H2 Hne) as Hu2.
  assert (p1_won m' = p1_won m) as Hp by (by apply p1_won_same_scores).
  destruct (finalize_match_writes self w1 m' _ _ Hm' Hu1 Hu2)
    as (res' & Hrun' & _).
  cbv zeta in Hrun'. rewrite Hrun'. clear Hrun'.
  cbn [result_of world_of fst snd db history users].
  split; [by eexists|]. split.
  { subst w1. cbn [db history]. rewrite <- app_assoc.
    unfold history_of_player1, history_of_player2.
    rewrite Hp. done. }
  split.
  - rewrite (finalized_player1 m' _ _ _ Hu1 Hne). rewrite Hp.
    destruct (p1_won m) as [[|]|]; done.
  - rewrite (finalized_player2 m' _ _ _ Hu2 Hne). rewrite Hp.
    destruct (p1_won m) as [[|]|]; done.
Qed.

(** X28: every consumer that is told [game_start] starts a round.  The
    handler of [game_start] answers its own client and, after the three
    seconds of the banner, calls [start_round]; with the two consumers of
    a match both told, the round counter moves forward twice. *)
Theorem game_start_starts_one_round_per_consumer a b w st :
  match_id b = match_id a →
  game_states w !! match_id a = Some st →
  let started c :=
    [Send (channel_name c)
       (f_game_start "Both players connected. Game starting..."%string);
     After 3 (channel_name c) start_round_task] in
  let w1 := world_of (resume a start_round_task w) in
  let w2 := world_of (resume b start_round_task w1) in
  handle a game_start_ev w = (Ok tt, w, started a) ∧
  handle b game_start_ev w = (Ok tt, w, started b) ∧
  current_round <$> game_states w1 !! match_id a = Some (current_round st + 1) ∧
  current_round <$> game_states w2 !! match_id a = Some (current_round st + 2).
Proof.
  intros Hm Hst started w1 w2. subst started w2 w1.
  split; [by destruct w|]. split; [by destruct w|].
  cbn [resume].
  pose proof (start_round_state a w st Hst) as Hst1.
  rewrite Hst1. split; [done|].
  rewrite <- Hm in Hst1.
  pose proof (start_round_state b _ _ Hst1) as Hst2.
  rewrite <- Hm, Hst2. cbn [fmap option_fmap option_map current_round].
  f_equal. lia.
Qed.

(** X29: a finalised match sets the streaks.  After [finalize_match] for
    a match between two distinct players, [user_stats] gives the winner a
    streak of at least 1 and the loser a streak of 0; after a draw both
    streaks are 0. *)
Theorem finalisation_sets_the_streaks self w m u1 u2 :
  matches (db w) !! match_id self = Some m →
  users (db w) !! player1_id m = Some u1 →
  users (db w) !! player2_id m = Some u2 →
  player1_id m ≠ player2_id m →
  let w' := world_of (finalize_match self w) in
  ∃ s1 s2 r1 r2,
    Views.user_stats (player1_id m) w' = (Ok (s1, r1), w', []) ∧
    Views.user_stats (player2_id m) w' = (Ok (s2, r2), w', []) ∧
    (score1 m > score2 m → 1 ≤ s1 ∧ s2 = 0) ∧
    (score2 m > score1 m → s1 = 0 ∧ 1 ≤ s2) ∧
    (score1 m = score2 m → s1 = 0 ∧ s2 = 0).
Proof.
  intros Hm H1 H2 Hne w'. subst w'.
  destruct (finalize_match_writes self w m u1 u2 Hm H1 H2) as (res & Hrun & _).
  cbv zeta in Hrun. rewrite Hrun. clear Hrun. cbn [world_of fst snd].
  set (w' := mkWorld _ _ _ _).
  pose proof (user_stats_run (player1_id m) w') as Hr1.
  pose proof (user_stats_run (player2_id m) w') as Hr2.
  cbv zeta in Hr1, Hr2.
  do 4 eexists. split; [exact Hr1|]. split; [exact Hr2|].
  assert (last (filter (λ h, mh_user h = player1_id m) (history (db w')))
          = Some (history_of_player1 (match_id self) m)) as Hlast1.
  { subst w'. cbn [db history]. rewrite filter_app.
    rewrite filter_cons_True by done.
    rewrite filter_cons_False by (cbn; congruence).
    rewrite filter_nil. apply last_snoc. }
  assert (last (filter (λ h, mh_user h = player2_id m) (history (db w')))
          = Some (history_of_player2 (match_id self) m)) as Hlast2.
  { subst w'. cbn [db history]. rewrite filter_app.
    rewrite filter_cons_False by (cbn; congruence).
    rewrite filter_cons_True by done.
    rewrite filter_nil. apply last_snoc. }
  destruct (streak_of_newest _ _ Hlast1) as [Hl1 Hw1].
  destruct (streak_of_newest _ _ Hlast2) as [Hl2 Hw2].
  unfold history_of_player1, history_of_player2 in *.
  cbn [is_winner] in *.
  destruct (p1_won_cases m) as [[Hs Hp] | [[Hs Hp] | [Hs Hp]]];
    rewrite Hp in *; cbn [negb] in *;
    (split; [intros; try lia; split; auto|]);
    (split; [intros; try lia; split; auto|]);
    intros; try lia; split; auto.
Qed.

End SequencesMore.

(* ===================================================================== *)
(** ** The further properties at work *)
(* ===================================================================== *)

Section AtWork.
Import GameConsumer.

(** X1 at work: the queue after a busy evening. *)
Lemma queue_never_holds_two_witness :
  (length (waiting_players
             (serve_all Scenario.table_order Cases.busy_evening
                (Scenario.boot Scenario.five_questions))) ≤ 1)%nat.
Proof.
  apply (queue_never_holds_two Scenario.table_order Cases.busy_evening
           (Scenario.boot Scenario.five_questions)).
  simpl. lia.
Defined.

(** X2 at work: Ada connects to an empty lobby and cancels twice. *)
Lemma cancel_undoes_parking_witness :
  ∃ w2,
    waiting_players
      (world_of (MatchmakingConsumer.connect Scenario.table_order Scenario.seeker1
                   (Scenario.boot Scenario.five_questions)))
      = [(1, "mm.ada"%string)] ∧
    waiting_players w2 = [].
Proof.
  destruct (cancel_undoes_parking Scenario.table_order Scenario.seeker1
              (Scenario.boot Scenario.five_questions) eq_refl eq_refl)
    as (w2 & Hq & _ & Hempty & _).
  exists w2. split; [exact Hq | exact Hempty].
Defined.

(** X3 at work: Ada opens a second connection and the first one closes. *)
Lemma stale_disconnect_unparks_new_connection_witness :
  waiting_players
    (world_of (MatchmakingConsumer.connect Scenario.table_order Scenario.seeker1_again
                 (world_of (MatchmakingConsumer.connect Scenario.table_order
                              Scenario.seeker1
                              (Scenario.boot Scenario.five_questions)))))
    = [(1, "mm.ada.2"%string)] ∧
  waiting_players
    (world_of (MatchmakingConsumer.disconnect Scenario.seeker1
       (world_of (MatchmakingConsumer.connect Scenario.table_order
                    Scenario.seeker1_again
                    (world_of (MatchmakingConsumer.connect Scenario.table_order
                                 Scenario.seeker1
                                 (Scenario.boot Scenario.five_questions)))))))
    = [].
Proof.
  destruct (stale_disconnect_unparks_new_connection Scenario.table_order
              Scenario.seeker1 Scenario.seeker1_again
              (Scenario.boot Scenario.five_questions)
              eq_refl eq_refl eq_refl eq_refl)
    as (_ & Hq & _ & _ & Hempty).
  split; [exact Hq | exact Hempty].
Defined.

(** X4 at work: Bob arrives while Ada waits. *)
Lemma pairing_roles_and_flags_witness :
  ∃ w' m,
    world_of (MatchmakingConsumer.connect Scenario.table_order Scenario.seeker2
                (Scenario.parked Scenario.five_questions)) = w' ∧
    matches (db w') !! 1 = Some m ∧
    player1_id m = 1 ∧ player2_id m = 2 ∧
    waiting_players w' = [].
Proof.
  assert (waiting_players (Scenario.parked Scenario.five_questions)
          = [(1, "mm.ada"%string)]) as Hq by (vm_compute; reflexivity).
  assert (users (db (Scenario.parked Scenario.five_questions)) !! 1
          = Some (mkUser "ada" None 1000 6 0 0 true false)) as Hada
    by (vm_compute; reflexivity).
  assert (users (db (Scenario.parked Scenario.five_questions)) !! 2
          = Some (mkUser "bob" None 10 1 0 0 false false)) as Hbob
    by (vm_compute; reflexivity).
  assert (1 ≠ 2) as Hne by lia.
  destruct (pairing_roles_and_flags Scenario.table_order Scenario.seeker2
              (Scenario.parked Scenario.five_questions) 1 "mm.ada"%string []
              _ _ eq_refl Hq Hne Hada Hbob (or_introl eq_refl) (or_introl eq_refl))
    as (w' & m & _ & Hw & Hm & Hp1 & Hp2 & _ & _ & Hrest & _).
  exists w', m.
  split; [exact Hw|]. split; [exact Hm|]. split; [exact Hp1|].
  split; [exact Hp2 | exact Hrest].
Defined.

(** X5 at work: Ada arrives while a deleted user is first in the queue. *)
Lemma pairing_without_opponent_row_witness :
  ∃ w',
    MatchmakingConsumer.connect Scenario.table_order Scenario.seeker1
      Cases.ghost_waiting
      = (Raise User_DoesNotExist, w', [Accept "mm.ada"%string]) ∧
    waiting_players w' = [].
Proof.
  assert (7 ≠ 1) as Hne by lia.
  destruct (pairing_without_opponent_row Scenario.table_order Scenario.seeker1
              Cases.ghost_waiting 7 "mm.ghost"%string [] eq_refl eq_refl Hne eq_refl)
    as (w' & Hrun & Hq & _).
  exists w'. split; [exact Hrun | exact Hq].
Defined.

(** X6 at work: Bob arrives while Ada, whose row has a picture, waits. *)
Lemma pairing_with_avatar_is_silent_witness :
  ∃ w',
    MatchmakingConsumer.connect Scenario.table_order Scenario.seeker2 Cases.pictured
      = (Raise AttributeError, w', [Accept "mm.bob"%string]) ∧
    matches (db w') !! 1 =
      Some (mkMatch 1 2 0 0 None in_progress 0 5 (Some (0 # 1)) None).
Proof.
  assert (1 ≠ 2) as Hne by lia.
  assert (users (db Cases.pictured) !! 1 = Some Cases.pictured_ada) as Hada
    by (vm_compute; reflexivity).
  assert (users (db Cases.pictured) !! 2
          = Some (mkUser "bob" None 10 1 0 0 false false)) as Hbob
    by (vm_compute; reflexivity).
  assert (¬ no_avatar Cases.pictured_ada) as Hpic
    by (intros [H | H]; discriminate H).
  destruct (pairing_with_avatar_is_silent Scenario.table_order Scenario.seeker2
              Cases.pictured 1 "mm.ada"%string [] _ _
              eq_refl eq_refl Hne Hada Hbob (or_introl Hpic))
    as (w' & Hrun & Hm & _).
  exists w'. split; [exact Hrun | exact Hm].
Defined.

(** X7 at work: Eve, who plays no match, opens a session on match 1. *)
Lemma connect_refuses_outsiders_witness :
  connect Cases.eve (Scenario.paired Scenario.five_questions)
    = (Ok tt, Scenario.paired Scenario.five_questions, [Close "game.eve"%string]).
Proof.
  assert (matches (db (Scenario.paired Scenario.five_questions)) !! 1
          = Some (mkMatch 1 2 0 0 None in_progress 0 5 (Some (0 # 1)) None)) as Hm
    by (vm_compute; reflexivity).
  apply (connect_refuses_outsiders Cases.eve
           (Scenario.paired Scenario.five_questions)).
  right. intros m Hm'. change (match_id Cases.eve) with 1 in Hm'.
  rewrite Hm in Hm'. injection Hm' as <-.
  intros [H | H]; simpl in H; discriminate H.
Defined.

(** X8 at work: Bob opens his session after Ada has opened hers. *)
Lemma game_starts_with_second_player_witness :
  sent_of (connect Scenario.bob Cases.ada_alone)
    = [GroupAdd 1 "game.bob"%string; Accept "game.bob"%string;
       Send "game.bob"%string (f_connected 1 2);
       GroupSend 1 game_start_ev].
Proof.
  assert (matches (db Cases.ada_alone) !! 1
          = Some (mkMatch 1 2 0 0 None in_progress 0 5 (Some (0 # 1)) None)) as Hm
    by (vm_compute; reflexivity).
  assert (game_states Cases.ada_alone !! 1
          = Some (mkGameState {[1]} 0 ∅ None ∅)) as Hst
    by (vm_compute; reflexivity).
  destruct (game_starts_with_second_player Scenario.bob Cases.ada_alone _
              eq_refl Hm (or_intror eq_refl))
    as (_ & _ & _ & _ & Hstart & _).
  change (match_id Scenario.bob) with 1 in Hstart.
  rewrite Hst in Hstart. cbn [from_option players_ready] in Hstart.
  rewrite size_singleton in Hstart.
  apply Hstart.
  - change (user_id Scenario.bob) with 2.
    intros H. apply elem_of_singleton in H. discriminate H.
  - intros H. apply (f_equal size) in H.
    rewrite size_singleton, size_empty in H. discriminate H.
Defined.

(** X9 at work: Bob, alone in the session of match 1, leaves and comes
    back. *)
Lemma last_disconnect_resets_match_state_witness :
  game_states (world_of (disconnect Scenario.bob Cases.bob_alone)) !! 1 = None ∧
  game_states
    (world_of (connect Scenario.bob
                 (world_of (disconnect Scenario.bob Cases.bob_alone)))) !! 1
    = Some (mkGameState {[2]} 0 ∅ None ∅).
Proof.
  assert (matches (db Cases.bob_alone) !! 1
          = Some (mkMatch 1 2 0 0 None in_progress 0 5 (Some (0 # 1)) None)) as Hm
    by (vm_compute; reflexivity).
  assert (game_states Cases.bob_alone !! 1
          = Some (mkGameState {[2]} 0 ∅ None ∅)) as Hst
    by (vm_compute; reflexivity).
  destruct (last_disconnect_resets_match_state Scenario.bob Cases.bob_alone _ _
              eq_refl Hm (or_intror eq_refl) Hst (reflexivity _))
    as (Hgone & Hnew & _).
  split; [exact Hgone | exact Hnew].
Defined.

(** X10 at work: Ada leaves the lobby of match 1 while Bob stays. *)
Lemma disconnect_keeps_state_for_the_other_witness :
  ∃ w',
    disconnect Scenario.ada Scenario.lobby =
      (Ok tt, w', [GroupDiscard 1 "game.ada"%string]) ∧
    db w' = db Scenario.lobby.
Proof.
  assert (game_states Scenario.lobby !! 1
          = Some (mkGameState {[1; 2]} 0 ∅ None ∅)) as Hst
    by (vm_compute; reflexivity).
  assert (2 ∈ players_ready (mkGameState {[1; 2]} 0 ∅ None ∅)) as Hin
    by (cbn [players_ready]; apply elem_of_union; right;
        apply elem_of_singleton; reflexivity).
  assert (2 ≠ 1) as Hne by lia.
  destruct (disconnect_keeps_state_for_the_other Scenario.ada Scenario.lobby _ 2
              eq_refl Hst Hin Hne)
    as (w' & Hrun & _ & _ & Hdb).
  exists w'. split; [exact Hrun | exact Hdb].
Defined.

End AtWork.

Section AtWorkRounds.
Import GameConsumer.

(** X11 at work: a correct answer after 2 seconds and one after 5. *)
Lemma calculate_score_is_antitone_witness :
  calculate_score (5 # 1) true ≤ calculate_score (2 # 1) true ∧
  40 ≤ calculate_score (2 # 1) true.
Proof.
  assert ((2 # 1) <= (5 # 1))%Q as Hle by (unfold Qle; simpl; lia).
  destruct (calculate_score_is_antitone (2 # 1) (5 # 1) true Hle)
    as (Hmono & _ & Hmin & _).
  split; [exact Hmono | exact (Hmin eq_refl)].
Defined.

(** X12 at work: the two consumers of match 1 start a round from the
    lobby, alone and together. *)
Lemma start_round_reads_the_counter_again_witness :
  sent_of (start_round Scenario.ada Scenario.lobby) =
    [GroupSend 1 (question_start_ev (0 + 1) (question_data (Scenario.quiz 1 "A")));
     After 15 "game.ada"%string (round_timeout_task (0 + 1))] ∧
  sent_of (start_round_twice Scenario.ada Scenario.bob Scenario.lobby) =
    [GroupSend 1 (question_start_ev (0 + 2) (question_data (Scenario.quiz 1 "A")));
     After 15 "game.ada"%string (round_timeout_task (0 + 2));
     GroupSend 1 (question_start_ev (0 + 2) (question_data (Scenario.quiz 2 "B")));
     After 15 "game.bob"%string (round_timeout_task (0 + 2))].
Proof.
  assert (game_states Scenario.lobby !! 1
          = Some (mkGameState {[1; 2]} 0 ∅ None ∅)) as Hst
    by (vm_compute; reflexivity).
  assert (find (is_round 1 (0 + 1)) (rounds (db Scenario.lobby))
          = Some (mkRound 1 1 (Scenario.quiz 1 "A") None None None None 0 0)) as Hrow1
    by (vm_compute; reflexivity).
  assert (find (is_round 1 (0 + 2)) (rounds (db Scenario.lobby))
          = Some (mkRound 1 2 (Scenario.quiz 2 "B") None None None None 0 0)) as Hrow2
    by (vm_compute; reflexivity).
  destruct (start_round_reads_the_counter_again Scenario.ada Scenario.bob
              Scenario.lobby _ eq_refl Hst)
    as (Halone & _ & Htogether).
  destruct (Halone _ Hrow1) as [Hsent _].
  destruct (Htogether _ _ Hrow1 Hrow2) as (_ & Hboth & _).
  split; [exact Hsent | exact Hboth].
Defined.

(** X13 at work: frames for match 1 before anybody has opened a session. *)
Lemma handlers_inert_without_state_witness :
  handle_answer Scenario.ada (Scenario.answer_frame "A" (1 # 1))
    (Scenario.paired Scenario.five_questions)
    = (Ok tt, Scenario.paired Scenario.five_questions, []) ∧
  round_timeout Scenario.ada 1 (Scenario.paired Scenario.five_questions)
    = (Ok tt, Scenario.paired Scenario.five_questions, []).
Proof.
  assert (game_states (Scenario.paired Scenario.five_questions) !! 1 = None) as Hnone
    by (vm_compute; reflexivity).
  destruct (handlers_inert_without_state Scenario.ada
              (Scenario.paired Scenario.five_questions)
              (Scenario.answer_frame "A" (1 # 1)) 1 Hnone)
    as (Hanswer & _ & _ & Htimer & _).
  split; [exact Hanswer | exact Htimer].
Defined.

(** X14 at work: a timer started for round 2 fires during round 1. *)
Lemma round_timeout_guards_witness :
  round_timeout Scenario.ada 2 Scenario.one_answer
    = (Ok tt, Scenario.one_answer, []).
Proof.
  assert (game_states Scenario.one_answer !! 1
          = Some (mkGameState {[1; 2]} 1
                    {[1 := {[1 := mkAnswerData (Some "A"%string) (2 # 1)]}]}
                    (Some (0 # 1)) ∅)) as Hst
    by (vm_compute; reflexivity).
  apply (round_timeout_guards Scenario.ada Scenario.one_answer _ 2 Hst).
  left. simpl. lia.
Defined.


(** X16 at work: Bob answers round 1 after Ada. *)
Lemma second_answer_ends_round_witness :
  ∃ res w',
    handle_answer Scenario.bob (Scenario.answer_frame "B" (5 # 1)) Scenario.one_answer =
      (Ok tt, w',
       [GroupSend 1 (answer_submitted_ev 2);
        GroupSend 1 (round_end_ev 1 res);
        After 3 "game.bob"%string start_round_task]) ∧
    (score1 <$> matches (db w') !! 1) = Some 100 ∧
    (score2 <$> matches (db w') !! 1) = Some 0.
Proof.
  assert (game_states Scenario.one_answer !! 1
          = Some (mkGameState {[1; 2]} 1
                    {[1 := {[1 := mkAnswerData (Some "A"%string) (2 # 1)]}]}
                    (Some (0 # 1)) ∅)) as Hst
    by (vm_compute; reflexivity).
  assert (find (is_round 1 1) (rounds (db Scenario.one_answer))
          = Some (mkRound 1 1 (Scenario.quiz 1 "A") None None None None 0 0)) as Hrow
    by (vm_compute; reflexivity).
  assert (matches (db Scenario.one_answer) !! 1
          = Some (mkMatch 1 2 0 0 None in_progress 1 5 (Some (0 # 1)) None)) as Hm
    by (vm_compute; reflexivity).
  destruct (second_answer_ends_round Scenario.bob
              (Scenario.answer_frame "B" (5 # 1)) Scenario.one_answer _ _ _
              Hst eq_refl
              ltac:(intros H; apply (f_equal (λ a, a !! 1)) in H; discriminate H)
              Hrow Hm)
    as (res & w' & Hrun & _ & _ & Hs1 & Hs2).
  exists res, w'. split; [exact Hrun|]. split; [exact Hs1 | exact Hs2].
Defined.

(** X17 at work: both answer in the lobby, before round 1 has started. *)
Lemma answers_without_round_raise_witness :
  ∃ w',
    handle_answer Scenario.bob (Scenario.answer_frame "B" (1 # 1)) Cases.early_answer =
      (Raise Round_DoesNotExist, w', [GroupSend 1 (answer_submitted_ev 2)]) ∧
    db w' = db Cases.early_answer.
Proof.
  assert (game_states Cases.early_answer !! 1
          = Some (mkGameState {[1; 2]} 0
                    {[0 := {[1 := mkAnswerData (Some "A"%string) (1 # 1)]}]}
                    None ∅)) as Hst
    by (vm_compute; reflexivity).
  assert (find (is_round 1 0) (rounds (db Cases.early_answer)) = None) as Hrow
    by (vm_compute; reflexivity).
  destruct (answers_without_round_raise Scenario.bob
              (Scenario.answer_frame "B" (1 # 1)) Cases.early_answer _
              Hst eq_refl
              ltac:(intros H; apply (f_equal (λ a, a !! 1)) in H; discriminate H)
              Hrow)
    as (w' & Hrun & _ & Hdb).
  exists w'. split; [exact Hrun | exact Hdb].
Defined.

(** X18 at work: match 1 ends at 100 to 0 for Ada. *)
Lemma end_match_outcome_witness :
  ∃ res w',
    end_match Scenario.ada Scenario.timed_out =
      (Ok tt, w', [GroupSend 1 (match_end_ev res)]) ∧
    mr_winner_id res = Some 1 ∧
    game_states w' !! 1 = None.
Proof.
  assert (matches (db Scenario.timed_out) !! 1
          = Some (mkMatch 1 2 100 0 None in_progress 1 5 (Some (0 # 1)) None)) as Hm
    by (vm_compute; reflexivity).
  assert (users (db Scenario.timed_out) !! 1
          = Some (mkUser "ada" None 1000 6 0 0 true true)) as Hada
    by (vm_compute; reflexivity).
  assert (users (db Scenario.timed_out) !! 2
          = Some (mkUser "bob" None 10 1 0 0 true true)) as Hbob
    by (vm_compute; reflexivity).
  destruct (end_match_outcome Scenario.ada Scenario.timed_out _ _ _ Hm Hada Hbob)
    as (res & w' & Hrun & Hwin & _ & _ & _ & Hgs & _).
  exists res, w'. split; [exact Hrun|]. split; [exact Hwin|].
  rewrite Hgs. apply lookup_delete_eq.
Defined.

(** X19 at work: round 1 of match 1 is scored with Ada's answer. *)
Lemma totals_are_sums_of_round_scores_witness :
  ∃ res w' m',
    calculate_round_result Scenario.ada 1
      {[1 := mkAnswerData (Some "A"%string) (2 # 1)]} Scenario.round1
      = (Ok res, w', []) ∧
    matches (db w') !! 1 = Some m' ∧
    score1 m' = tally player1_score 1 (rounds (db w')) ∧
    score2 m' = tally player2_score 1 (rounds (db w')).
Proof.
  assert (find (is_round 1 1) (rounds (db Scenario.round1))
          = Some (mkRound 1 1 (Scenario.quiz 1 "A") None None None None 0 0)) as Hrow
    by (vm_compute; reflexivity).
  assert (matches (db Scenario.round1) !! 1
          = Some (mkMatch 1 2 0 0 None in_progress 1 5 (Some (0 # 1)) None)) as Hm
    by (vm_compute; reflexivity).
  assert (NoDup (round_key <$> rounds (db Scenario.round1))) as Hkeys
    by (apply (bool_decide_unpack _); vm_compute; exact I).
  assert (0 = tally player1_score 1 (rounds (db Scenario.round1))) as H1
    by (vm_compute; reflexivity).
  assert (0 = tally player2_score 1 (rounds (db Scenario.round1))) as H2
    by (vm_compute; reflexivity).
  destruct (totals_are_sums_of_round_scores Scenario.ada 1
              {[1 := mkAnswerData (Some "A"%string) (2 # 1)]} Scenario.round1 _ _
              Hrow Hm Hkeys eq_refl eq_refl H1 H2)
    as (res & w' & m' & Hrun & Hm' & Hs1 & Hs2 & _).
  exists res, w', m'. split; [exact Hrun|]. split; [exact Hm'|].
  split; [exact Hs1 | exact Hs2].
Defined.

(** X20 at work: Ada sends seven emojis in the lobby of match 1. *)
Lemma emoji_allowance_is_per_player_witness :
  sent_of (receive_all Scenario.ada (emoji_frame <$> Cases.seven_emojis) Scenario.lobby)
    = (λ e, GroupSend 1 (emoji_received_ev 1 e))
        <$> take (Z.to_nat (5 - emoji_count Scenario.ada Scenario.lobby))
              Cases.seven_emojis ∧
  emoji_count Scenario.bob
    (world_of (receive_all Scenario.ada (emoji_frame <$> Cases.seven_emojis)
                 Scenario.lobby))
    = emoji_count Scenario.bob Scenario.lobby.
Proof.
  assert (game_states Scenario.lobby !! 1
          = Some (mkGameState {[1; 2]} 0 ∅ None ∅)) as Hst
    by (vm_compute; reflexivity).
  assert (0 ≤ emoji_count Scenario.ada Scenario.lobby) as Hpos
    by (vm_compute; discriminate).
  assert (2 ≠ 1) as Hne by lia.
  destruct (emoji_allowance_is_per_player Scenario.ada Scenario.bob Scenario.lobby
              _ Cases.seven_emojis Hst Hpos eq_refl Hne)
    as (_ & Hsent & _ & Hother).
  split; [exact Hsent | exact Hother].
Defined.

End AtWorkRounds.

Section AtWorkMatches.
Import GameConsumer.

(** X21 at work: Ada and Bob are paired again while match 1 exists. *)
Lemma new_match_questions_round_trip_witness :
  get_questions 2
    (world_of (MatchmakingConsumer.create_match Scenario.table_order 1 2
                 (Scenario.paired Scenario.five_questions)))
  = (Ok (take 5 (Scenario.table_order
                   (questions (db (Scenario.paired Scenario.five_questions))))),
     world_of (MatchmakingConsumer.create_match Scenario.table_order 1 2
                 (Scenario.paired Scenario.five_questions)),
     []).
Proof.
  assert (users (db (Scenario.paired Scenario.five_questions)) !! 2
          = Some (mkUser "bob" None 10 1 0 0 true true)) as Hbob
    by (vm_compute; reflexivity).
  assert (∀ r, r ∈ rounds (db (Scenario.paired Scenario.five_questions)) →
               round_match_id r ≠
                 next_match_pk (db (Scenario.paired Scenario.five_questions)))
    as Hfree
    by (apply Forall_forall, (bool_decide_unpack _); vm_compute; exact I).
  destruct (new_match_questions_round_trip Scenario.table_order 1 2
              (Scenario.paired Scenario.five_questions) _ Hbob Hfree)
    as [_ Hread].
  exact Hread.
Defined.

(** X22 at work: the third and the sixth round of that second match. *)
Lemma new_match_serves_drawn_questions_witness :
  get_round_question Cases.ada_again (1 + Z.of_nat 2)
    (world_of (MatchmakingConsumer.create_match Scenario.table_order
                 (user_id Cases.ada_again) 2
                 (Scenario.paired Scenario.five_questions)))
  = (Ok (Some (question_data (Scenario.quiz 3 "C"))),
     world_of (MatchmakingConsumer.create_match Scenario.table_order
                 (user_id Cases.ada_again) 2
                 (Scenario.paired Scenario.five_questions)),
     []) ∧
  get_round_question Cases.ada_again 6
    (world_of (MatchmakingConsumer.create_match Scenario.table_order
                 (user_id Cases.ada_again) 2
                 (Scenario.paired Scenario.five_questions)))
  = (Ok None,
     world_of (MatchmakingConsumer.create_match Scenario.table_order
                 (user_id Cases.ada_again) 2
                 (Scenario.paired Scenario.five_questions)),
     []).
Proof.
  assert (users (db (Scenario.paired Scenario.five_questions)) !! 2
          = Some (mkUser "bob" None 10 1 0 0 true true)) as Hbob
    by (vm_compute; reflexivity).
  assert (∀ r, r ∈ rounds (db (Scenario.paired Scenario.five_questions)) →
               round_match_id r ≠
                 next_match_pk (db (Scenario.paired Scenario.five_questions)))
    as Hfree
    by (apply Forall_forall, (bool_decide_unpack _); vm_compute; exact I).
  assert (Z.of_nat
            (length (take 5 (Scenario.table_order
                       (questions (db (Scenario.paired Scenario.five_questions))))))
          < 6) as Hlate by (vm_compute; reflexivity).
  destruct (new_match_serves_drawn_questions Scenario.table_order Cases.ada_again 2
              (Scenario.paired Scenario.five_questions) _ Hbob Hfree eq_refl)
    as [Hserved Hnone].
  split.
  - exact (Hserved 2%nat (Scenario.quiz 3 "C") eq_refl).
  - exact (Hnone 6 (or_intror Hlate)).
Defined.

(** X23 at work: Bob, rated 10, loses, wins and loses twice. *)
Lemma season_keeps_rating_policy_witness :
  0 ≤ rating (season (Scenario.player "bob" 10) [false; true; false; false]) ∧
  total_matches (season (Scenario.player "bob" 10) [false; true; false; false])
    = total_matches (Scenario.player "bob" 10)
      + Z.of_nat (length [false; true; false; false]).
Proof.
  assert (0 ≤ rating (Scenario.player "bob" 10)) as Hpos by (simpl; lia).
  destruct (season_keeps_rating_policy (Scenario.player "bob" 10)
              [false; true; false; false] Hpos)
    as (Hr & _ & _ & Hplayed & _).
  split; [exact Hr | exact Hplayed].
Defined.

(** X24 at work: Ada loses an offline game 3 to 5. *)
Lemma offline_game_rating_policy_witness :
  ∃ res w' user',
    Views.finish_offline_game 1 (Some 3) (Some 5)
      (Scenario.boot Scenario.five_questions) = (Ok res, w', []) ∧
    users (db w') !! 1 = Some user' ∧
    rating user' = Z.max 0 (1000 - 10) ∧
    Views.or_rating_change res = -10.
Proof.
  assert (users (db (Scenario.boot Scenario.five_questions)) !! 1
          = Some (Scenario.player "ada" 1000)) as Hada
    by (vm_compute; reflexivity).
  assert (0 ≤ rating (Scenario.player "ada" 1000)) as Hpos by (simpl; lia).
  assert (default 0 (Some 3) < default 0 (Some 5)) as Hlost by (simpl; lia).
  destruct (offline_game_rating_policy 1 (Some 3) (Some 5)
              (Scenario.boot Scenario.five_questions) _ Hada Hpos)
    as (res & w' & user' & Hrun & Huser & _ & _ & _ & _ & _ & Hloss).
  destruct (Hloss Hlost) as (Hrating & _ & _ & _ & Hchange).
  exists res, w', user'.
  split; [exact Hrun|]. split; [exact Huser|]. split; [exact Hrating | exact Hchange].
Defined.

(** X25 at work: a beginner rated 4 loses an offline game 0 to 1. *)
Lemma offline_loss_change_is_overstated_witness :
  ∃ res w',
    Views.finish_offline_game 3 None (Some 1) Cases.beginners = (Ok res, w', []) ∧
    Views.or_rating_change res = -10 ∧ Views.or_new_rating res = 0.
Proof.
  assert (users (db Cases.beginners) !! 3 = Some (Scenario.player "cy" 4)) as Hcy
    by (vm_compute; reflexivity).
  assert (0 ≤ rating (Scenario.player "cy" 4) < 10) as Hlow by (simpl; lia).
  assert (default 0 None < default 0 (Some 1)) as Hlost by (simpl; lia).
  destruct (offline_loss_change_is_overstated 3 None (Some 1) Cases.beginners _
              Hcy Hlow Hlost)
    as (res & w' & Hrun & Hchange & Hnew & _).
  exists res, w'. split; [exact Hrun|]. split; [exact Hchange | exact Hnew].
Defined.

(** X27 at work: match 1, at 100 to 0 for Ada, is finalised twice. *)
Lemma finalize_match_twice_witness :
  length (history (db (world_of (finalize_match Scenario.ada
                                   (world_of (finalize_match Scenario.ada
                                                Scenario.timed_out))))))
    = 4%nat ∧
  rating <$> users (db (world_of (finalize_match Scenario.ada
                                    (world_of (finalize_match Scenario.ada
                                                 Scenario.timed_out))))) !! 1
    = Some 1040.
Proof.
  assert (matches (db Scenario.timed_out) !! 1
          = Some (mkMatch 1 2 100 0 None in_progress 1 5 (Some (0 # 1)) None)) as Hm
    by (vm_compute; reflexivity).
  assert (users (db Scenario.timed_out) !! 1
          = Some (mkUser "ada" None 1000 6 0 0 true true)) as Hada
    by (vm_compute; reflexivity).
  assert (users (db Scenario.timed_out) !! 2
          = Some (mkUser "bob" None 10 1 0 0 true true)) as Hbob
    by (vm_compute; reflexivity).
  assert (history (db Scenario.timed_out) = []) as Hnone
    by (vm_compute; reflexivity).
  assert (1 ≠ 2) as Hne by lia.
  destruct (finalize_match_twice Scenario.ada Scenario.timed_out _ _ _
              Hm Hada Hbob Hne)
    as (_ & Hrows & Hu1 & _).
  split.
  - rewrite Hrows, Hnone. reflexivity.
  - change (player1_id (mkMatch 1 2 100 0 None in_progress 1 5 (Some (0 # 1)) None))
      with 1 in Hu1.
    rewrite Hu1. reflexivity.
Defined.

(** X28 at work: both consumers of match 1 are told [game_start]. *)
Lemma game_start_starts_one_round_per_consumer_witness :
  current_round <$>
    game_states (world_of (resume Scenario.bob start_round_task
                   (world_of (resume Scenario.ada start_round_task Scenario.lobby))))
      !! 1
  = Some (0 + 2).
Proof.
  assert (game_states Scenario.lobby !! 1
          = Some (mkGameState {[1; 2]} 0 ∅ None ∅)) as Hst
    by (vm_compute; reflexivity).
  destruct (game_start_starts_one_round_per_consumer Scenario.ada Scenario.bob
              Scenario.lobby _ eq_refl Hst)
    as (_ & _ & _ & Htwo).
  exact Htwo.
Defined.

(** X29 at work: the streaks after match 1 has ended 100 to 0 for Ada. *)
Lemma finalisation_sets_the_streaks_witness :
  ∃ s1 s2 r1 r2,
    Views.user_stats 1 (world_of (finalize_match Scenario.ada Scenario.timed_out))
      = (Ok (s1, r1), world_of (finalize_match Scenario.ada Scenario.timed_out), []) ∧
    Views.user_stats 2 (world_of (finalize_match Scenario.ada Scenario.timed_out))
      = (Ok (s2, r2), world_of (finalize_match Scenario.ada Scenario.timed_out), []) ∧
    1 ≤ s1 ∧ s2 = 0.
Proof.
  assert (matches (db Scenario.timed_out) !! 1
          = Some (mkMatch 1 2 100 0 None in_progress 1 5 (Some (0 # 1)) None)) as Hm
    by (vm_compute; reflexivity).
  assert (users (db Scenario.timed_out) !! 1
          = Some (mkUser "ada" None 1000 6 0 0 true true)) as Hada
    by (vm_compute; reflexivity).
  assert (users (db Scenario.timed_out) !! 2
          = Some (mkUser "bob" None 10 1 0 0 true true)) as Hbob
    by (vm_compute; reflexivity).
  assert (1 ≠ 2) as Hne by lia.
  assert (100 > 0) as Hlead by lia.
  destruct (finalisation_sets_the_streaks Scenario.ada Scenario.timed_out _ _ _
              Hm Hada Hbob Hne)
    as (s1 & s2 & r1 & r2 & H1 & H2 & Hwon & _).
  exists s1, s2, r1, r2. split; [exact H1|]. split; [exact H2|].
  exact (Hwon Hlead).
Defined.

End AtWorkMatches.

(* ===================================================================== *)
(** ** The emoji allowance across sessions *)
(* ===================================================================== *)

Section EmojiAcrossSessions.
Import GameConsumer.

(** Emoji frames change nothing but the emoji counts. *)
Lemma receive_all_emojis_session self emojis : ∀ w st,
  game_states w !! match_id self = Some st →
  let w' := world_of (receive_all self (emoji_frame <$> emojis) w) in
  db w' = db w ∧
  ∃ st', game_states w' !! match_id self = Some st' ∧
         players_ready st' = players_ready st.
Proof.
  induction emojis as [|e es IH]; intros w st Hst; cbv zeta.
  - split; [done|]. by exists st.
  - cbn [fmap list_fmap receive_all]. rewrite receive_emoji.
    pose proof (handle_emoji_step self (emoji_frame e) w st Hst) as Hstep.
    cbv zeta in Hstep. rewrite (world_of_bind_ok _ _ _ _ _ _ Hstep).
    set (w1 := counted self _ st w).
    assert (game_states w1 !! match_id self
            = Some (with_emojis_sent
                      (<[user_id self :=
                           if bool_decide (emoji_count self w < 5)
                           then emoji_count self w + 1 else emoji_count self w]>
                         (emojis_sent st)) st)) as Hst1
      by (subst w1; unfold counted; cbn [game_states]; apply lookup_insert_eq).
    destruct (IH w1 _ Hst1) as (Hdb & st' & Hst' & Hready).
    split; [by rewrite Hdb|]. by exists st'.
Qed.

Lemma disconnect_without_state self w :
  game_states w !! match_id self = None →
  disconnect self w =
    (Ok tt, w, [GroupDiscard (room_group_name self) (channel_name self)]).
Proof.
  intros Hnone. unfold disconnect. open_world w. run_monad.
  rewrite Hnone. by destruct (is_anonymous self).
Qed.

(** Once both players have left, the match has no state. *)
Lemma both_leave a b w st :
  is_anonymous a = false → is_anonymous b = false →
  match_id b = match_id a →
  game_states w !! match_id a = Some st →
  players_ready st ⊆ {[user_id a; user_id b]} →
  let w' := world_of (disconnect a (world_of (disconnect b w))) in
  game_states w' !! match_id a = None ∧ db w' = db w.
Proof.
  intros Ha Hb Hm Hst Hsub. cbv zeta.
  assert (game_states w !! match_id b = Some st) as Hstb by (by rewrite Hm).
  pose proof (disconnect_run b w st Hb Hstb) as Hd. cbv zeta in Hd.
  rewrite Hd. clear Hd. cbn [world_of fst snd]. rewrite Hm.
  case_bool_decide as Hempty.
  - rewrite disconnect_without_state by (cbn [game_states]; apply lookup_delete_eq).
    cbn [world_of fst snd game_states db]. split; [apply lookup_delete_eq|done].
  - set (w1 := mkWorld _ _ _ _).
    assert (game_states w1 !! match_id a
            = Some (with_players_ready (players_ready st ∖ {[user_id b]}) st))
      as Hst1 by apply lookup_insert_eq.
    pose proof (disconnect_run a w1 _ Ha Hst1) as Hd. cbv zeta in Hd.
    rewrite Hd. clear Hd. cbn [world_of fst snd players_ready with_players_ready].
    rewrite bool_decide_eq_true_2 by set_solver.
    cbn [game_states db]. split; [apply lookup_delete_eq|done].
Qed.

(** When both come back, the state is a new one: no emoji is counted. *)
Lemma both_return a b w m :
  is_anonymous a = false → is_anonymous b = false →
  match_id b = match_id a →
  matches (db w) !! match_id a = Some m →
  plays (user_id a) m → plays (user_id b) m →
  game_states w !! match_id a = None →
  let w' := world_of (connect b (world_of (connect a w))) in
  game_states w' !! match_id a
    = Some (mkGameState ({[user_id b]} ∪ ({[user_id a]} ∪ ∅)) 0 ∅ None ∅).
Proof.
  intros Ha Hb Hm Hrow Hpa Hpb Hnone. cbv zeta.
  pose proof (connect_run a w m Ha Hrow Hpa) as Hc. cbv zeta in Hc.
  rewrite Hc. clear Hc. cbn [world_of fst snd]. rewrite Hnone.
  cbn [from_option default id].
  set (w1 := mkWorld _ _ _ _).
  assert (matches (db w1) !! match_id b = Some m) as Hrow1 by (by rewrite Hm).
  pose proof (connect_run b w1 m Hb Hrow1 Hpb) as Hc. cbv zeta in Hc.
  rewrite Hc. clear Hc. cbn [world_of fst snd game_states]. rewrite Hm.
  subst w1. cbn [game_states]. rewrite !lookup_insert_eq.
  cbn [from_option default id]. done.
Qed.

Lemma delivered_app member w out1 out2 :
  delivered member w (out1 ++ out2)
    = delivered member w out1 ++ delivered member w out2.
Proof. unfold delivered. apply flat_map_app. Qed.

(** C9 (the code departs from it): the allowance of five emojis starts
    again when the session of the match has emptied.  A player sends
    emoji frames, of which the consumer of the other player forwards the
    first five; both players leave, which deletes the state of the match,
    and both come back, which makes a new one; the player sends emoji
    frames again, and again the first five are forwarded.  None is ever
    forwarded to the sender, but with five or more frames in each burst
    the other player is sent ten emojis in one match. *)
Theorem C9_emoji_allowance_restarts sender other w m st first second :
  is_anonymous sender = false → is_anonymous other = false →
  match_id other = match_id sender → user_id other ≠ user_id sender →
  matches (db w) !! match_id sender = Some m →
  plays (user_id sender) m → plays (user_id other) m →
  game_states w !! match_id sender = Some st →
  players_ready st ⊆ {[user_id sender; user_id other]} →
  emojis_sent st !! user_id sender = None →
  let burst1 := receive_all sender (emoji_frame <$> first) w in
  let left :=
    world_of (disconnect sender (world_of (disconnect other (world_of burst1)))) in
  let back := world_of (connect other (world_of (connect sender left))) in
  let burst2 := receive_all sender (emoji_frame <$> second) back in
  result_of burst1 = Ok tt ∧ result_of burst2 = Ok tt ∧
  game_states left !! match_id sender = None ∧
  ∀ v,
    delivered other v (sent_of burst1) = f_emoji_received <$> take 5 first ∧
    delivered other v (sent_of burst2) = f_emoji_received <$> take 5 second ∧
    delivered sender v (sent_of burst1 ++ sent_of burst2) = [] ∧
    ((5 ≤ length first)%nat → (5 ≤ length second)%nat →
       length (delivered other v (sent_of burst1 ++ sent_of burst2)) = 10%nat).
Proof.
  intros Ha Hb Hm Hu Hrow Hpa Hpb Hst Hsub Hnone burst1 left back burst2.
  destruct (emoji_limit_of_one_state sender other w st first Hst Hnone Hm Hu)
    as (w1 & out1 & Hrun1 & Hout1).
  destruct (receive_all_emojis_session sender first w st Hst)
    as (Hdb1 & st1 & Hst1 & Hready1).
  fold burst1 in Hdb1, Hst1.
  assert (players_ready st1 ⊆ {[user_id sender; user_id other]}) as Hsub1
    by (by rewrite Hready1).
  destruct (both_leave sender other (world_of burst1) st1 Ha Hb Hm Hst1 Hsub1)
    as [Hgone Hdb2].
  fold left in Hgone, Hdb2.
  assert (matches (db left) !! match_id sender = Some m) as Hrow2
    by (by rewrite Hdb2, Hdb1).
  pose proof (both_return sender other left m Ha Hb Hm Hrow2 Hpa Hpb Hgone)
    as Hst3.
  fold back in Hst3.
  destruct (emoji_limit_of_one_state sender other back _ second Hst3
              (lookup_empty _) Hm Hu)
    as (w4 & out2 & Hrun2 & Hout2).
  subst burst1 burst2. fold back. rewrite Hrun1, Hrun2.
  cbn [result_of sent_of fst snd].
  split; [done|]. split; [done|]. split; [exact Hgone|].
  intros v. destruct (Hout1 v) as (Ho1 & Hs1 & _).
  destruct (Hout2 v) as (Ho2 & Hs2 & _).
  split; [exact Ho1|]. split; [exact Ho2|].
  split; [by rewrite delivered_app, Hs1, Hs2|].
  intros H1 H2.
  rewrite delivered_app, Ho1, Ho2, length_app, !length_fmap, !length_take. lia.
Qed.

End EmojiAcrossSessions.

(** C9 at work: in the lobby of match 1 Ada sends seven emojis, both
    players leave and come back, and Ada sends seven emojis again. *)
Lemma C9_emoji_allowance_restarts_witness :
  game_states Cases.session_left !! 1 = None ∧
  ∀ v,
    delivered Scenario.bob v (sent_of Cases.first_burst)
      = f_emoji_received <$> take 5 Cases.seven_emojis ∧
    delivered Scenario.bob v (sent_of Cases.second_burst)
      = f_emoji_received <$> take 5 Cases.seven_emojis ∧
    length (delivered Scenario.bob v
              (sent_of Cases.first_burst ++ sent_of Cases.second_burst))
      = 10%nat.
Proof.
  assert (matches (db Scenario.lobby) !! 1
          = Some (mkMatch 1 2 0 0 None in_progress 0 5 (Some (0 # 1)) None)) as Hm
    by (vm_compute; reflexivity).
  assert (game_states Scenario.lobby !! 1
          = Some (mkGameState {[1; 2]} 0 ∅ None ∅)) as Hst
    by (vm_compute; reflexivity).
  assert (2 ≠ 1) as Hne by lia.
  assert (5 ≤ length Cases.seven_emojis)%nat as Hlen by (simpl; lia).
  destruct (C9_emoji_allowance_restarts Scenario.ada Scenario.bob Scenario.lobby
              _ _ Cases.seven_emojis Cases.seven_emojis
              eq_refl eq_refl eq_refl Hne Hm (or_introl eq_refl)
              (or_intror eq_refl) Hst (reflexivity _) eq_refl)
    as (_ & _ & Hgone & Hout).
  split; [exact Hgone|].
  intros v. destruct (Hout v) as (H1 & H2 & _ & Hten).
  split; [exact H1|]. split; [exact H2|]. exact (Hten Hlen Hlen).
Defined.
